(** * RAGFlow batch uploader: a shallow embedding of [ragflow_uploader.py]

    The module [ragflow_uploader.py] synchronises a local directory into a
    remote RAGFlow dataset.  This development embeds the methods of
    [RAGFlowUploader] and [main] as functions in a small state, exception and
    trace monad over an abstract environment (remote service and file system),
    and proves properties of collection resolution, inventory pagination,
    name-based deduplication, batching and fault isolation. *)

From Stdlib Require Import ZArith Lia Ascii String.
From stdpp Require Import base gmap list strings.

Open Scope Z_scope.

(** ** Data model *)

(** Python exceptions that the program raises or distinguishes.  All of them
    derive from [Exception]; [TypeError] is the capability-mismatch signal of
    the paginated listing call. *)
Inductive exn : Type :=
| TypeError
| ValueError
| AttributeError
| FileNotFoundError
| NotADirectoryError
| OtherException (what : string).

(** The result of one call into the environment. *)
Inductive result (A : Type) : Type :=
| Ok (a : A)
| Raise (e : exn).
Arguments Ok {A} a.
Arguments Raise {A} e.

(** The outcome of a computation of the program: a value, a propagating
    exception, or exhaustion of the fuel of the pagination loop. *)
Inductive outcome (A : Type) : Type :=
| Done (a : A)
| Throw (e : exn)
| OutOfFuel.
Arguments Done {A} a.
Arguments Throw {A} e.
Arguments OutOfFuel {A}.

Definition bytes : Type := list Byte.byte.

(** A [pathlib.Path]: the directory components and the final component. *)
Record Path : Type := mkPath {
  path_dir : list string;
  path_name : string            (* [file_path.name] *)
}.

(** [str(file_path)] *)
Definition path_str (p : Path) : string :=
  String.concat "/"%string (path_dir p ++ [path_name p]).

(** The dict [{'display_name': ..., 'blob': ...}] of one prepared file. *)
Record Document : Type := mkDocument {
  display_name : string;
  blob : bytes
}.

(** A document object of the SDK; an attribute may be absent ([getattr] with
    a default, [hasattr]). *)
Record RemoteDoc : Type := mkRemoteDoc {
  doc_id : option string;
  doc_name : option string;
  doc_display_name : option string
}.

(** A dataset handle of the SDK. *)
Record DataSet : Type := mkDataSet {
  ds_id : option string;
  ds_name : string
}.

(** Command-line arguments as parsed in [main]. *)
Record Args : Type := mkArgs {
  api_key : string;
  base_url : string;
  dataset_name : string;
  directory : string;
  batch_size : Z;
  no_parse : bool;
  skip_existing : bool;
  log_file : option string
}.

(** The locals of [upload_files] that its summary reports, as they stand
    when the function returns (the Python function itself returns [None]). *)
Record UploadStats : Type := mkStats {
  total_files : Z;
  successful_uploads : Z;
  failed_uploads : list string;
  skipped_files : list string;
  files_to_upload : list Path
}.

(** ** Observable events

    Every call into the remote service and every file read is recorded with
    its arguments and its result.  Of the console and log output the [print]
    calls, the warnings, errors and per-file success records, and the summary
    block are recorded as structured messages; purely diagnostic [debug] and
    [info] lines and the wall-clock measurements are left out. *)

Inductive Level : Type := INFO | SUCCESS | WARNING | ERROR.

Inductive Msg : Type :=
| MsgLookupFailed (e : exn)                      (* line 103 *)
| MsgCreateFailed (e : exn)                      (* line 117 *)
| MsgPageLimit                                   (* line 173 *)
| MsgInventoryFailed (e : exn)                   (* line 189 *)
| MsgDirMissing (d : string)                     (* line 227 *)
| MsgNotADir (d : string)                        (* line 231 *)
| MsgNothingToUpload                             (* line 296 *)
| MsgReadFailed (p : string) (e : exn)           (* lines 323-324 *)
| MsgFileUploaded (name : string)                (* line 343 *)
| MsgBatchUploaded (batch_num : Z) (count : Z)   (* lines 345-346 *)
| MsgBatchFailed (batch_num : Z) (e : exn)       (* lines 349-350 *)
| MsgFileFailed (name : string)                  (* line 355 *)
| MsgSummary (total skipped attempted succeeded failed : Z) (* lines 362-375 *)
| MsgUploadDone (skipped succeeded : Z)          (* lines 377-380 *)
| MsgFailedCount (failed : Z)                    (* line 382 *)
| MsgFailedHeader                                (* lines 383-384 *)
| MsgFailedEntry (name : string)                 (* lines 386-387 *)
| MsgSkippedHeader                               (* line 391 *)
| MsgSkippedEntry (name : string)                (* line 393 *)
| MsgNoDocsToParse                               (* lines 410-411 *)
| MsgParseStarting (count : Z)                   (* line 424 *)
| MsgParseStarted                                (* lines 428-429 *)
| MsgParseFailed (e : exn)                       (* lines 432-433 *)
| MsgNoFilesFound                                (* lines 523-524 *)
| MsgParseSkipped                                (* line 535 *)
| MsgFinished                                    (* lines 541-542 *)
| MsgRunFailed (e : exn).                        (* lines 549-550 *)

Inductive Event : Type :=
| EvListDatasets (name : string) (r : result (list DataSet))
| EvCreateDataset (name description chunk_method permission : string)
                  (r : result DataSet)
| EvListDocuments (ds : DataSet) (paging : option (Z * Z))
                  (r : result (list RemoteDoc))
| EvUploadDocuments (ds : DataSet) (docs : list Document) (r : result unit)
| EvAsyncParse (ds : DataSet) (ids : list string) (r : result unit)
| EvOpenRead (p : Path) (r : result bytes)
| EvLog (lvl : Level) (m : Msg)
| EvPrint (m : Msg).

Definition Trace : Type := list Event.

(** ** Python built-ins used by the program *)

(** [range(start, stop, step)] as the list of its elements; a zero step
    raises [ValueError]. *)
Definition range_len (start stop step : Z) : Z :=
  if 0 <? step then
    (if start <? stop then (stop - start - 1) / step + 1 else 0)
  else
    (if stop <? start then (start - stop - 1) / (- step) + 1 else 0).

Definition py_range (start stop step : Z) : result (list Z) :=
  if step =? 0 then Raise ValueError
  else Ok ((fun k => start + k * step) <$> seqZ 0 (range_len start stop step)).

(** [l[i:j]]: a negative bound counts from the end, and both are clamped. *)
Definition slice_bound (len k : Z) : Z :=
  if k <? 0 then Z.max 0 (k + len) else Z.min k len.

Definition py_slice {A} (l : list A) (i j : Z) : list A :=
  let len := Z.of_nat (length l) in
  let a := slice_bound len i in
  let b := slice_bound len j in
  take (Z.to_nat (b - a)) (drop (Z.to_nat a) l).

(** [len(l)] *)
Definition len {A} (l : list A) : Z := Z.of_nat (length l).

(** [str.lower()] on ASCII letters. *)
Definition ascii_lower (c : ascii) : ascii :=
  let n := nat_of_ascii c in
  if ((65 <=? n) && (n <=? 90))%nat then ascii_of_nat (n + 32) else c.

Fixpoint lower (s : string) : string :=
  match s with
  | EmptyString => EmptyString
  | String c s' => String (ascii_lower c) (lower s')
  end.

(** [name.rfind('.')], counting from index [i] of the first character. *)
Fixpoint rfind_dot (s : string) (i : nat) : option nat :=
  match s with
  | EmptyString => None
  | String c s' =>
      match rfind_dot s' (S i) with
      | Some j => Some j
      | None => if Ascii.eqb c "."%char then Some i else None
      end
  end.

(** [Path.suffix]: the last dot-separated part of the final component, with
    its dot, when the dot is neither the first nor the last character. *)
Definition suffix (p : Path) : string :=
  let name := path_name p in
  match rfind_dot name 0 with
  | Some i =>
      if ((0 <? i) && (i <? String.length name - 1))%nat
      then substring i (String.length name - i) name
      else ""%string
  | None => ""%string
  end.

Definition supported_extensions : list string :=
  [".txt"; ".md"; ".pdf"; ".doc"; ".docx";
   ".ppt"; ".pptx"; ".xls"; ".xlsx"; ".csv";
   ".html"; ".htm"; ".json"; ".xml"; ".rtf"]%string.

(** [RAGFlowUploader.is_supported_file] *)
Definition is_supported_file (file_path : Path) : bool :=
  let file_ext := lower (suffix file_path) in
  bool_decide (file_ext ∈ supported_extensions).

(** ** The environment *)

(** The remote client capability and the file system, over a world state
    that each call may read and change. *)
Class Environment (World : Type) : Type := {
  rag_list_datasets : string -> World -> result (list DataSet) * World;
  rag_create_dataset :
    string -> string -> string -> string -> World -> result DataSet * World;
  ds_list_documents :
    DataSet -> option (Z * Z) -> World -> result (list RemoteDoc) * World;
  ds_upload_documents :
    DataSet -> list Document -> World -> result unit * World;
  ds_async_parse_documents :
    DataSet -> list string -> World -> result unit * World;
  fs_exists : string -> World -> bool;
  fs_is_dir : string -> World -> bool;
  fs_rglob : string -> World -> list Path;
  fs_is_file : Path -> World -> bool;
  fs_read_bytes : Path -> World -> result bytes * World
}.

(** ** The monad of the program *)

Definition M (World : Type) (A : Type) : Type :=
  World -> outcome A * World * Trace.

Section Monad.
Context {World : Type}.

Definition ret {A} (a : A) : M World A := fun w => (Done a, w, []).

Definition bind {A B} (m : M World A) (f : A -> M World B) : M World B :=
  fun w =>
    match m w with
    | (Done a, w1, t1) =>
        match f a w1 with (r, w2, t2) => (r, w2, t1 ++ t2) end
    | (Throw e, w1, t1) => (Throw e, w1, t1)
    | (OutOfFuel, w1, t1) => (OutOfFuel, w1, t1)
    end.

(** [raise e] *)
Definition throw {A} (e : exn) : M World A := fun w => (Throw e, w, []).

(** [try: m  except Exception as e: h e] *)
Definition try_except {A} (m : M World A) (h : exn -> M World A) : M World A :=
  fun w =>
    match m w with
    | (Throw e, w1, t1) =>
        match h e w1 with (r, w2, t2) => (r, w2, t1 ++ t2) end
    | other => other
    end.

Definition emit (evs : Trace) : M World unit := fun w => (Done tt, w, evs).

(** A call into the environment, recorded in the trace. *)
Definition call {A} (op : World -> result A * World)
    (ev : result A -> Event) : M World A :=
  fun w =>
    match op w with
    | (Ok a, w1) => (Done a, w1, [ev (Ok a)])
    | (Raise e, w1) => (Throw e, w1, [ev (Raise e)])
    end.

Definition of_result {A} (r : result A) : M World A :=
  match r with Ok a => ret a | Raise e => throw e end.

Definition get_world : M World World := fun w => (Done w, w, []).
End Monad.

Notation "'let*' x ':=' m 'in' k" := (bind m (fun x => k))
  (at level 10, x pattern, m at level 200, k at level 200,
   format "'[v' 'let*'  x  ':='  m  'in' '/' k ']'").
Notation "m ';;' k" := (bind m (fun _ => k))
  (at level 100, k at level 200, right associativity).

(** ** The program *)

Section Program.
Context {World : Type} {env : Environment World}.

(** *** Calls into the remote client and the file system *)

Definition list_datasets (name : string) : M World (list DataSet) :=
  call (rag_list_datasets name) (EvListDatasets name).

Definition create_dataset (name description chunk_method permission : string)
    : M World DataSet :=
  call (rag_create_dataset name description chunk_method permission)
       (EvCreateDataset name description chunk_method permission).

Definition list_documents (dataset : DataSet) (paging : option (Z * Z))
    : M World (list RemoteDoc) :=
  call (ds_list_documents dataset paging) (EvListDocuments dataset paging).

Definition upload_documents (dataset : DataSet) (docs : list Document)
    : M World unit :=
  call (ds_upload_documents dataset docs) (EvUploadDocuments dataset docs).

Definition async_parse_documents (dataset : DataSet) (ids : list string)
    : M World unit :=
  call (ds_async_parse_documents dataset ids) (EvAsyncParse dataset ids).

(** [with open(file_path, 'rb') as f: f.read()] *)
Definition open_read (file_path : Path) : M World bytes :=
  call (fs_read_bytes file_path) (EvOpenRead file_path).

(** *** [get_or_create_dataset] (lines 81-118) *)

Definition dataset_description (dataset_name : string) : string :=
  ("通过脚本自动创建的知识库：" ++ dataset_name)%string.

Definition get_or_create_dataset (dataset_name : string) : M World DataSet :=
  let* found :=
    try_except
      (let* datasets := list_datasets dataset_name in
       match datasets with
       | d :: _ => ret (Some d)
       | [] => ret None
       end)
      (fun e => emit [EvLog ERROR (MsgLookupFailed e)];; ret None) in
  match found with
  | Some d => ret d
  | None =>
      try_except
        (let* dataset :=
           create_dataset dataset_name (dataset_description dataset_name)
                          "naive" "me" in
         ret dataset)
        (fun e => emit [EvLog ERROR (MsgCreateFailed e)];; throw e)
  end.

(** *** [get_existing_documents] (lines 120-191) *)

Definition page_size : Z := 50.

(** [getattr(doc, 'name', getattr(doc, 'display_name', f'unknown_{doc.id}'))]:
    the defaults are evaluated first, so a document without [id] raises. *)
Definition doc_key (doc : RemoteDoc) : result string :=
  match doc_id doc with
  | None => Raise AttributeError
  | Some i =>
      Ok (match doc_name doc with
          | Some n => n
          | None =>
              match doc_display_name doc with
              | Some d => d
              | None => ("unknown_" ++ i)%string
              end
          end)
  end.

(** [for doc in documents: existing_docs[doc_name] = doc] *)
Fixpoint add_documents (documents : list RemoteDoc)
    (existing_docs : gmap string RemoteDoc) : result (gmap string RemoteDoc) :=
  match documents with
  | [] => Ok existing_docs
  | doc :: rest =>
      match doc_key doc with
      | Ok doc_name => add_documents rest (<[doc_name := doc]> existing_docs)
      | Raise e => Raise e
      end
  end.

(** The [while True] loop of lines 136-174; [fuel] bounds its iterations. *)
Fixpoint pages_loop (fuel : nat) (dataset : DataSet) (page : Z)
    (existing_docs : gmap string RemoteDoc) : M World (gmap string RemoteDoc) :=
  match fuel with
  | O => fun w => (OutOfFuel, w, [])
  | S fuel' =>
      let* listed :=
        try_except
          (let* documents := list_documents dataset (Some (page, page_size)) in
           ret (Some documents))
          (fun e => match e with TypeError => ret None | _ => throw e end) in
      match listed with
      | None =>
          let* documents := list_documents dataset None in
          let* existing_docs := of_result (add_documents documents existing_docs) in
          ret existing_docs
      | Some [] => ret existing_docs
      | Some documents =>
          let* existing_docs := of_result (add_documents documents existing_docs) in
          if len documents <? page_size then ret existing_docs
          else
            let page := page + 1 in
            if 1000 <? page then
              emit [EvLog WARNING MsgPageLimit];; ret existing_docs
            else pages_loop fuel' dataset page existing_docs
      end
  end.

Definition get_existing_documents (dataset : DataSet)
    : M World (gmap string RemoteDoc) :=
  try_except
    (pages_loop 1000 dataset 1 ∅)
    (fun e => emit [EvLog ERROR (MsgInventoryFailed e)];; ret ∅).

(** *** [get_files_from_directory] (lines 213-255) *)

Definition get_files_from_directory (directory : string) : M World (list Path) :=
  let* w := get_world in
  if negb (fs_exists directory w) then
    emit [EvLog ERROR (MsgDirMissing directory)];; throw FileNotFoundError
  else if negb (fs_is_dir directory w) then
    emit [EvLog ERROR (MsgNotADir directory)];; throw NotADirectoryError
  else
    ret (List.filter
           (fun file_path => fs_is_file file_path w && is_supported_file file_path)
           (fs_rglob directory w)).

(** *** [upload_files] (lines 257-393) *)

(** One iteration of the filtering loop of lines 284-290. *)
Definition filter_step (skip_existing : bool)
    (existing_docs : gmap string RemoteDoc)
    (st : list string * list Path) (file_path : Path)
    : list string * list Path :=
  let '(skipped_files, files_to_upload) := st in
  let file_name := path_name file_path in
  if skip_existing && bool_decide (is_Some (existing_docs !! file_name)) then
    (skipped_files ++ [path_str file_path], files_to_upload)
  else
    (skipped_files, files_to_upload ++ [file_path]).

Definition filter_files (skip_existing : bool)
    (existing_docs : gmap string RemoteDoc) (file_paths : list Path)
    : list string * list Path :=
  foldl (filter_step skip_existing existing_docs) ([], []) file_paths.

(** The preparation loop of lines 308-326 over the files of one batch. *)
Fixpoint prepare_batch (batch_files : list Path)
    (batch_documents : list Document) (failed_uploads : list string)
    : M World (list Document * list string) :=
  match batch_files with
  | [] => ret (batch_documents, failed_uploads)
  | file_path :: rest =>
      let* read :=
        try_except
          (let* file_content := open_read file_path in
           ret (Ok file_content))
          (fun e => ret (Raise e)) in
      match read with
      | Ok file_content =>
          let document := mkDocument (path_name file_path) file_content in
          prepare_batch rest (batch_documents ++ [document]) failed_uploads
      | Raise e =>
          emit [EvLog ERROR (MsgReadFailed (path_str file_path) e);
                EvPrint (MsgReadFailed (path_str file_path) e)];;
          prepare_batch rest batch_documents
                        (failed_uploads ++ [path_str file_path])
      end
  end.

(** The body of the batch loop, lines 301-355, for the batch starting at
    index [i]. *)
Definition upload_batch (dataset : DataSet) (files_to_upload : list Path)
    (batch_size : Z) (i : Z) (acc : Z * list string) : M World (Z * list string) :=
  let '(successful_uploads, failed_uploads) := acc in
  let batch_num := i / batch_size + 1 in
  let batch_files := py_slice files_to_upload i (i + batch_size) in
  let* (batch_documents, failed_uploads) :=
    prepare_batch batch_files [] failed_uploads in
  match batch_documents with
  | [] => ret (successful_uploads, failed_uploads)
  | _ =>
      try_except
        (upload_documents dataset batch_documents;;
         let successful_uploads := successful_uploads + len batch_documents in
         emit ((fun doc => EvLog SUCCESS (MsgFileUploaded (display_name doc)))
                 <$> batch_documents);;
         emit [EvLog SUCCESS (MsgBatchUploaded batch_num (len batch_documents));
               EvPrint (MsgBatchUploaded batch_num (len batch_documents))];;
         ret (successful_uploads, failed_uploads))
        (fun e =>
           emit [EvLog ERROR (MsgBatchFailed batch_num e);
                 EvPrint (MsgBatchFailed batch_num e)];;
           emit ((fun doc => EvLog ERROR (MsgFileFailed (display_name doc)))
                   <$> batch_documents);;
           ret (successful_uploads,
                failed_uploads ++ (display_name <$> batch_documents)))
  end.

(** The batch loop of line 300 over the indices of the range. *)
Fixpoint upload_batches (dataset : DataSet) (files_to_upload : list Path)
    (batch_size : Z) (indices : list Z) (acc : Z * list string)
    : M World (Z * list string) :=
  match indices with
  | [] => ret acc
  | i :: rest =>
      let* acc := upload_batch dataset files_to_upload batch_size i acc in
      upload_batches dataset files_to_upload batch_size rest acc
  end.

(** The summary block of lines 361-393. *)
Definition summary_events (st : UploadStats) : Trace :=
  [EvLog INFO (MsgSummary (total_files st) (len (skipped_files st))
                          (len (files_to_upload st)) (successful_uploads st)
                          (len (failed_uploads st)));
   EvPrint (MsgUploadDone (len (skipped_files st)) (successful_uploads st))]
  ++ match failed_uploads st with
     | [] => []
     | failed =>
         [EvPrint (MsgFailedCount (len failed));
          EvLog WARNING MsgFailedHeader; EvPrint MsgFailedHeader]
         ++ concat ((fun f => [EvLog ERROR (MsgFailedEntry f);
                               EvPrint (MsgFailedEntry f)]) <$> failed)
     end
  ++ match skipped_files st with
     | [] => []
     | skipped =>
         EvLog INFO MsgSkippedHeader
         :: ((fun f => EvLog INFO (MsgSkippedEntry f)) <$> skipped)
     end.

Definition upload_files (dataset : DataSet) (file_paths : list Path)
    (batch_size : Z) (skip_existing : bool) : M World UploadStats :=
  let total_files := len file_paths in
  let* existing_docs :=
    (if skip_existing then get_existing_documents dataset else ret ∅) in
  let '(skipped_files, files_to_upload) :=
    filter_files skip_existing existing_docs file_paths in
  match files_to_upload with
  | [] =>
      emit [EvLog INFO MsgNothingToUpload];;
      ret (mkStats total_files 0 [] skipped_files files_to_upload)
  | _ =>
      let* indices := of_result (py_range 0 (len files_to_upload) batch_size) in
      let* (successful_uploads, failed_uploads) :=
        upload_batches dataset files_to_upload batch_size indices (0, []) in
      let st := mkStats total_files successful_uploads failed_uploads
                        skipped_files files_to_upload in
      emit (summary_events st);;
      ret st
  end.

(** *** [start_parsing] (lines 395-433) *)

(** [[doc.id for doc in documents]] *)
Fixpoint doc_ids (documents : list RemoteDoc) : result (list string) :=
  match documents with
  | [] => Ok []
  | doc :: rest =>
      match doc_id doc with
      | None => Raise AttributeError
      | Some i =>
          match doc_ids rest with
          | Ok ids => Ok (i :: ids)
          | Raise e => Raise e
          end
      end
  end.

Definition start_parsing (dataset : DataSet) : M World unit :=
  try_except
    (let* documents := list_documents dataset None in
     match documents with
     | [] => emit [EvLog WARNING MsgNoDocsToParse; EvPrint MsgNoDocsToParse]
     | _ =>
         let* ids := of_result (doc_ids documents) in
         emit [EvPrint (MsgParseStarting (len ids))];;
         async_parse_documents dataset ids;;
         emit [EvLog SUCCESS MsgParseStarted; EvPrint MsgParseStarted]
     end)
    (fun e => emit [EvLog ERROR (MsgParseFailed e); EvPrint (MsgParseFailed e)]).

(** *** [main] (lines 436-551)

    The result is the exit status of the process: 0 when [main] returns,
    1 when it calls [sys.exit(1)].  Constructing the uploader configures
    the logger and the client object and calls nothing remote.  An
    interrupt from the keyboard is not an event of this model. *)
Definition main (args : Args) : M World Z :=
  try_except
    (let* dataset := get_or_create_dataset (dataset_name args) in
     let* file_paths := get_files_from_directory (directory args) in
     match file_paths with
     | [] =>
         emit [EvLog WARNING MsgNoFilesFound; EvPrint MsgNoFilesFound];;
         ret 0
     | _ =>
         upload_files dataset file_paths (batch_size args) (skip_existing args);;
         (if negb (no_parse args) then start_parsing dataset
          else emit [EvPrint MsgParseSkipped]);;
         emit [EvLog SUCCESS MsgFinished; EvPrint MsgFinished];;
         ret 0
     end)
    (fun e =>
       emit [EvLog ERROR (MsgRunFailed e); EvPrint (MsgRunFailed e)];;
       ret 1).

End Program.

(** ** A scripted environment

    A concrete world on which the program can be run: a file tree, a remote
    inventory and scripted failures. *)

Module Mock.

Record world : Type := mkWorld {
dirs : list string;              (* existing directories *)
plain_files : list string;       (* existing paths that are not directories *)
tree : list Path;                (* regular files below the directories *)
unreadable : list string;        (* file names whose read raises *)
datasets : list DataSet;         (* datasets the lookup returns *)
lookup_fails : bool;
create_fails : bool;
remote : list RemoteDoc;         (* documents of the dataset *)
endless : bool;                  (* every page comes back full *)
paging_supported : bool;
paged_listing_fails : bool;
plain_listing_fails : bool;
failing_uploads : list nat;      (* upload calls, from 0, that raise *)
uploads : nat;                   (* upload calls made so far *)
parse_fails : bool
}.

Definition filler : RemoteDoc :=
mkRemoteDoc (Some "0"%string) (Some "filler.md"%string) None.

Definition created (name : string) : DataSet :=
mkDataSet (Some "new"%string) name.

Definition list_page (w : world) (paging : option (Z * Z))
  : result (list RemoteDoc) :=
match paging with
| Some (page, size) =>
    if paged_listing_fails w then Raise (OtherException "listing"%string)
    else if negb (paging_supported w) then Raise TypeError
    else if endless w then Ok (replicate (Z.to_nat size) filler)
    else Ok (take (Z.to_nat size)
                  (drop (Z.to_nat ((page - 1) * size)) (remote w)))
| None =>
    if plain_listing_fails w then Raise (OtherException "listing"%string)
    else Ok (remote w)
end.

Definition count_upload (w : world) : world :=
mkWorld (dirs w) (plain_files w) (tree w) (unreadable w) (datasets w)
        (lookup_fails w) (create_fails w) (remote w) (endless w)
        (paging_supported w) (paged_listing_fails w)
        (plain_listing_fails w) (failing_uploads w) (S (uploads w))
        (parse_fails w).

#[global] Instance environment : Environment world := {|
rag_list_datasets name w :=
  (if lookup_fails w then Raise (OtherException "lookup"%string)
   else Ok (List.filter (fun d => String.eqb (ds_name d) name) (datasets w)),
   w);
rag_create_dataset name description chunk_method permission w :=
  (if create_fails w then Raise (OtherException "create"%string)
   else Ok (created name), w);
ds_list_documents dataset paging w := (list_page w paging, w);
ds_upload_documents dataset docs w :=
  (if bool_decide (uploads w ∈ failing_uploads w)
   then Raise (OtherException "upload"%string) else Ok tt,
   count_upload w);
ds_async_parse_documents dataset ids w :=
  (if parse_fails w then Raise (OtherException "parse"%string) else Ok tt, w);
fs_exists d w := bool_decide (d ∈ dirs w ++ plain_files w);
fs_is_dir d w := bool_decide (d ∈ dirs w);
fs_rglob d w := tree w;
fs_is_file p w := true;
fs_read_bytes p w :=
  (if bool_decide (path_name p ∈ unreadable w)
   then Raise (OtherException "read"%string) else Ok [], w)
|}.

(** A world with one directory ["docs"], no remote documents and no
  failures, holding the given files. *)
Definition quiet (files : list Path) : world :=
mkWorld ["docs"%string] [] files [] [] false false [] false true false
        false [] 0 false.

Definition file (name : string) : Path := mkPath ["docs"%string] name.

Definition kb : DataSet := mkDataSet (Some "kb1"%string) "kb"%string.

(** Seven supported files in one directory. *)
Definition seven : list Path :=
  file <$> ["a.md"; "b.md"; "c.md"; "d.md"; "e.md"; "f.md"; "g.md"]%string.

(** The first upload call raises. *)
Definition first_upload_fails (files : list Path) : world :=
  mkWorld ["docs"%string] [] files [] [] false false [] false true false
          false [0%nat] 0 false.

(** The file [b.md] cannot be read. *)
Definition one_unreadable (files : list Path) : world :=
  mkWorld ["docs"%string] [] files ["b.md"%string] [] false false [] false
          true false false [] 0 false.

(** The dataset already holds a document named [a.md]. *)
Definition already_there (files : list Path) : world :=
  mkWorld ["docs"%string] [] files [] [] false false
          [mkRemoteDoc (Some "1"%string) (Some "a.md"%string) None]
          false true false false [] 0 false.

(** The paginated listing raises a service error. *)
Definition listing_broken (files : list Path) : world :=
  mkWorld ["docs"%string] [] files [] [] false false
          [mkRemoteDoc (Some "1"%string) (Some "a.md"%string) None]
          false true true false [] 0 false.



(** Both the lookup and the creation of the dataset raise. *)
Definition resolution_broken : world :=
  mkWorld ["docs"%string] [] [] [] [] true true [] false true false
          false [] 0 false.

(** A command line naming a directory that does not exist. *)
Definition missing_directory : Args :=
  mkArgs "key"%string "http://localhost:9380"%string "kb"%string
         "missing"%string 5 false false None.

(** The dataset holds a document that has a name but no id. *)
Definition id_missing (files : list Path) : world :=
  mkWorld ["docs"%string] [] files [] [] false false
          [mkRemoteDoc None (Some "a.md"%string) None]
          false true false false [] 0 false.

(** A command line for the directory ["docs"], in batches of five. *)
Definition upload_docs : Args :=
  mkArgs "key"%string "http://localhost:9380"%string "kb"%string
         "docs"%string 5 false false None.


End Mock.

(** ** Observations on runs and traces *)

Definition result_of {W A} (run : outcome A * W * Trace) : outcome A := run.1.1.
Definition world_of {W A} (run : outcome A * W * Trace) : W := run.1.2.
Definition trace_of {W A} (run : outcome A * W * Trace) : Trace := run.2.

(** Calls into the remote service. *)
Definition is_remote_call (e : Event) : bool :=
  match e with
  | EvListDatasets _ _ | EvCreateDataset _ _ _ _ _ | EvListDocuments _ _ _
  | EvUploadDocuments _ _ _ | EvAsyncParse _ _ _ => true
  | _ => false
  end.

Definition remote_calls (t : Trace) : Trace := List.filter is_remote_call t.

(** Collection lookup and creation. *)
Definition is_collection_call (e : Event) : bool :=
  match e with
  | EvListDatasets _ _ | EvCreateDataset _ _ _ _ _ => true
  | _ => false
  end.

(** Console and log output. *)
Definition is_output (e : Event) : bool :=
  match e with
  | EvLog _ _ | EvPrint _ => true
  | _ => false
  end.

(** The upload calls of a trace: payload and result. *)
Definition upload_calls (t : Trace) : list (list Document * result unit) :=
  flat_map (fun e => match e with
                     | EvUploadDocuments _ docs r => [(docs, r)]
                     | _ => []
                     end) t.

(** The files opened for reading, in order. *)
Definition read_paths (t : Trace) : list Path :=
  flat_map (fun e => match e with EvOpenRead p _ => [p] | _ => [] end) t.

(** The documents prepared from the reads that returned. *)
Definition prepared (t : Trace) : list Document :=
  flat_map (fun e => match e with
                     | EvOpenRead p (Ok content) => [mkDocument (path_name p) content]
                     | _ => []
                     end) t.

(** The files whose read raised. *)
Definition unreadable_paths (t : Trace) : list Path :=
  flat_map (fun e => match e with EvOpenRead p (Raise _) => [p] | _ => [] end) t.

(** The names a trace gives rise to in [failed_uploads], in order: the path
    of a file whose read raised, the display names of a payload whose upload
    call raised. *)
Definition trace_failed (t : Trace) : list string :=
  flat_map (fun e => match e with
                     | EvOpenRead p (Raise _) => [path_str p]
                     | EvUploadDocuments _ docs (Raise _) => display_name <$> docs
                     | _ => []
                     end) t.

(** The display names of the payloads whose upload call returned. *)
Definition trace_succeeded (t : Trace) : list string :=
  flat_map (fun e => match e with
                     | EvUploadDocuments _ docs (Ok _) => display_name <$> docs
                     | _ => []
                     end) t.

(** The per-file success records written to the log. *)
Definition logged_succeeded (t : Trace) : list string :=
  flat_map (fun e => match e with
                     | EvLog SUCCESS (MsgFileUploaded name) => [name]
                     | _ => []
                     end) t.

(** Names of the payloads of the upload calls that returned, resp. raised. *)
Definition succeeded_names (calls : list (list Document * result unit))
    : list string :=
  flat_map (fun c => match c.2 with Ok _ => display_name <$> c.1 | Raise _ => [] end)
           calls.

Definition failed_names (calls : list (list Document * result unit))
    : list string :=
  flat_map (fun c => match c.2 with Ok _ => [] | Raise _ => display_name <$> c.1 end)
           calls.

Definition call_returned {A B} (c : A * result B) : Prop :=
  match c.2 with Ok _ => True | Raise _ => False end.

(** The document listing calls: paging arguments and result. *)
Definition listing_calls (t : Trace)
    : list (option (Z * Z) * result (list RemoteDoc)) :=
  flat_map (fun e => match e with
                     | EvListDocuments _ paging r => [(paging, r)]
                     | _ => []
                     end) t.

Definition paged_calls (t : Trace) : list (Z * Z * result (list RemoteDoc)) :=
  flat_map (fun e => match e with
                     | EvListDocuments _ (Some (page, size)) r => [(page, size, r)]
                     | _ => []
                     end) t.

Definition plain_calls (t : Trace) : list (result (list RemoteDoc)) :=
  flat_map (fun e => match e with
                     | EvListDocuments _ None r => [r]
                     | _ => []
                     end) t.

(** The documents returned by the listing calls, in order. *)
Definition listed_docs (t : Trace) : list RemoteDoc :=
  flat_map (fun e => match e with
                     | EvListDocuments _ _ (Ok docs) => docs
                     | _ => []
                     end) t.

(** A listing call that raised anything but the capability-mismatch signal
    of the paginated shape. *)
Definition unrecoverable_listing (e : Event) : bool :=
  match e with
  | EvListDocuments _ (Some _) (Raise TypeError) => false
  | EvListDocuments _ _ (Raise _) => true
  | _ => false
  end.


(** The events of the summary block. *)
Definition is_summary (e : Event) : bool :=
  match e with
  | EvLog _ (MsgSummary _ _ _ _ _) | EvPrint (MsgUploadDone _ _) => true
  | _ => false
  end.

(** The inventory phase of [upload_files], lines 276-280. *)
Definition reconcile {World} `{Environment World} (skip_existing : bool)
    (dataset : DataSet) : M World (gmap string RemoteDoc) :=
  if skip_existing then get_existing_documents dataset else ret ∅.

(** The control flow of the pagination loop as a relation between the page
    it starts from, the mapping so far, the events it emits and its outcome. *)
Inductive paging_run (ds : DataSet)
    : Z -> gmap string RemoteDoc -> Trace -> outcome (gmap string RemoteDoc) -> Prop :=
| paging_empty page acc :
    paging_run ds page acc
      [EvListDocuments ds (Some (page, page_size)) (Ok [])] (Done acc)
| paging_short page acc docs acc' :
    docs <> [] -> len docs < page_size ->
    add_documents docs acc = Ok acc' ->
    paging_run ds page acc
      [EvListDocuments ds (Some (page, page_size)) (Ok docs)] (Done acc')
| paging_limit page acc docs acc' :
    page_size <= len docs -> 1000 < page + 1 ->
    add_documents docs acc = Ok acc' ->
    paging_run ds page acc
      [EvListDocuments ds (Some (page, page_size)) (Ok docs);
       EvLog WARNING MsgPageLimit] (Done acc')
| paging_next page acc docs acc' t r :
    page_size <= len docs -> page + 1 <= 1000 ->
    add_documents docs acc = Ok acc' ->
    paging_run ds (page + 1) acc' t r ->
    paging_run ds page acc
      (EvListDocuments ds (Some (page, page_size)) (Ok docs) :: t) r
| paging_bad_document page acc docs e :
    docs <> [] -> add_documents docs acc = Raise e ->
    paging_run ds page acc
      [EvListDocuments ds (Some (page, page_size)) (Ok docs)] (Throw e)
| paging_error page acc e :
    e <> TypeError ->
    paging_run ds page acc
      [EvListDocuments ds (Some (page, page_size)) (Raise e)] (Throw e)
| paging_fallback page acc r :
    paging_run ds page acc
      [EvListDocuments ds (Some (page, page_size)) (Raise TypeError);
       EvListDocuments ds None r]
      (match r with
       | Ok docs =>
           match add_documents docs acc with
           | Ok acc' => Done acc'
           | Raise e => Throw e
           end
       | Raise e => Throw e
       end).

(** The mapping that a trace of listing calls amounts to: every document
    listed, keyed in order, unless a listing call failed for good or a
    document could not be keyed. *)
Definition inventory_of (t : Trace) : gmap string RemoteDoc :=
  if existsb unrecoverable_listing t then ∅
  else match add_documents (listed_docs t) ∅ with
       | Ok m => m
       | Raise _ => ∅
       end.


(** Events that neither read a file nor upload nor record a per-file
    success: document listings and the other output. *)
Definition is_background (e : Event) : bool :=
  match e with
  | EvListDocuments _ _ _ => true
  | EvLog SUCCESS (MsgFileUploaded _) => false
  | EvLog _ _ | EvPrint _ => true
  | _ => false
  end.

(** The events of reconciliation: document listings, the page-limit
    warning and the report of a failed reconciliation. *)
Definition is_inventory_event (e : Event) : bool :=
  match e with
  | EvListDocuments _ _ _ => true
  | EvLog WARNING MsgPageLimit => true
  | EvLog ERROR (MsgInventoryFailed _) => true
  | _ => false
  end.

(** What the events of one iteration of the batch loop look like for the
    batch [batch_files]: every file is opened, in order; the files whose
    read returned make up the payload of a single upload call, and there is
    no call when none did; the success records in the log are those of the
    payload of a call that returned; the failure records are the unreadable
    files followed by the payload of a call that raised. *)
Definition batch_ok (batch_files : list Path) (t : Trace) : Prop :=
  read_paths t = batch_files
  /\ ((prepared t = [] /\ upload_calls t = [])
      \/ (prepared t <> [] /\ exists r, upload_calls t = [(prepared t, r)]))
  /\ logged_succeeded t = trace_succeeded t
  /\ trace_failed t
     = (path_str <$> unreadable_paths t) ++ failed_names (upload_calls t)
  /\ remote_calls t
     = flat_map (fun e => match e with
                          | EvUploadDocuments _ _ _ => [e]
                          | _ => []
                          end) t.

(** The decision of the filtering loop for one file. *)
Definition skips (skip_existing : bool) (existing_docs : gmap string RemoteDoc)
    (file_path : Path) : bool :=
  skip_existing && bool_decide (path_name file_path ∈ dom existing_docs).

(** The shape of an extension of the supported set: a dot followed by a
    non-empty part without dots. *)
Definition plain_extension (e : string) : bool :=
  match e with
  | String c rest =>
      Ascii.eqb c "."%char && negb (String.eqb rest EmptyString)
      && match rfind_dot rest 0 with None => true | Some _ => false end
  | EmptyString => false
  end.

(** Whether the key of a document is [k]. *)
Definition key_is (k : string) (doc : RemoteDoc) : bool :=
  match doc_key doc with
  | Ok k' => String.eqb k' k
  | Raise _ => false
  end.

(** The events of the batch loop: reads, uploads and their records. *)
Definition is_batch_event (e : Event) : bool :=
  match e with
  | EvOpenRead _ _ | EvUploadDocuments _ _ _ => true
  | EvLog ERROR (MsgReadFailed _ _) | EvPrint (MsgReadFailed _ _) => true
  | EvLog SUCCESS (MsgFileUploaded _) => true
  | EvLog SUCCESS (MsgBatchUploaded _ _) | EvPrint (MsgBatchUploaded _ _) => true
  | EvLog ERROR (MsgBatchFailed _ _) | EvPrint (MsgBatchFailed _ _) => true
  | EvLog ERROR (MsgFileFailed _) => true
  | _ => false
  end.

(** The failed files listed on the console by the summary. *)
Definition printed_failed (t : Trace) : list string :=
  flat_map (fun e => match e with
                     | EvPrint (MsgFailedEntry f) => [f]
                     | _ => []
                     end) t.

(** The skipped files listed in the log by the summary. *)
Definition logged_skipped (t : Trace) : list string :=
  flat_map (fun e => match e with
                     | EvLog INFO (MsgSkippedEntry f) => [f]
                     | _ => []
                     end) t.

(** Requests for asynchronous parsing. *)
Definition parse_calls (t : Trace) : list (list string * result unit) :=
  flat_map (fun e => match e with
                     | EvAsyncParse _ ids r => [(ids, r)]
                     | _ => []
                     end) t.

(** Refutes membership of an event in an explicit list of other events. *)
Ltac not_in_trace :=
  let Hin := fresh "Hin" in
  intros Hin;
  repeat (apply elem_of_cons in Hin as [Hin|Hin]; [discriminate Hin|]);
  by apply elem_of_nil in Hin.

(** Unfolds the monad operations in the goal. *)
Ltac run_monad :=
  unfold bind, try_except, ret, throw, emit, of_result, get_world; simpl.

(** ** Running the monad *)

Section MonadFacts.
Context {World : Type}.

Lemma bind_done {A B} (m : M World A) (f : A -> M World B) w a w1 t1 :
  m w = (Done a, w1, t1) ->
  bind m f w = ((f a w1).1.1, (f a w1).1.2, t1 ++ (f a w1).2).
Proof. intros Hm. unfold bind. rewrite Hm. by destruct (f a w1) as [[??]?]. Qed.

Lemma bind_throw {A B} (m : M World A) (f : A -> M World B) w e w1 t1 :
  m w = (Throw e, w1, t1) -> bind m f w = (Throw e, w1, t1).
Proof. intros Hm. unfold bind. by rewrite Hm. Qed.

Lemma bind_out_of_fuel {A B} (m : M World A) (f : A -> M World B) w w1 t1 :
  m w = (OutOfFuel, w1, t1) -> bind m f w = (OutOfFuel, w1, t1).
Proof. intros Hm. unfold bind. by rewrite Hm. Qed.

Lemma try_except_done {A} (m : M World A) h w a w1 t1 :
  m w = (Done a, w1, t1) -> try_except m h w = (Done a, w1, t1).
Proof. intros Hm. unfold try_except. by rewrite Hm. Qed.

Lemma try_except_throw {A} (m : M World A) h w e w1 t1 :
  m w = (Throw e, w1, t1) ->
  try_except m h w = ((h e w1).1.1, (h e w1).1.2, t1 ++ (h e w1).2).
Proof.
  intros Hm. unfold try_except. rewrite Hm. by destruct (h e w1) as [[??]?].
Qed.

Lemma call_ok {A} (op : World -> result A * World) ev w a w1 :
  op w = (Ok a, w1) -> call op ev w = (Done a, w1, [ev (Ok a)]).
Proof. intros Hop. unfold call. by rewrite Hop. Qed.

Lemma call_raise {A} (op : World -> result A * World) ev w e w1 :
  op w = (Raise e, w1) -> call op ev w = (Throw e, w1, [ev (Raise e)]).
Proof. intros Hop. unfold call. by rewrite Hop. Qed.
End MonadFacts.

(** ** Collection resolution *)

Section Resolution.
Context {World : Type} {env : Environment World}.

Lemma get_or_create_dataset_cases (name : string) (w : World) :
  (exists d w1 t, get_or_create_dataset name w = (Done d, w1, t))
  \/ (exists e w0 w1 t0,
        rag_create_dataset name (dataset_description name) "naive" "me" w0
          = (Raise e, w1)
        /\ get_or_create_dataset name w
           = (Throw e, w1,
              t0 ++ [EvCreateDataset name (dataset_description name)
                                     "naive" "me" (Raise e);
                     EvLog ERROR (MsgCreateFailed e)])).
Proof.
  unfold get_or_create_dataset, list_datasets, create_dataset, call.
  run_monad.
  destruct (rag_list_datasets name w) as [[[|d ds]|e] w1] eqn:Hl; simpl;
    try (left; by eauto).
  - destruct (rag_create_dataset _ _ _ _ w1) as [[d|e] w2] eqn:Hc; simpl.
    + left; by eauto.
    + right. exists e, w1, w2, [EvListDatasets name (Ok [])]. by rewrite Hc.
  - destruct (rag_create_dataset _ _ _ _ w1) as [[d|e'] w2] eqn:Hc; simpl.
    + left; by eauto.
    + right.
      exists e', w1, w2,
        [EvListDatasets name (Raise e); EvLog ERROR (MsgLookupFailed e)].
      by rewrite Hc.
Qed.

Lemma get_or_create_dataset_only_collection_calls (name : string) (w : World) :
  Forall (fun ev => is_remote_call ev = true -> is_collection_call ev = true)
         (trace_of (get_or_create_dataset name w)).
Proof.
  unfold get_or_create_dataset, list_datasets, create_dataset, call, trace_of.
  run_monad.
  destruct (rag_list_datasets name w) as [[[|d ds]|e] w1]; simpl;
    try destruct (rag_create_dataset _ _ _ _ w1) as [[d'|e'] w2]; simpl;
    repeat constructor; done.
Qed.

Lemma main_dataset_failure (args : Args) (w w1 : World) e t :
  get_or_create_dataset (dataset_name args) w = (Throw e, w1, t) ->
  main args w
  = (Done 1, w1, t ++ [EvLog ERROR (MsgRunFailed e); EvPrint (MsgRunFailed e)]).
Proof.
  intros Hg. unfold main.
  erewrite try_except_throw; [|by apply bind_throw]. by run_monad.
Qed.

Lemma main_directory_missing (args : Args) (w w1 : World) d t :
  get_or_create_dataset (dataset_name args) w = (Done d, w1, t) ->
  fs_exists (directory args) w1 = false ->
  main args w
  = (Done 1, w1,
     t ++ [EvLog ERROR (MsgDirMissing (directory args));
           EvLog ERROR (MsgRunFailed FileNotFoundError);
           EvPrint (MsgRunFailed FileNotFoundError)]).
Proof.
  intros Hg Hd. unfold main, get_files_from_directory.
  unfold try_except, bind at 1. rewrite Hg.
  run_monad. rewrite Hd. simpl. by rewrite <- app_assoc.
Qed.

(** C10.  When the collection lookup raises, [get_or_create_dataset] logs
    the error and goes on to the creation call with chunk method naive and
    permission me; the function raises only when that creation call itself
    raised, it always terminates, and when it raises the run ends at once
    with exit status 1. *)
Theorem get_or_create_dataset_lookup_error_swallowed (name : string) (w : World) :
  (forall e w1,
      rag_list_datasets name w = (Raise e, w1) ->
      exists r w2,
        rag_create_dataset name (dataset_description name) "naive" "me" w1
          = (r, w2)
        /\ get_or_create_dataset name w
           = (match r with Ok d => Done d | Raise e' => Throw e' end, w2,
              [EvListDatasets name (Raise e);
               EvLog ERROR (MsgLookupFailed e);
               EvCreateDataset name (dataset_description name) "naive" "me" r]
              ++ match r with
                 | Ok _ => []
                 | Raise e' => [EvLog ERROR (MsgCreateFailed e')]
                 end))
  /\ (forall e' w' t,
         get_or_create_dataset name w = (Throw e', w', t) ->
         exists w0 t0,
           rag_create_dataset name (dataset_description name) "naive" "me" w0
             = (Raise e', w')
           /\ t = t0 ++ [EvCreateDataset name (dataset_description name)
                                         "naive" "me" (Raise e');
                         EvLog ERROR (MsgCreateFailed e')])
  /\ result_of (get_or_create_dataset name w) <> OutOfFuel
  /\ (forall args e' w' t,
         dataset_name args = name ->
         get_or_create_dataset name w = (Throw e', w', t) ->
         main args w
         = (Done 1, w',
            t ++ [EvLog ERROR (MsgRunFailed e'); EvPrint (MsgRunFailed e')])).
Proof.
  split; [|split; [|split]].
  - intros e w1 Hl.
    destruct (rag_create_dataset name (dataset_description name)
                "naive" "me" w1) as [r w2] eqn:Hc.
    exists r, w2. split; [done|].
    unfold get_or_create_dataset, list_datasets, create_dataset, call.
    run_monad. rewrite Hl. simpl. rewrite Hc. by destruct r.
  - intros e' w' t Hg.
    destruct (get_or_create_dataset_cases name w)
      as [(d & w1 & t1 & H1)|(e & w0 & w1 & t0 & Hc & H1)];
      rewrite H1 in Hg; [done|].
    injection Hg as -> -> <-. by exists w0, t0.
  - destruct (get_or_create_dataset_cases name w)
      as [(d & w1 & t1 & H1)|(e & w0 & w1 & t0 & Hc & H1)];
      by rewrite H1.
  - intros args e' w' t <- Hg. by apply main_dataset_failure.
Qed.

End Resolution.

(** ** A missing source directory *)

Section MissingDirectory.
Context {World : Type} {env : Environment World}.

Lemma get_or_create_dataset_remote_calls (name : string) (w : World) :
  exists r rest,
    remote_calls (trace_of (get_or_create_dataset name w))
      = EvListDatasets name r :: rest
    /\ (rest = []
        \/ exists r2, rest = [EvCreateDataset name (dataset_description name)
                                              "naive" "me" r2]).
Proof.
  unfold get_or_create_dataset, list_datasets, create_dataset, call, trace_of.
  run_monad.
  destruct (rag_list_datasets name w) as [[[|d ds]|e] w1]; simpl;
    try destruct (rag_create_dataset _ _ _ _ w1) as [[d'|e'] w2]; simpl;
    eexists _, _; (split; [reflexivity|]); eauto.
Qed.

Lemma remote_calls_app (t1 t2 : Trace) :
  remote_calls (t1 ++ t2) = remote_calls t1 ++ remote_calls t2.
Proof. apply List.filter_app. Qed.

(** C5, as the code has it.  When the source directory does not exist
    once the collection has been resolved, the run ends with exit status 1
    and, if the resolution succeeded, with the not-found error; the only
    remote calls of the run are those of the resolution (one lookup, then
    at most one creation): no document listing, upload or parse trigger is
    issued and no file is read. *)
Theorem main_missing_directory_aborts (args : Args) (w : World) :
  let resolution := get_or_create_dataset (dataset_name args) w in
  fs_exists (directory args) (world_of resolution) = false ->
  let run := main args w in
  result_of run = Done 1
  /\ world_of run = world_of resolution
  /\ (forall d, result_of resolution = Done d ->
        trace_of run
        = trace_of resolution
          ++ [EvLog ERROR (MsgDirMissing (directory args));
              EvLog ERROR (MsgRunFailed FileNotFoundError);
              EvPrint (MsgRunFailed FileNotFoundError)])
  /\ remote_calls (trace_of run) = remote_calls (trace_of resolution)
  /\ (exists r rest,
        remote_calls (trace_of run) = EvListDatasets (dataset_name args) r :: rest
        /\ (rest = []
            \/ exists r2,
                 rest = [EvCreateDataset (dataset_name args)
                           (dataset_description (dataset_name args))
                           "naive" "me" r2]))
  /\ read_paths (trace_of run) = [].
Proof.
  intros resolution Hdir run.
  assert (Hcalls := get_or_create_dataset_remote_calls (dataset_name args) w).
  assert (Hreads : read_paths (trace_of resolution) = []).
  { subst resolution.
    unfold get_or_create_dataset, list_datasets, create_dataset, call, trace_of.
    run_monad.
    destruct (rag_list_datasets _ w) as [[[|d ds]|e] w1]; simpl;
      try destruct (rag_create_dataset _ _ _ _ w1) as [[d'|e'] w2]; done. }
  destruct (get_or_create_dataset_cases (dataset_name args) w)
    as [(d & w1 & t1 & H1)|(e & w0 & w1 & t0 & Hc & H1)].
  - assert (Hrun : run = (Done 1, w1,
               t1 ++ [EvLog ERROR (MsgDirMissing (directory args));
                      EvLog ERROR (MsgRunFailed FileNotFoundError);
                      EvPrint (MsgRunFailed FileNotFoundError)])).
    { apply (main_directory_missing args w w1 d t1 H1).
      subst resolution. by rewrite H1 in Hdir. }
    subst resolution. rewrite H1 in *. rewrite Hrun.
    unfold result_of, world_of, trace_of in *; simpl in *.
    assert (Hrc : remote_calls
              (t1 ++ [EvLog ERROR (MsgDirMissing (directory args));
                      EvLog ERROR (MsgRunFailed FileNotFoundError);
                      EvPrint (MsgRunFailed FileNotFoundError)])
            = remote_calls t1).
    { rewrite remote_calls_app. simpl. by rewrite app_nil_r. }
    repeat split; try done.
    + by rewrite Hrc.
    + unfold read_paths in *. rewrite flat_map_app, Hreads. done.
  - assert (Hrun := main_dataset_failure args w w1 e _ H1).
    subst resolution run. rewrite H1 in *. rewrite Hrun.
    unfold result_of, world_of, trace_of in *; simpl in *.
    match goal with
    | |- context [remote_calls (?a ++ ?b)] =>
        assert (Hrc : remote_calls (a ++ b) = remote_calls a)
          by (rewrite remote_calls_app; simpl; by rewrite app_nil_r)
    end.
    repeat split; try done.
    + by rewrite Hrc.
    + unfold read_paths in *. rewrite flat_map_app, Hreads. done.
Qed.

End MissingDirectory.

(** ** Inventory reconciliation *)

Section Inventory.
Context {World : Type} {env : Environment World}.

Lemma paging_run_not_out_of_fuel ds page acc t r :
  paging_run ds page acc t r -> r <> OutOfFuel.
Proof.
  induction 1; try done.
  destruct r as [docs|e]; [|done]. by destruct (add_documents docs acc).
Qed.

(** With enough fuel for the pages up to 1000 the loop follows
    [paging_run]; in particular it does not run out of fuel. *)
Lemma pages_loop_paging_run ds (fuel : nat) :
  forall page acc (w : World),
    page <= 1000 -> (Z.to_nat (1001 - page) <= fuel)%nat ->
    paging_run ds page acc (trace_of (pages_loop fuel ds page acc w))
               (result_of (pages_loop fuel ds page acc w)).
Proof.
  induction fuel as [|fuel IH]; intros page acc w Hpage Hfuel; [lia|].
  simpl. unfold list_documents, call, trace_of, result_of. run_monad.
  destruct (ds_list_documents ds (Some (page, page_size)) w)
    as [[docs|e] w1] eqn:Hl; simpl.
  - destruct docs as [|doc docs]; simpl; [constructor|].
    set (page_docs := doc :: docs).
    change (match doc_key doc with
            | Ok doc_name => add_documents docs (<[doc_name:=doc]> acc)
            | Raise e => Raise e
            end) with (add_documents page_docs acc).
    destruct (add_documents page_docs acc) as [acc'|e] eqn:Ha; simpl.
    + destruct (len page_docs <? page_size) eqn:Hlen; simpl.
      * apply paging_short with (acc' := acc'); [done| lia | done].
      * destruct (1000 <? page + 1) eqn:Hlim; simpl.
        -- apply paging_limit with (acc' := acc'); [lia | lia | done].
        -- specialize (IH (page + 1) acc' w1 ltac:(lia) ltac:(lia)).
           unfold trace_of, result_of in IH.
           destruct (pages_loop fuel ds (page + 1) acc' w1) as [[r w2] t2].
           simpl in *.
           apply paging_next with (acc' := acc'); [lia | lia | done | done].
    + by apply paging_bad_document.
  - destruct e; simpl; try (by apply paging_error).
    destruct (ds_list_documents ds None w1) as [[docs|e] w2] eqn:Hp; simpl.
    + pose proof (paging_fallback ds page acc (Ok docs)) as Hf. simpl in Hf.
      destruct (add_documents docs acc) as [acc'|e]; simpl; exact Hf.
    + exact (paging_fallback ds page acc (Raise e)).
Qed.



End Inventory.

Section Pagination.
Context {World : Type} {env : Environment World}.

Lemma add_documents_app docs1 docs2 acc :
  add_documents (docs1 ++ docs2) acc
  = match add_documents docs1 acc with
    | Ok acc' => add_documents docs2 acc'
    | Raise e => Raise e
    end.
Proof.
  revert acc. induction docs1 as [|doc docs1 IH]; intros acc; simpl; [done|].
  by destruct (doc_key doc).
Qed.






(** The outcome of the loop in terms of the calls it made. *)
Lemma paging_run_result ds page acc t r :
  paging_run ds page acc t r ->
  match r with
  | Done m =>
      existsb unrecoverable_listing t = false
      /\ add_documents (listed_docs t) acc = Ok m
  | Throw e =>
      existsb unrecoverable_listing t = true
      \/ add_documents (listed_docs t) acc = Raise e
  | OutOfFuel => False
  end.
Proof.
  induction 1 as [| | |page acc docs acc' t r Hfull Hlim Hadd Hrun IH| | |];
    simpl; rewrite ?app_nil_r; auto.
  - destruct r as [m|e|]; simpl in *; rewrite ?add_documents_app, ?Hadd; done.
  - destruct e; auto; done.
  - destruct r as [docs|e]; simpl; rewrite ?app_nil_r; auto.
    destruct (add_documents docs acc) eqn:Ha; auto.
Qed.



End Pagination.

Section Reconciliation.
Context {World : Type} {env : Environment World}.

Lemma get_existing_documents_run ds (w : World) :
  exists r w1 t1,
    pages_loop 1000 ds 1 ∅ w = (r, w1, t1)
    /\ paging_run ds 1 ∅ t1 r
    /\ get_existing_documents ds w
       = match r with
         | Done m => (Done m, w1, t1)
         | Throw e => (Done ∅, w1, t1 ++ [EvLog ERROR (MsgInventoryFailed e)])
         | OutOfFuel => (OutOfFuel, w1, t1)
         end.
Proof.
  pose proof (pages_loop_paging_run ds 1000 1 ∅ w ltac:(lia) ltac:(lia)) as Hrun.
  unfold get_existing_documents, try_except.
  destruct (pages_loop 1000 ds 1 ∅ w) as [[r w1] t1].
  exists r, w1, t1. split; [done|]. split; [done|].
  destruct r; by run_monad.
Qed.

Lemma inventory_failed_log_invisible (t : Trace) e :
  paged_calls (t ++ [EvLog ERROR (MsgInventoryFailed e)]) = paged_calls t
  /\ plain_calls (t ++ [EvLog ERROR (MsgInventoryFailed e)]) = plain_calls t
  /\ listing_calls (t ++ [EvLog ERROR (MsgInventoryFailed e)]) = listing_calls t
  /\ listed_docs (t ++ [EvLog ERROR (MsgInventoryFailed e)]) = listed_docs t
  /\ existsb unrecoverable_listing (t ++ [EvLog ERROR (MsgInventoryFailed e)])
     = existsb unrecoverable_listing t.
Proof.
  unfold paged_calls, plain_calls, listing_calls, listed_docs.
  rewrite !flat_map_app, existsb_app. simpl.
  by rewrite !app_nil_r, orb_false_r.
Qed.

(** The result of reconciliation is always a mapping, and it is the one
    the listing calls of the run amount to. *)
Lemma get_existing_documents_result ds (w : World) :
  result_of (get_existing_documents ds w)
  = Done (inventory_of (trace_of (get_existing_documents ds w))).
Proof.
  destruct (get_existing_documents_run ds w) as (r & w1 & t1 & _ & Hrun & ->).
  pose proof (paging_run_result _ _ _ _ _ Hrun) as Hres.
  unfold result_of, trace_of, inventory_of.
  destruct r as [m|e|]; simpl in *; [| |done].
  - destruct Hres as [-> ->]. done.
  - destruct (inventory_failed_log_invisible t1 e) as (_ & _ & _ & -> & ->).
    destruct Hres as [->| ->]; [done|].
    by destruct (existsb unrecoverable_listing t1).
Qed.


End Reconciliation.

(** ** Batches *)

Section Batching.
Context {A : Type}.
Implicit Types l : list A.

(** The indices of the batch loop: the multiples of the batch size below
    the number of files. *)
Lemma py_range_batches (n b : Z) :
  0 < b -> 0 <= n ->
  py_range 0 n b
  = Ok ((fun k : nat => Z.of_nat k * b) <$> seq 0 (Z.to_nat ((n + b - 1) / b))).
Proof.
  intros Hb Hn. unfold py_range, range_len.
  destruct (Z.eqb_spec b 0) as [?|_]; [lia|].
  destruct (Z.ltb_spec 0 b) as [_|?]; [|lia].
  assert (Hm : (if 0 <? n then (n - 0 - 1) / b + 1 else 0) = (n + b - 1) / b).
  { destruct (Z.ltb_spec 0 n) as [Hpos|Hz].
    - replace (n + b - 1) with (n - 0 - 1 + 1 * b) by lia.
      by rewrite Z.div_add by lia.
    - replace n with 0 by lia. symmetry. apply Z.div_small. lia. }
  rewrite Hm. unfold seqZ. rewrite <- list_fmap_compose.
  f_equal. apply list_fmap_ext. intros _ k _. simpl. lia.
Qed.

Lemma py_slice_batch l (i b : Z) :
  0 <= i -> 0 < b ->
  py_slice l i (i + b) = take (Z.to_nat b) (drop (Z.to_nat i) l).
Proof.
  intros Hi Hb. unfold py_slice, slice_bound.
  destruct (Z.ltb_spec i 0) as [?|_]; [lia|].
  destruct (Z.ltb_spec (i + b) 0) as [?|_]; [lia|].
  destruct (Z.le_gt_cases i (Z.of_nat (length l))) as [Hin|Hout].
  - rewrite (Z.min_l i) by lia.
    destruct (Z.le_gt_cases (i + b) (Z.of_nat (length l))) as [Hfull|Hshort].
    + rewrite Z.min_l by lia. f_equal. lia.
    + rewrite Z.min_r by lia.
      rewrite !take_ge; [done| |]; rewrite length_drop; lia.
  - rewrite !Z.min_r by lia. rewrite drop_ge by lia.
    rewrite (drop_ge l) by lia. by rewrite !take_nil.
Qed.

Lemma chunks_concat l (size count : nat) :
  concat ((fun k : nat => take size (drop (k * size) l)) <$> seq 0 count)
  = take (count * size) l.
Proof.
  induction count as [|count IH]; [done|].
  rewrite seq_S, fmap_app, concat_app, IH. simpl. rewrite app_nil_r.
  rewrite take_take_drop. f_equal. lia.
Qed.

(** The batches cut by the loop of [upload_files]: consecutive slices that
    together are the whole list, each non-empty and of at most [b] elements,
    [ceil(n/b)] of them, the last one holding the remainder. *)
Lemma batches_partition l (b : Z) (indices : list Z) :
  0 < b ->
  py_range 0 (len l) b = Ok indices ->
  let batches := (fun i => py_slice l i (i + b)) <$> indices in
  concat batches = l
  /\ Forall (fun s => 0 < len s <= b) batches
  /\ len batches = (len l + b - 1) / b
  /\ (forall (j : nat) s,
        batches !! j = Some s ->
        s = py_slice l (Z.of_nat j * b) (Z.of_nat j * b + b))
  /\ (l <> [] ->
      exists s, last batches = Some s
                /\ len s = if len l mod b =? 0 then b else len l mod b).
Proof.
  intros Hb Hrange batches. unfold len in *.
  rewrite py_range_batches in Hrange by lia. injection Hrange as <-.
  set (n := Z.of_nat (length l)) in *.
  set (q := (n + b - 1) / b) in *.
  assert (Hq : b * q <= n + b - 1 < b * q + b).
  { pose proof (Z.div_mod (n + b - 1) b ltac:(lia)) as Hdm.
    pose proof (Z.mod_pos_bound (n + b - 1) b Hb). subst q. lia. }
  assert (Hq0 : 0 <= q) by (subst n; nia).
  assert (Hbatches :
    batches = (fun k : nat => take (Z.to_nat b) (drop (k * Z.to_nat b) l))
                <$> seq 0 (Z.to_nat q)).
  { subst batches. rewrite <- list_fmap_compose. apply list_fmap_ext.
    intros _ k _. simpl. rewrite py_slice_batch by lia. do 2 f_equal. lia. }
  split; [|split; [|split; [|split]]].
  - rewrite Hbatches, chunks_concat. apply take_ge. nia.
  - rewrite Hbatches. apply Forall_fmap, Forall_forall.
    intros k [_ Hk]%elem_of_seq. simpl in *.
    rewrite length_take, length_drop. nia.
  - subst batches. rewrite !length_fmap, length_seq. lia.
  - intros j s Hj. subst batches.
    rewrite <- list_fmap_compose, list_lookup_fmap in Hj.
    destruct (seq 0 (Z.to_nat q) !! j) as [k|] eqn:Hk; [|done].
    apply lookup_seq in Hk as [-> _]. simpl in Hj. by injection Hj as <-.
  - intros Hne. assert (0 < n) by (subst n; destruct l; [done|simpl; lia]).
    assert (Hq1 : 1 <= q) by nia.
    rewrite Hbatches.
    replace (Z.to_nat q) with (S (Z.to_nat (q - 1))) by lia.
    rewrite seq_S, fmap_app. simpl. rewrite last_snoc.
    eexists; split; [done|].
    rewrite length_take, length_drop.
    pose proof (Z.div_mod n b ltac:(lia)) as Hdm.
    pose proof (Z.mod_pos_bound n b Hb) as Hmod.
    destruct (Z.eqb_spec (n mod b) 0) as [Hz|Hnz].
    + assert (q = n / b) by nia. nia.
    + assert (q = n / b + 1) by nia. nia.
Qed.

End Batching.

(** ** Facts about traces *)

Section Traces.

Lemma flat_map_fmap {A B C} (f : B -> list C) (g : A -> B) (l : list A) :
  flat_map f (g <$> l) = flat_map (fun x => f (g x)) l.
Proof. induction l as [|x l IH]; csimpl; [done|]. by rewrite IH. Qed.

Lemma flat_map_is_nil {A B} (f : A -> list B) (l : list A) :
  Forall (fun x => f x = []) l -> flat_map f l = [].
Proof. induction 1 as [|x l Hx _ IH]; simpl; [done|]. by rewrite Hx, IH. Qed.

Lemma flat_map_singletons {A B} (h : A -> B) (l : list A) :
  flat_map (fun x => [h x]) l = h <$> l.
Proof. induction l as [|x l IH]; csimpl; [done|]. by rewrite IH. Qed.

Lemma flat_map_concat {A B} (f : A -> list B) (ls : list (list A)) :
  flat_map f (concat ls) = concat (flat_map f <$> ls).
Proof.
  induction ls as [|l ls IH]; simpl; [done|]. by rewrite flat_map_app, IH.
Qed.

Lemma background_unobserved (t : Trace) :
  Forall (fun e => is_background e = true) t ->
  upload_calls t = [] /\ read_paths t = [] /\ prepared t = []
  /\ unreadable_paths t = [] /\ trace_failed t = [] /\ trace_succeeded t = []
  /\ logged_succeeded t = [].
Proof.
  intros Hbg.
  repeat split; apply flat_map_is_nil; eapply Forall_impl; try exact Hbg;
    intros [] Hb; try done; simpl in *;
    repeat match goal with
           | |- context [match ?x with _ => _ end] => destruct x; try done
           end.
Qed.

Lemma trace_succeeded_calls (t : Trace) :
  trace_succeeded t = succeeded_names (upload_calls t).
Proof.
  induction t as [|e t IH]; [done|].
  destruct e as [| | |ds docs [|]| | | |]; simpl; rewrite ?IH; try done.
Qed.

Lemma reads_split (t : Trace) :
  length (read_paths t)
  = (length (prepared t) + length (unreadable_paths t))%nat.
Proof.
  induction t as [|e t IH]; [done|].
  destruct e as [| | | | |p [|]| |]; simpl; rewrite ?IH; lia.
Qed.

Lemma prepared_all_readable (t : Trace) :
  unreadable_paths t = [] ->
  display_name <$> prepared t = path_name <$> read_paths t.
Proof.
  induction t as [|e t IH]; [done|].
  destruct e as [| | | | |p [|]| |]; csimpl; try done.
  intros Hu. by rewrite IH.
Qed.

Lemma trace_failed_perm (t : Trace) :
  trace_failed t
  ≡ₚ (path_str <$> unreadable_paths t) ++ failed_names (upload_calls t).
Proof.
  induction t as [|e t IH]; [done|].
  destruct e as [| | |ds docs [|]| |p [|]| |]; csimpl; try done.
  - rewrite IH.
    rewrite (app_assoc (display_name <$> docs)).
    rewrite (Permutation_app_comm (display_name <$> docs)).
    by rewrite <- app_assoc.
  - by rewrite IH.
Qed.

Lemma trace_failed_all_readable (t : Trace) :
  unreadable_paths t = [] -> trace_failed t = failed_names (upload_calls t).
Proof.
  induction t as [|e t IH]; [done|].
  destruct e as [| | |ds docs [|]| |p [|]| |]; csimpl; try done.
  intros Hu. by rewrite IH.
Qed.

End Traces.

(** ** The batch loop *)

Section BatchLoop.
Context {World : Type} {env : Environment World}.

(** The preparation loop opens every file of the batch, in order, appends a
    document for each read that returned and a failure record for each read
    that raised, and calls nothing remote. *)
Lemma prepare_batch_run (batch_files : list Path) :
  forall docs failed (w : World),
  exists w' t,
    prepare_batch batch_files docs failed w
    = (Done (docs ++ prepared t, failed ++ (path_str <$> unreadable_paths t)),
       w', t)
    /\ read_paths t = batch_files
    /\ upload_calls t = []
    /\ logged_succeeded t = []
    /\ trace_succeeded t = []
    /\ trace_failed t = path_str <$> unreadable_paths t
    /\ remote_calls t = []
    /\ flat_map (fun e => match e with
                          | EvUploadDocuments _ _ _ => [e]
                          | _ => []
                          end) t = [].
Proof.
  induction batch_files as [|file_path rest IH]; intros docs failed w.
  - exists w, []. simpl. unfold ret. by rewrite !app_nil_r.
  - simpl. unfold open_read, call. run_monad.
    destruct (fs_read_bytes file_path w) as [[content|e] w1]; simpl.
    + destruct (IH (docs ++ [mkDocument (path_name file_path) content]) failed w1)
        as (w' & t & -> & Hr & Hu & Hl & Hs & Hf & Hc & Ho).
      exists w', (EvOpenRead file_path (Ok content) :: t). simpl.
      rewrite <- app_assoc. simpl. rewrite Hr, Hu, Hl, Hs, Hf, Hc, Ho. done.
    + destruct (IH docs (failed ++ [path_str file_path]) w1)
        as (w' & t & -> & Hr & Hu & Hl & Hs & Hf & Hc & Ho).
      exists w', (EvOpenRead file_path (Raise e)
                  :: EvLog ERROR (MsgReadFailed (path_str file_path) e)
                  :: EvPrint (MsgReadFailed (path_str file_path) e) :: t).
      csimpl.
      rewrite <- app_assoc. simpl. rewrite Hr, Hu, Hl, Hs, Hf, Hc, Ho. done.
Qed.

Lemma remote_calls_outputs {A} (g : A -> Event) (l : list A) :
  (forall x, is_remote_call (g x) = false) -> remote_calls (g <$> l) = [].
Proof.
  intros Hg. induction l as [|x l IH]; csimpl; [done|].
  unfold remote_calls in *. simpl. by rewrite Hg.
Qed.

(** What is observed of the events of an upload call that returned. *)
Lemma upload_returned_events ds (docs : list Document) (batch_num : Z) :
  let t := EvUploadDocuments ds docs (Ok tt)
           :: ((fun doc => EvLog SUCCESS (MsgFileUploaded (display_name doc)))
                 <$> docs)
           ++ [EvLog SUCCESS (MsgBatchUploaded batch_num (len docs));
               EvPrint (MsgBatchUploaded batch_num (len docs))] in
  upload_calls t = [(docs, Ok tt)]
  /\ read_paths t = [] /\ prepared t = [] /\ unreadable_paths t = []
  /\ logged_succeeded t = display_name <$> docs
  /\ trace_succeeded t = display_name <$> docs
  /\ trace_failed t = []
  /\ remote_calls t = [EvUploadDocuments ds docs (Ok tt)]
  /\ flat_map (fun e => match e with
                        | EvUploadDocuments _ _ _ => [e]
                        | _ => []
                        end) t = [EvUploadDocuments ds docs (Ok tt)].
Proof.
  intros t. subst t.
  unfold upload_calls, read_paths, prepared, unreadable_paths,
    logged_succeeded, trace_succeeded, trace_failed.
  cbn [flat_map]. rewrite !flat_map_app, !flat_map_fmap. cbn [flat_map].
  rewrite flat_map_singletons, !app_nil_r.
  rewrite !(flat_map_is_nil _ docs) by (by apply Forall_forall).
  change (remote_calls (?e :: ?l)) with (e :: remote_calls l).
  rewrite remote_calls_app, remote_calls_outputs by done.
  simpl. rewrite !app_nil_r. repeat split; done.
Qed.

(** What is observed of the events of an upload call that raised. *)
Lemma upload_raised_events ds (docs : list Document) (batch_num : Z) e :
  let t := EvUploadDocuments ds docs (Raise e)
           :: EvLog ERROR (MsgBatchFailed batch_num e)
           :: EvPrint (MsgBatchFailed batch_num e)
           :: ((fun doc => EvLog ERROR (MsgFileFailed (display_name doc)))
                 <$> docs) in
  upload_calls t = [(docs, Raise e)]
  /\ read_paths t = [] /\ prepared t = [] /\ unreadable_paths t = []
  /\ logged_succeeded t = []
  /\ trace_succeeded t = []
  /\ trace_failed t = display_name <$> docs
  /\ remote_calls t = [EvUploadDocuments ds docs (Raise e)]
  /\ flat_map (fun e => match e with
                        | EvUploadDocuments _ _ _ => [e]
                        | _ => []
                        end) t = [EvUploadDocuments ds docs (Raise e)].
Proof.
  intros t. subst t.
  unfold upload_calls, read_paths, prepared, unreadable_paths,
    logged_succeeded, trace_succeeded, trace_failed.
  cbn [flat_map]. rewrite !flat_map_fmap. cbn [app].
  rewrite !(flat_map_is_nil _ docs) by (by apply Forall_forall).
  change (remote_calls (?e1 :: ?e2 :: ?e3 :: ?l)) with (e1 :: remote_calls l).
  rewrite remote_calls_outputs by done.
  by rewrite !app_nil_r.
Qed.

(** One iteration of the batch loop: it never raises, its events are those
    of a batch, and it adds to the counters what its events record. *)
Lemma upload_batch_run ds (files : list Path) (b i succ : Z)
    (failed : list string) (w : World) :
  exists w' t,
    upload_batch ds files b i (succ, failed) w
    = (Done (succ + len (trace_succeeded t), failed ++ trace_failed t), w', t)
    /\ batch_ok (py_slice files i (i + b)) t.
Proof.
  unfold upload_batch.
  destruct (prepare_batch_run (py_slice files i (i + b)) [] failed w)
    as (w1 & tp & Hprep & Hr & Hu & Hl & Hs & Hf & Hc & Ho).
  unfold bind at 1. rewrite Hprep. simpl.
  destruct (prepared tp) as [|doc docs] eqn:Hdocs.
  - exists w1, tp. run_monad. rewrite app_nil_r, Hs, Hf. unfold len. simpl.
    rewrite Z.add_0_r. split; [done|].
    unfold batch_ok. rewrite Hr, Hdocs, Hu, Hl, Hs, Hf, Hc, Ho, app_nil_r.
    repeat split; auto.
  - set (batch_documents := doc :: docs) in *.
    unfold upload_documents, call, bind, try_except, ret, emit.
    destruct (ds_upload_documents ds batch_documents w1) as [[[]|e] w2].
    + pose proof (upload_returned_events ds batch_documents (i / b + 1)) as Hup.
      cbv zeta in Hup. revert Hup.
      set (t_up := EvUploadDocuments ds batch_documents (Ok tt) :: _).
      intros (Hu' & Hr' & Hp' & Hn' & Hl' & Hs' & Hf' & Hc' & Ho').
      assert (Hsucc : trace_succeeded (tp ++ t_up)
                      = display_name <$> batch_documents).
      { unfold trace_succeeded in *. by rewrite flat_map_app, Hs, Hs'. }
      assert (Hfail : trace_failed (tp ++ t_up)
                      = path_str <$> unreadable_paths tp).
      { unfold trace_failed in *. by rewrite flat_map_app, Hf, Hf', app_nil_r. }
      exists w2, (tp ++ t_up). split.
      * rewrite Hsucc, Hfail. unfold len. rewrite length_fmap. reflexivity.
      * unfold batch_ok. rewrite Hsucc, Hfail.
        unfold upload_calls, read_paths, prepared, unreadable_paths,
          logged_succeeded, trace_succeeded, trace_failed in *.
        rewrite remote_calls_app, !flat_map_app.
        rewrite Hu', Hr', Hp', Hn', Hl', Hc', Ho'.
        rewrite Hr, Hu, Hl, Hc, Ho, Hdocs, !app_nil_r.
        repeat split; try done. right. split; [done|]. by eexists.
    + pose proof (upload_raised_events ds batch_documents (i / b + 1) e) as Hup.
      cbv zeta in Hup. revert Hup.
      set (t_up := EvUploadDocuments ds batch_documents (Raise e) :: _).
      intros (Hu' & Hr' & Hp' & Hn' & Hl' & Hs' & Hf' & Hc' & Ho').
      assert (Hsucc : trace_succeeded (tp ++ t_up) = []).
      { unfold trace_succeeded in *. by rewrite flat_map_app, Hs, Hs'. }
      assert (Hfail : trace_failed (tp ++ t_up)
                      = (path_str <$> unreadable_paths tp)
                        ++ (display_name <$> batch_documents)).
      { unfold trace_failed in *. by rewrite flat_map_app, Hf, Hf'. }
      exists w2, (tp ++ t_up). split.
      * rewrite Hsucc, Hfail. subst t_up. unfold len. simpl.
        by rewrite Z.add_0_r, <- !app_assoc, app_nil_r.
      * unfold batch_ok. rewrite Hsucc, Hfail.
        unfold upload_calls, read_paths, prepared, unreadable_paths,
          logged_succeeded, trace_succeeded, trace_failed in *.
        rewrite remote_calls_app, !flat_map_app.
        rewrite Hu', Hr', Hp', Hn', Hl', Hc', Ho'.
        rewrite Hr, Hu, Hl, Hc, Ho, Hdocs, !app_nil_r.
        repeat split; try done;
          [right; split; [done|by eexists] | simpl; by rewrite app_nil_r].
Qed.

End BatchLoop.

(** ** The whole upload *)

Section Upload.
Context {World : Type} {env : Environment World}.

(** The batch loop never raises; its events split into one group per
    index, each that of a batch, and the counters grow by what the events
    record. *)
Lemma upload_batches_run ds (files : list Path) (b : Z) (indices : list Z) :
  forall succ failed (w : World),
  exists w' ts,
    upload_batches ds files b indices (succ, failed) w
    = (Done (succ + len (trace_succeeded (concat ts)),
             failed ++ trace_failed (concat ts)), w', concat ts)
    /\ Forall2 batch_ok ((fun i => py_slice files i (i + b)) <$> indices) ts.
Proof.
  induction indices as [|i rest IH]; intros succ failed w.
  - exists w, []. simpl. unfold ret, len. simpl.
    rewrite Z.add_0_r, app_nil_r. split; [done|]. constructor.
  - destruct (upload_batch_run ds files b i succ failed w)
      as (w1 & t1 & Hrun & Hok).
    destruct (IH (succ + len (trace_succeeded t1)) (failed ++ trace_failed t1) w1)
      as (w' & ts & Hrest & Hoks).
    exists w', (t1 :: ts). split; [|by constructor].
    cbn [upload_batches]. unfold bind. rewrite Hrun, Hrest.
    cbn [concat]. unfold trace_succeeded, trace_failed, len.
    rewrite !flat_map_app, length_app, <- app_assoc.
    by rewrite Nat2Z.inj_add, Z.add_assoc.
Qed.

Lemma batches_read_paths (batches : list (list Path)) (ts : list Trace) :
  Forall2 batch_ok batches ts -> read_paths (concat ts) = concat batches.
Proof.
  induction 1 as [|bf t batches ts (Hr & _) _ IH]; [done|].
  simpl. unfold read_paths in *. by rewrite flat_map_app, Hr, IH.
Qed.

Lemma batches_payloads (batches : list (list Path)) (ts : list Trace) :
  Forall2 batch_ok batches ts ->
  concat (fst <$> upload_calls (concat ts)) = prepared (concat ts)
  /\ logged_succeeded (concat ts) = trace_succeeded (concat ts)
  /\ Forall (fun c => c.1 <> []) (upload_calls (concat ts))
  /\ (length (upload_calls (concat ts)) <= length batches)%nat.
Proof.
  induction 1 as [|bf t batches ts (_ & Hup & Hl & _) _ (IH1 & IH2 & IH3 & IH4)];
    [done|].
  simpl. unfold upload_calls, prepared, logged_succeeded, trace_succeeded in *.
  rewrite !flat_map_app, fmap_app, concat_app, IH1, IH2, Hl, length_app.
  destruct Hup as [[Hp ->]|(Hp & r & ->)].
  - rewrite Hp. simpl. repeat split; try done. lia.
  - simpl. rewrite app_nil_r. repeat split; try done.
    + by constructor.
    + lia.
Qed.

(** When every read returned, each non-empty batch is uploaded whole in a
    call of its own. *)
Lemma batches_all_readable (batches : list (list Path)) (ts : list Trace) :
  Forall2 batch_ok batches ts ->
  unreadable_paths (concat ts) = [] ->
  Forall (fun bf => bf <> []) batches ->
  (fun c : list Document * result unit => display_name <$> c.1)
    <$> upload_calls (concat ts)
  = (fun bf : list Path => path_name <$> bf) <$> batches.
Proof.
  induction 1 as [|bf t batches ts (Hr & Hup & _) _ IH]; [done|].
  simpl. unfold unreadable_paths, upload_calls in *.
  rewrite !flat_map_app. intros [Hu Hus]%app_eq_nil Hne.
  apply Forall_cons in Hne as [Hbf Hne].
  rewrite fmap_app, (IH Hus Hne). csimpl.
  pose proof (prepared_all_readable t Hu) as Hnames. rewrite Hr in Hnames.
  destruct Hup as [[Hp _]|(Hp & r & ->)].
  - rewrite Hp in Hnames. destruct bf; done.
  - csimpl. by rewrite Hnames.
Qed.

Lemma filter_files_spec (skip : bool) (existing : gmap string RemoteDoc)
    (files : list Path) :
  filter_files skip existing files
  = (path_str <$> List.filter (skips skip existing) files,
     List.filter (fun p => negb (skips skip existing p)) files).
Proof.
  unfold filter_files.
  enough (Hgen : forall skipped remaining,
    foldl (filter_step skip existing) (skipped, remaining) files
    = (skipped ++ (path_str <$> List.filter (skips skip existing) files),
       remaining ++ List.filter (fun p => negb (skips skip existing p)) files))
    by apply Hgen.
  induction files as [|p files IH]; intros skipped remaining.
  - simpl. by rewrite !app_nil_r.
  - cbn [foldl List.filter]. unfold filter_step at 2.
    replace (bool_decide (is_Some (existing !! path_name p)))
      with (bool_decide (path_name p ∈ dom existing))
      by (apply bool_decide_ext; apply elem_of_dom).
    fold (skips skip existing p).
    destruct (skips skip existing p); rewrite IH; csimpl;
      by rewrite <- !app_assoc.
Qed.

Lemma paging_run_inventory_events ds page acc t r :
  paging_run ds page acc t r ->
  Forall (fun e => is_inventory_event e = true) t.
Proof. induction 1; repeat constructor; done. Qed.

Lemma inventory_events_background (t : Trace) :
  Forall (fun e => is_inventory_event e = true) t ->
  Forall (fun e => is_background e = true) t.
Proof.
  intros Hinv. eapply Forall_impl; [exact Hinv|].
  intros [] He; try done. simpl in *. by destruct lvl, m.
Qed.

Lemma inventory_events_no_summary (t : Trace) :
  Forall (fun e => is_inventory_event e = true) t ->
  List.filter is_summary t = [].
Proof.
  induction 1 as [|e t He _ IH]; [done|]. simpl. rewrite IH.
  destruct e; try done. simpl in *. by destruct lvl, m.
Qed.

(** The inventory phase always yields a mapping, and it only lists
    documents and writes to the log. *)
Lemma reconcile_run (skip : bool) ds (w : World) :
  exists existing w1 t1,
    reconcile skip ds w = (Done existing, w1, t1)
    /\ Forall (fun e => is_inventory_event e = true) t1
    /\ (skip = false -> existing = ∅ /\ w1 = w /\ t1 = []).
Proof.
  destruct skip; simpl.
  - destruct (get_existing_documents_run ds w) as (r & w1 & t1 & _ & Hrun & ->).
    pose proof (paging_run_inventory_events _ _ _ _ _ Hrun) as Hbg.
    pose proof (paging_run_not_out_of_fuel _ _ _ _ _ Hrun) as Hfuel.
    destruct r as [m|e|]; [| |done].
    + by exists m, w1, t1.
    + exists ∅, w1, (t1 ++ [EvLog ERROR (MsgInventoryFailed e)]).
      split; [done|]. split; [|done].
      apply Forall_app. split; [done|]. by repeat constructor.
  - by exists ∅, w, [].
Qed.

Lemma summary_events_background (st : UploadStats) :
  Forall (fun e => is_background e = true) (summary_events st).
Proof.
  unfold summary_events. repeat (apply Forall_app; split).
  - by repeat constructor.
  - destruct (failed_uploads st) as [|f failed]; [constructor|].
    apply Forall_app. split; [by repeat constructor|].
    apply Forall_concat, Forall_fmap, Forall_forall. intros x _.
    by repeat constructor.
  - destruct (skipped_files st) as [|f skipped]; [constructor|].
    constructor; [done|]. apply Forall_fmap, Forall_forall. by intros x _.
Qed.

(** The three ways a call of [upload_files] can go: nothing remains after
    filtering; the range of the batch loop raises; or the batches are
    processed and the summary is written. *)
Lemma upload_files_run ds (files : list Path) (b : Z) (skip : bool) (w : World) :
  exists existing w1 t1,
    reconcile skip ds w = (Done existing, w1, t1)
    /\ Forall (fun e => is_inventory_event e = true) t1
    /\ let skipped := path_str <$> List.filter (skips skip existing) files in
       let remaining :=
         List.filter (fun p => negb (skips skip existing p)) files in
       match remaining with
       | [] =>
           upload_files ds files b skip w
           = (Done (mkStats (len files) 0 [] skipped []), w1,
              t1 ++ [EvLog INFO MsgNothingToUpload])
       | _ =>
           match py_range 0 (len remaining) b with
           | Raise e => upload_files ds files b skip w = (Throw e, w1, t1)
           | Ok indices =>
               exists w2 ts,
                 Forall2 batch_ok
                   ((fun i => py_slice remaining i (i + b)) <$> indices) ts
                 /\ let st := mkStats (len files)
                                (len (trace_succeeded (concat ts)))
                                (trace_failed (concat ts)) skipped remaining in
                    upload_files ds files b skip w
                    = (Done st, w2, t1 ++ concat ts ++ summary_events st)
           end
       end.
Proof.
  destruct (reconcile_run skip ds w) as (existing & w1 & t1 & Hrec & Hbg & _).
  exists existing, w1, t1. split; [done|]. split; [done|].
  intros skipped remaining.
  assert (Hfilter : filter_files skip existing files = (skipped, remaining))
    by apply filter_files_spec.
  clearbody skipped remaining.
  assert (Hstart : upload_files ds files b skip w
    = bind (reconcile skip ds)
        (fun existing_docs =>
           let '(skipped_files, files_to_upload) :=
             filter_files skip existing_docs files in
           match files_to_upload with
           | [] =>
               emit [EvLog INFO MsgNothingToUpload];;
               ret (mkStats (len files) 0 [] skipped_files files_to_upload)
           | _ =>
               let* indices :=
                 of_result (py_range 0 (len files_to_upload) b) in
               let* (successful_uploads, failed_uploads) :=
                 upload_batches ds files_to_upload b indices (0, []) in
               let st := mkStats (len files) successful_uploads failed_uploads
                                 skipped_files files_to_upload in
               emit (summary_events st);;
               ret st
           end) w) by done.
  assert (Hgo : forall k : gmap string RemoteDoc -> M World UploadStats,
             bind (reconcile skip ds) k w
             = ((k existing w1).1.1, (k existing w1).1.2, t1 ++ (k existing w1).2))
    by (intros k; by apply bind_done).
  rewrite Hstart, Hgo, Hfilter. clear Hstart Hgo.
  destruct remaining as [|p rest].
  - by run_monad.
  - set (remaining := p :: rest) in *.
    destruct (py_range 0 (len remaining) b) as [indices|e] eqn:Hrange.
    + destruct (upload_batches_run ds remaining b indices 0 [] w1)
        as (w2 & ts & Hloop & Hoks).
      exists w2, ts. split; [done|].
      unfold bind, of_result, ret, emit. rewrite Hloop.
      simpl. by rewrite app_nil_r.
    + unfold bind, of_result, throw. simpl. by rewrite app_nil_r.
Qed.

End Upload.

(** ** Statistics, batching and fault isolation *)

Section Statistics.
Context {World : Type} {env : Environment World}.

Lemma filter_split_length {A} (f : A -> bool) (l : list A) :
  (length (List.filter f l) + length (List.filter (fun x => negb (f x)) l)
   = length l)%nat.
Proof.
  induction l as [|x l IH]; [done|]. simpl. destruct (f x); simpl; lia.
Qed.

Lemma calls_split (calls : list (list Document * result unit)) :
  length (concat (fst <$> calls))
  = (length (succeeded_names calls) + length (failed_names calls))%nat.
Proof.
  induction calls as [|[docs [[]|e]] calls IH]; [done| |]; csimpl;
    rewrite !length_app, ?length_fmap, IH; lia.
Qed.

(** For a positive batch size the call returns, having processed the
    batches of the files that remain after filtering. *)
Lemma upload_files_positive ds (files : list Path) (b : Z) (skip : bool)
    (w : World) :
  0 < b ->
  exists existing w1 t1 w2 ts st,
    reconcile skip ds w = (Done existing, w1, t1)
    /\ Forall (fun e => is_inventory_event e = true) t1
    /\ skipped_files st = path_str <$> List.filter (skips skip existing) files
    /\ files_to_upload st
       = List.filter (fun p => negb (skips skip existing p)) files
    /\ total_files st = len files
    /\ successful_uploads st = len (trace_succeeded (concat ts))
    /\ failed_uploads st = trace_failed (concat ts)
    /\ Forall2 batch_ok
         ((fun j : nat => py_slice (files_to_upload st)
                            (Z.of_nat j * b) (Z.of_nat j * b + b))
            <$> seq 0 (Z.to_nat ((len (files_to_upload st) + b - 1) / b)))
         ts
    /\ upload_files ds files b skip w
       = (Done st, w2,
          t1 ++ concat ts
             ++ match files_to_upload st with
                | [] => [EvLog INFO MsgNothingToUpload]
                | _ => summary_events st
                end).
Proof.
  intros Hb.
  destruct (upload_files_run ds files b skip w)
    as (existing & w1 & t1 & Hrec & Hinv & Hrun).
  cbv zeta in Hrun.
  set (skipped := path_str <$> List.filter (skips skip existing) files) in *.
  remember (List.filter (fun p => negb (skips skip existing p)) files)
    as remaining eqn:Hremaining.
  destruct remaining as [|p rest] eqn:Hrem.
  - exists existing, w1, t1, w1, [], (mkStats (len files) 0 [] skipped []).
    simpl. repeat split; try done.
    unfold len. simpl. rewrite Z.div_small by lia. constructor.
  - rewrite <- Hrem in *.
    rewrite py_range_batches in Hrun by (unfold len; lia).
    destruct Hrun as (w2 & ts & Hoks & Hrun).
    rewrite <- list_fmap_compose in Hoks.
    exists existing, w1, t1, w2, ts,
      (mkStats (len files) (len (trace_succeeded (concat ts)))
               (trace_failed (concat ts)) skipped remaining).
    simpl. repeat split; try done.
    rewrite Hrun. by rewrite Hrem.
Qed.

(** The batches of a list for a positive batch size, by their position. *)
Lemma batches_by_position {A} (l : list A) (b : Z) :
  0 < b ->
  let batches :=
    (fun j : nat => py_slice l (Z.of_nat j * b) (Z.of_nat j * b + b))
      <$> seq 0 (Z.to_nat ((len l + b - 1) / b)) in
  concat batches = l
  /\ Forall (fun s => 0 < len s <= b) batches
  /\ len batches = (len l + b - 1) / b
  /\ (l <> [] ->
      exists s, last batches = Some s
                /\ len s = if len l mod b =? 0 then b else len l mod b).
Proof.
  intros Hb batches.
  pose proof (py_range_batches (len l) b Hb ltac:(unfold len; lia)) as Hrange.
  destruct (batches_partition l b _ Hb Hrange) as (Hc & Hs & Hn & _ & Hl).
  rewrite <- list_fmap_compose in Hc, Hs, Hn, Hl. done.
Qed.

(** Listings and output before and after the batches do not show in what
    is observed of reads and uploads. *)
Lemma around_batches_unobserved (t1 c t2 : Trace) :
  Forall (fun e => is_background e = true) t1 ->
  Forall (fun e => is_background e = true) t2 ->
  upload_calls (t1 ++ c ++ t2) = upload_calls c
  /\ read_paths (t1 ++ c ++ t2) = read_paths c
  /\ prepared (t1 ++ c ++ t2) = prepared c
  /\ unreadable_paths (t1 ++ c ++ t2) = unreadable_paths c
  /\ trace_failed (t1 ++ c ++ t2) = trace_failed c
  /\ trace_succeeded (t1 ++ c ++ t2) = trace_succeeded c
  /\ logged_succeeded (t1 ++ c ++ t2) = logged_succeeded c.
Proof.
  intros (H1 & H2 & H3 & H4 & H5 & H6 & H7)%background_unobserved
         (G1 & G2 & G3 & G4 & G5 & G6 & G7)%background_unobserved.
  unfold upload_calls, read_paths, prepared, unreadable_paths, trace_failed,
    trace_succeeded, logged_succeeded in *.
  rewrite !flat_map_app, H1, H2, H3, H4, H5, H6, H7, G1, G2, G3, G4, G5, G6, G7.
  by rewrite !app_nil_r.
Qed.

(** What a call with a positive batch size leaves in the statistics and in
    the trace. *)
Lemma upload_files_observed ds (files : list Path) (b : Z) (skip : bool)
    (w : World) :
  0 < b ->
  let run := upload_files ds files b skip w in
  let t := trace_of run in
  exists st,
    result_of run = Done st
    /\ total_files st = len files
    /\ (len (files_to_upload st) + len (skipped_files st) = len files)
    /\ read_paths t = files_to_upload st
    /\ concat (fst <$> upload_calls t) = prepared t
    /\ logged_succeeded t = trace_succeeded t
    /\ successful_uploads st = len (trace_succeeded t)
    /\ failed_uploads st = trace_failed t
    /\ Forall (fun c => c.1 <> []) (upload_calls t)
    /\ (unreadable_paths t = [] ->
        (fun c : list Document * result unit => display_name <$> c.1)
          <$> upload_calls t
        = (fun j : nat =>
             path_name <$> py_slice (files_to_upload st)
                             (Z.of_nat j * b) (Z.of_nat j * b + b))
            <$> seq 0 (Z.to_nat ((len (files_to_upload st) + b - 1) / b))).
Proof.
  intros Hb run t.
  destruct (upload_files_positive ds files b skip w Hb)
    as (existing & w1 & t1 & w2 & ts & st & Hrec & Hinv & Hsk & Hrem & Htot
        & Hsucc & Hfail & Hoks & Hrun).
  exists st. subst t run. rewrite Hrun. unfold result_of, trace_of.
  cbn [fst snd].
  destruct (batches_by_position (files_to_upload st) b Hb)
    as (Hconcat & Hsizes & _ & _).
  match goal with
  | |- context [t1 ++ concat ts ++ ?events] => set (closing := events)
  end.
  destruct (around_batches_unobserved t1 (concat ts) closing)
    as (-> & -> & -> & -> & -> & -> & ->).
  { by apply inventory_events_background. }
  { subst closing. destruct (files_to_upload st); [by repeat constructor|].
    apply summary_events_background. }
  destruct (batches_payloads _ _ Hoks) as (Hpay & Hlog & Hne & _).
  split; [done|]. split; [done|]. split.
  { rewrite Hsk, Hrem. unfold len. rewrite length_fmap.
    pose proof (filter_split_length (skips skip existing) files). lia. }
  split; [by rewrite (batches_read_paths _ _ Hoks)|].
  repeat split; try done.
  intros Hu. rewrite (batches_all_readable _ _ Hoks Hu).
  - by rewrite <- list_fmap_compose.
  - eapply Forall_impl; [exact Hsizes|]. intros s Hs ->. unfold len in Hs.
    simpl in Hs. lia.
Qed.

(** C1, as the code has it.  A call of [upload_files] with a positive batch
    size returns, and its statistics are those of the run: the skipped files
    and the files to upload are the two halves of the given list split by
    the inventory, every file to upload is opened, the success count is the
    number of documents in the upload calls that returned, and the failure
    list holds the files whose read raised and the documents of the upload
    calls that raised.  Succeeded and failed files together are the files
    that remained after filtering, and these together with the skipped ones
    are all the files the call was given. *)
Theorem upload_files_statistics_invariant ds (files : list Path) (b : Z)
    (skip : bool) (w : World) :
  0 < b ->
  let inventory := reconcile skip ds w in
  let run := upload_files ds files b skip w in
  let t := trace_of run in
  exists existing st,
    result_of inventory = Done existing
    /\ result_of run = Done st
    /\ total_files st = len files
    /\ skipped_files st = path_str <$> List.filter (skips skip existing) files
    /\ files_to_upload st
       = List.filter (fun p => negb (skips skip existing p)) files
    /\ read_paths t = files_to_upload st
    /\ successful_uploads st = len (trace_succeeded t)
    /\ failed_uploads st = trace_failed t
    /\ successful_uploads st + len (failed_uploads st)
       = len (files_to_upload st)
    /\ len (files_to_upload st) + len (skipped_files st) = total_files st.
Proof.
  intros Hb inventory run t.
  destruct (upload_files_positive ds files b skip w Hb)
    as (existing & w1 & t1 & w2 & ts & st' & Hrec & _ & Hsk & Hrem & _ & _ & _
        & _ & Hrun).
  destruct (upload_files_observed ds files b skip w Hb)
    as (st & Hres & Htot & Hsplit & Hreads & Hpay & _ & Hsucc & Hfail & _).
  fold run in Hrun, Hres, Hreads, Hpay, Hsucc, Hfail.
  assert (st' = st) as ->.
  { rewrite Hrun in Hres. by injection Hres. }
  exists existing, st. subst inventory. rewrite Hrec.
  split; [done|]. split; [done|]. split; [done|]. split; [done|].
  split; [done|]. split; [done|]. split; [done|]. split; [done|].
  split; [|lia].
  subst t. rewrite Hsucc, Hfail, <- Hreads. unfold len.
  rewrite reads_split, <- Hpay, calls_split.
  rewrite (Permutation_length (trace_failed_perm (trace_of run))).
  rewrite trace_succeeded_calls, length_app, length_fmap. lia.
Qed.

(** C2.  For a positive batch size [b], when [n > 0] files remain after
    filtering and every read returns, the payloads of the upload calls are
    the consecutive slices [j*b : j*b+b] of the remaining files, in order and
    with the bytes that were read; each holds at most [b] documents; there
    are exactly [ceil(n/b)] upload calls, the number [k] with
    [(k-1)*b < n <= k*b]; and the last payload has [n mod b] documents, or
    [b] when [b] divides [n]. *)
Theorem upload_files_batch_partition ds (files : list Path) (b : Z)
    (skip : bool) (w : World) :
  0 < b ->
  let run := upload_files ds files b skip w in
  let t := trace_of run in
  exists st,
    result_of run = Done st
    /\ (files_to_upload st <> [] ->
        unreadable_paths t = [] ->
        let n := len (files_to_upload st) in
        let payloads := fst <$> upload_calls t in
        (fun docs : list Document => display_name <$> docs) <$> payloads
        = (fun j : nat =>
             path_name <$> py_slice (files_to_upload st)
                             (Z.of_nat j * b) (Z.of_nat j * b + b))
            <$> seq 0 (Z.to_nat ((n + b - 1) / b))
        /\ concat payloads = prepared t
        /\ display_name <$> concat payloads = path_name <$> files_to_upload st
        /\ Forall (fun docs => 0 < len docs <= b) payloads
        /\ len (upload_calls t) = (n + b - 1) / b
        /\ (len (upload_calls t) - 1) * b < n <= len (upload_calls t) * b
        /\ exists docs,
             last payloads = Some docs
             /\ len docs = if n mod b =? 0 then b else n mod b).
Proof.
  intros Hb run t.
  destruct (upload_files_observed ds files b skip w Hb)
    as (st & Hres & _ & _ & Hreads & Hpay & _ & _ & _ & _ & Hnames).
  fold run in Hres, Hreads, Hpay, Hnames. fold t in Hreads, Hpay, Hnames.
  exists st. split; [done|]. intros Hne Hu n payloads.
  specialize (Hnames Hu). fold n in Hnames.
  destruct (batches_by_position (files_to_upload st) b Hb)
    as (_ & Hsizes & Hcount & Hlast).
  fold n in Hsizes, Hcount, Hlast.
  set (batches := (fun j : nat => py_slice (files_to_upload st)
                                    (Z.of_nat j * b) (Z.of_nat j * b + b))
                    <$> seq 0 (Z.to_nat ((n + b - 1) / b))) in *.
  assert (Hnames' :
    (fun docs : list Document => display_name <$> docs) <$> payloads
    = (fun bf : list Path => path_name <$> bf) <$> batches).
  { subst payloads batches. rewrite <- !list_fmap_compose. exact Hnames. }
  assert (Hlens : length <$> payloads = length <$> batches).
  { apply (f_equal (fmap length)) in Hnames'.
    rewrite <- !list_fmap_compose in Hnames'.
    erewrite (list_fmap_ext _ length payloads) in Hnames';
      [|intros; simpl; apply length_fmap].
    erewrite (list_fmap_ext _ length batches) in Hnames';
      [|intros; simpl; apply length_fmap].
    exact Hnames'. }
  assert (Hcalls : len (upload_calls t) = (n + b - 1) / b).
  { rewrite <- Hcount. unfold len.
    apply (f_equal length) in Hlens. rewrite !length_fmap in Hlens.
    subst payloads. rewrite length_fmap in Hlens. lia. }
  split; [|split; [|split; [|split; [|split; [|split]]]]].
  - subst batches. rewrite Hnames'. by rewrite <- list_fmap_compose.
  - exact Hpay.
  - subst payloads. rewrite Hpay, (prepared_all_readable t Hu). by rewrite Hreads.
  - apply Forall_lookup. intros i docs Hi.
    assert (Hl : (length <$> payloads) !! i = Some (length docs))
      by (by rewrite list_lookup_fmap, Hi).
    rewrite Hlens, list_lookup_fmap in Hl.
    destruct (batches !! i) as [s|] eqn:Hs; [|done]. injection Hl as Hl.
    pose proof (Forall_lookup_1 _ _ _ _ Hsizes Hs) as Hsz. simpl in Hsz.
    unfold len in *. lia.
  - exact Hcalls.
  - rewrite Hcalls.
    pose proof (Z.div_mod (n + b - 1) b ltac:(lia)) as Hdm.
    pose proof (Z.mod_pos_bound (n + b - 1) b Hb) as Hmod. lia.
  - destruct (Hlast Hne) as (s & Hs & Hlen).
    apply (f_equal last) in Hlens. rewrite !fmap_last, Hs in Hlens.
    destruct (last payloads) as [docs|]; [|done].
    exists docs. split; [done|]. simpl in Hlens. injection Hlens as Hlens.
    unfold len in *. lia.
Qed.

Lemma failed_names_member (calls : list (list Document * result unit))
    docs e name :
  (docs, Raise e) ∈ calls -> name ∈ display_name <$> docs ->
  name ∈ failed_names calls.
Proof.
  intros Hc Hn. unfold failed_names.
  apply list_elem_of_In, in_flat_map. exists (docs, Raise e).
  split; by apply list_elem_of_In.
Qed.

Lemma returned_calls_names (calls : list (list Document * result unit)) :
  Forall call_returned calls ->
  failed_names calls = []
  /\ succeeded_names calls = display_name <$> concat (fst <$> calls).
Proof.
  induction 1 as [|[docs [[]|e]] calls Hc _ [IH1 IH2]]; [done| |done].
  csimpl. by rewrite fmap_app, IH1, IH2.
Qed.

(** C3.  For a positive batch size: every file that remains after
    filtering is opened and every readable one is submitted, whatever
    happened to earlier upload calls; when the upload call of a batch raises,
    the display names of its whole payload are recorded as failed and it adds
    nothing to the count of successes, which is the size of the payloads of
    the calls that returned, each of whose files has its success record in the
    log; in particular, when every read returns and exactly one upload call
    raises, the failed files are exactly its payload and all other files are
    counted and logged as succeeded. *)
Theorem upload_files_fault_isolation ds (files : list Path) (b : Z)
    (skip : bool) (w : World) :
  0 < b ->
  let run := upload_files ds files b skip w in
  let t := trace_of run in
  exists st,
    result_of run = Done st
    /\ read_paths t = files_to_upload st
    /\ concat (fst <$> upload_calls t) = prepared t
    /\ successful_uploads st = len (succeeded_names (upload_calls t))
    /\ logged_succeeded t = succeeded_names (upload_calls t)
    /\ failed_uploads st
       ≡ₚ (path_str <$> unreadable_paths t) ++ failed_names (upload_calls t)
    /\ (forall docs e name,
          (docs, Raise e) ∈ upload_calls t ->
          name ∈ display_name <$> docs ->
          name ∈ failed_uploads st)
    /\ (forall before docs e after,
          unreadable_paths t = [] ->
          upload_calls t = before ++ (docs, Raise e) :: after ->
          Forall call_returned before ->
          Forall call_returned after ->
          failed_uploads st = display_name <$> docs
          /\ successful_uploads st = len (files_to_upload st) - len docs
          /\ logged_succeeded t
             = display_name <$> concat (fst <$> (before ++ after))
          /\ len before + 1 + len after
             = (len (files_to_upload st) + b - 1) / b).
Proof.
  intros Hb run t.
  destruct (upload_files_observed ds files b skip w Hb)
    as (st & Hres & _ & _ & Hreads & Hpay & Hlog & Hsucc & Hfail & _ & Hnames).
  fold run in Hres, Hreads, Hpay, Hlog, Hsucc, Hfail, Hnames.
  fold t in Hreads, Hpay, Hlog, Hsucc, Hfail, Hnames.
  exists st.
  split; [done|]. split; [done|]. split; [done|].
  split; [by rewrite Hsucc, trace_succeeded_calls|].
  split; [by rewrite Hlog, trace_succeeded_calls|].
  split; [rewrite Hfail; apply trace_failed_perm|].
  split.
  - intros docs e name Hc Hn. rewrite Hfail.
    rewrite (trace_failed_perm t). apply elem_of_app. right.
    by apply failed_names_member with docs e.
  - intros before docs e after Hu Hcalls Hb1 Hb2.
    destruct (returned_calls_names _ Hb1) as [Hf1 Hs1].
    destruct (returned_calls_names _ Hb2) as [Hf2 Hs2].
    assert (Hfn : failed_names (upload_calls t) = display_name <$> docs).
    { rewrite Hcalls. unfold failed_names in *.
      rewrite flat_map_app. simpl. by rewrite Hf1, Hf2, app_nil_r. }
    assert (Hsn : succeeded_names (upload_calls t)
                  = display_name <$> concat (fst <$> (before ++ after))).
    { rewrite Hcalls. unfold succeeded_names in *.
      rewrite flat_map_app. simpl. rewrite Hs1, Hs2.
      by rewrite !fmap_app, concat_app, fmap_app. }
    split; [by rewrite Hfail, (trace_failed_all_readable t Hu)|].
    split; [|split].
    + rewrite Hsucc, trace_succeeded_calls, <- Hreads. unfold len.
      rewrite reads_split, Hu, <- Hpay, calls_split, Hfn, length_fmap.
      simpl. lia.
    + by rewrite Hlog, trace_succeeded_calls.
    + apply (f_equal length) in Hnames; [|done].
      rewrite !length_fmap, length_seq, Hcalls, length_app in Hnames.
      simpl in Hnames. unfold len in *.
      assert (0 <= (Z.of_nat (length (files_to_upload st)) + b - 1) / b)
        by (apply Z.div_pos; lia).
      lia.
Qed.

(** C9.  For a positive batch size the events of a run are those of the
    inventory phase, then one group of events per batch, then the closing
    output; in the group of a batch every file of the batch is opened, in
    order, whether or not an earlier read raised; the files whose read
    returned, and only they, make up the payload of the single upload call
    of the batch, which is issued whenever at least one read returned; and
    the failure records of the run are, batch by batch, the files whose read
    raised followed by the payload of an upload call that raised. *)
Theorem upload_files_read_failure_isolated ds (files : list Path) (b : Z)
    (skip : bool) (w : World) :
  0 < b ->
  let run := upload_files ds files b skip w in
  exists st opening ts closing,
    result_of run = Done st
    /\ trace_of run = opening ++ concat ts ++ closing
    /\ Forall (fun e => is_background e = true) opening
    /\ Forall (fun e => is_background e = true) closing
    /\ Forall2 batch_ok
         ((fun j : nat => py_slice (files_to_upload st)
                            (Z.of_nat j * b) (Z.of_nat j * b + b))
            <$> seq 0 (Z.to_nat ((len (files_to_upload st) + b - 1) / b)))
         ts
    /\ Forall (fun t => length (read_paths t)
                        = (length (prepared t)
                           + length (unreadable_paths t))%nat) ts
    /\ failed_uploads st
       = concat ((fun t => (path_str <$> unreadable_paths t)
                           ++ failed_names (upload_calls t)) <$> ts)
    /\ successful_uploads st
       = len (concat ((fun t => succeeded_names (upload_calls t)) <$> ts)).
Proof.
  intros Hb run.
  destruct (upload_files_positive ds files b skip w Hb)
    as (existing & w1 & t1 & w2 & ts & st & Hrec & Hinv & Hsk & Hrem & Htot
        & Hsucc & Hfail & Hoks & Hrun).
  exists st, t1, ts,
    (match files_to_upload st with
     | [] => [EvLog INFO MsgNothingToUpload]
     | _ => summary_events st
     end).
  subst run. rewrite Hrun. unfold result_of, trace_of. cbn [fst snd].
  split; [done|]. split; [done|].
  split; [by apply inventory_events_background|].
  split.
  { destruct (files_to_upload st); [by repeat constructor|].
    apply summary_events_background. }
  split; [done|].
  split; [apply Forall_forall; intros t _; apply reads_split|].
  split.
  - rewrite Hfail. unfold trace_failed at 1. rewrite flat_map_concat.
    f_equal. clear -Hoks. induction Hoks as [|bf t bfs ts Hok _ IH]; [done|].
    csimpl. rewrite IH. f_equal. destruct Hok as (_ & _ & _ & Hf & _).
    exact Hf.
  - rewrite Hsucc. f_equal. unfold trace_succeeded at 1.
    rewrite flat_map_concat. f_equal.
    apply list_fmap_ext. intros _ t _. apply trace_succeeded_calls.
Qed.

End Statistics.

(** ** Deduplication by name *)

Section Deduplication.
Context {World : Type} {env : Environment World}.

Lemma elem_of_concat {A} (x : A) (ls : list (list A)) :
  x ∈ concat ls <-> exists l, x ∈ l /\ l ∈ ls.
Proof.
  rewrite list_elem_of_In, in_concat. split.
  - intros (l & Hl & Hx). exists l. by rewrite !list_elem_of_In.
  - intros (l & Hx & Hl). exists l. by rewrite <- !list_elem_of_In.
Qed.

Lemma py_slice_subseteq {A} (l : list A) (i j : Z) : py_slice l i j ⊆ l.
Proof.
  unfold py_slice. etrans; [apply subseteq_take|apply subseteq_drop].
Qed.

Lemma prepared_from_reads (t : Trace) (d : Document) :
  d ∈ prepared t ->
  exists p, p ∈ read_paths t /\ display_name d = path_name p.
Proof.
  induction t as [|e t IH]; [by intros ?%elem_of_nil|].
  destruct e as [| | | | |p [content|]| |]; simpl; try exact IH.
  - intros [->|Hd]%elem_of_cons.
    + exists p. split; [by left|done].
    + destruct (IH Hd) as (q & Hq & Hname). exists q. split; [by right|done].
  - intros Hd. destruct (IH Hd) as (q & Hq & Hname).
    exists q. split; [by right|done].
Qed.

Lemma all_skipped (f : Path -> bool) (files : list Path) :
  List.filter (fun p => negb (f p)) files = [] -> List.filter f files = files.
Proof.
  induction files as [|p files IH]; [done|]. simpl.
  destruct (f p); simpl; [|done]. intros Hrest. by rewrite IH.
Qed.

Lemma none_skipped (f : Path -> bool) (files : list Path) :
  (forall p, f p = false) ->
  List.filter f files = [] /\ List.filter (fun p => negb (f p)) files = files.
Proof.
  intros Hf. induction files as [|p files [IH1 IH2]]; [done|]. simpl.
  by rewrite Hf, IH1, IH2.
Qed.

Lemma skips_iff (skip : bool) (existing : gmap string RemoteDoc) (p : Path) :
  skips skip existing p = true
  <-> skip = true /\ path_name p ∈ dom existing.
Proof.
  unfold skips. rewrite andb_true_iff, bool_decide_eq_true. done.
Qed.

(** The shape of every run of [upload_files], whatever the batch size. *)
Lemma upload_files_shape ds (files : list Path) (b : Z) (skip : bool)
    (w : World) :
  let run := upload_files ds files b skip w in
  exists existing w1 t1 ts closing,
    reconcile skip ds w = (Done existing, w1, t1)
    /\ Forall (fun e => is_inventory_event e = true) t1
    /\ Forall (fun e => is_background e = true) closing
    /\ trace_of run = t1 ++ concat ts ++ closing
    /\ (exists indices,
          Forall2 batch_ok
            ((fun i => py_slice
                         (List.filter (fun p => negb (skips skip existing p)) files)
                         i (i + b)) <$> indices) ts)
    /\ (forall st, result_of run = Done st ->
          skipped_files st
          = path_str <$> List.filter (skips skip existing) files
          /\ files_to_upload st
             = List.filter (fun p => negb (skips skip existing p)) files)
    /\ (b <> 0 -> exists st, result_of run = Done st)
    /\ (List.filter (fun p => negb (skips skip existing p)) files = [] ->
        run = (Done (mkStats (len files) 0 []
                       (path_str <$> List.filter (skips skip existing) files) []),
               w1, t1 ++ [EvLog INFO MsgNothingToUpload])).
Proof.
  intros run.
  destruct (upload_files_run ds files b skip w)
    as (existing & w1 & t1 & Hrec & Hinv & Hrun).
  cbv zeta in Hrun. fold run in Hrun.
  exists existing, w1, t1.
  remember (List.filter (fun p => negb (skips skip existing p)) files)
    as remaining eqn:Hremaining.
  destruct remaining as [|p rest] eqn:Hrem.
  - exists [], [EvLog INFO MsgNothingToUpload]. rewrite Hrun.
    unfold result_of, trace_of. cbn [fst snd concat app].
    split; [done|]. split; [done|]. split; [by repeat constructor|].
    split; [done|]. split; [exists []; constructor|].
    split; [by intros st [= <-]|]. split; [by eauto|done].
  - rewrite <- Hrem in *.
    assert (Hzero : b <> 0 -> exists indices,
               py_range 0 (len remaining) b = Ok indices).
    { intros Hb. unfold py_range. destruct (Z.eqb_spec b 0); [done|by eauto]. }
    destruct (py_range 0 (len remaining) b) as [indices|e] eqn:Hrange.
    + destruct Hrun as (w2 & ts & Hoks & Hrun). cbv zeta in Hrun.
      exists ts. eexists. rewrite Hrun. unfold result_of, trace_of.
      cbn [fst snd].
      split; [done|]. split; [done|].
      split; [apply summary_events_background|].
      split; [done|]. split; [by exists indices|].
      split; [by intros st [= <-]|]. split; [by eauto|by rewrite Hrem].
    + exists [], []. rewrite Hrun. unfold result_of, trace_of.
      cbn [fst snd concat app]. rewrite app_nil_r.
      split; [done|]. split; [done|]. split; [constructor|].
      split; [done|]. split; [exists []; constructor|].
      split; [done|]. split; [|by rewrite Hrem].
      intros Hb. by destruct (Hzero Hb).
Qed.

(** C4.  The filtering of [upload_files] depends on the inventory and the
    base name alone: with [skip_existing] set, a file is recorded as skipped
    exactly when its name is a key of the reconciled mapping, whatever its
    directory, and the files that remain are the others, in order; only
    files that remain are ever opened or submitted; without [skip_existing]
    nothing is skipped. *)
Theorem upload_files_skips_by_name ds (files : list Path) (b : Z)
    (skip : bool) (w : World) :
  let inventory := reconcile skip ds w in
  let run := upload_files ds files b skip w in
  let t := trace_of run in
  exists existing,
    result_of inventory = Done existing
    /\ (forall st, result_of run = Done st ->
          skipped_files st
          = path_str <$> List.filter (skips skip existing) files
          /\ files_to_upload st
             = List.filter (fun p => negb (skips skip existing p)) files)
    /\ (b <> 0 -> exists st, result_of run = Done st)
    /\ (forall p, skips skip existing p = true
                  <-> skip = true /\ path_name p ∈ dom existing)
    /\ (forall p q, path_name p = path_name q ->
                    skips skip existing p = skips skip existing q)
    /\ (forall p, p ∈ read_paths t ->
                  p ∈ files /\ skips skip existing p = false)
    /\ (forall docs r d,
          (docs, r) ∈ upload_calls t -> d ∈ docs ->
          exists p, p ∈ files /\ skips skip existing p = false
                    /\ display_name d = path_name p)
    /\ (0 < b ->
        read_paths t
        = List.filter (fun p => negb (skips skip existing p)) files)
    /\ (skip = false ->
        forall st, result_of run = Done st ->
                   skipped_files st = [] /\ files_to_upload st = files).
Proof.
  intros inventory run t.
  destruct (upload_files_shape ds files b skip w)
    as (existing & w1 & t1 & ts & closing & Hrec & Hinv & Hclose & Htrace
        & (indices & Hoks) & Hstats & Hret & _).
  fold run in Htrace, Hstats, Hret. fold t in Htrace.
  exists existing. subst inventory. rewrite Hrec.
  destruct (around_batches_unobserved t1 (concat ts) closing
              (inventory_events_background _ Hinv) Hclose)
    as (Hcalls & Hreads & Hprep & _).
  rewrite <- Htrace in Hcalls, Hreads, Hprep.
  assert (Hremain : forall p, p ∈ read_paths t ->
            p ∈ files /\ skips skip existing p = false).
  { intros p Hp. rewrite Hreads, (batches_read_paths _ _ Hoks) in Hp.
    apply elem_of_concat in Hp as (bf & Hp & Hbf).
    apply list_elem_of_fmap in Hbf as (i & -> & _).
    apply py_slice_subseteq in Hp.
    apply list_elem_of_In, filter_In in Hp as [Hp Hs].
    split; [by apply list_elem_of_In|]. by apply negb_true_iff. }
  split; [done|]. split; [done|]. split; [done|].
  split; [apply skips_iff|].
  split; [by intros p q Hpq; unfold skips; rewrite Hpq|].
  split; [done|]. split; [|split].
  - intros docs r d Hc Hd.
    assert (Hin : d ∈ prepared t).
    { rewrite Hprep. destruct (batches_payloads _ _ Hoks) as (<- & _).
      rewrite <- Hcalls. apply elem_of_concat. exists docs. split; [done|].
      apply list_elem_of_fmap. by exists (docs, r). }
    destruct (prepared_from_reads t d Hin) as (p & Hp & Hname).
    exists p. by destruct (Hremain p Hp).
  - intros Hb.
    destruct (upload_files_observed ds files b skip w Hb)
      as (st & Hres & _ & _ & Hr & _).
    fold run in Hres, Hr. fold t in Hr.
    rewrite Hr. by apply Hstats.
  - intros -> st Hst. destruct (Hstats st Hst) as [-> ->].
    destruct (none_skipped (skips false existing) files) as [-> ->]; done.
Qed.

(** C6, as the code has it.  When no file remains after filtering,
    [upload_files] does nothing beyond the inventory phase: it opens no file
    and issues no upload call, counts no success and no failure, records all
    the files it was given as skipped, logs that there is nothing to upload
    and returns at once, without the summary block. *)
Theorem upload_files_nothing_remaining ds (files : list Path) (b : Z)
    (skip : bool) (w : World) :
  let inventory := reconcile skip ds w in
  let run := upload_files ds files b skip w in
  forall existing,
    result_of inventory = Done existing ->
    List.filter (fun p => negb (skips skip existing p)) files = [] ->
    result_of run = Done (mkStats (len files) 0 [] (path_str <$> files) [])
    /\ world_of run = world_of inventory
    /\ trace_of run = trace_of inventory ++ [EvLog INFO MsgNothingToUpload]
    /\ upload_calls (trace_of run) = []
    /\ read_paths (trace_of run) = []
    /\ List.filter is_summary (trace_of run) = [].
Proof.
  intros inventory run existing Hex Hnone.
  destruct (upload_files_shape ds files b skip w)
    as (existing' & w1 & t1 & ts & closing & Hrec & Hinv & _ & _ & _ & _ & _
        & Hrun).
  fold run in Hrun. subst inventory. rewrite Hrec in *.
  unfold result_of in Hex. simpl in Hex. injection Hex as ->.
  rewrite (Hrun Hnone), (all_skipped _ _ Hnone).
  unfold result_of, world_of, trace_of. cbn [fst snd].
  pose proof (inventory_events_background _ Hinv) as Hbg.
  apply background_unobserved in Hbg as (Hu & Hr & _).
  unfold upload_calls, read_paths in *.
  rewrite !flat_map_app, Hu, Hr, List.filter_app.
  rewrite (inventory_events_no_summary _ Hinv). done.
Qed.

(** C8.  When a listing call of reconciliation fails for good (any
    exception of the paginated call other than [TypeError], any exception of
    the unpaginated call), [get_existing_documents] returns the empty mapping
    instead of raising, and an upload with [skip_existing] then skips nothing
    and attempts every file it was given. *)
Theorem get_existing_documents_degrades ds (w : World) :
  let inventory := get_existing_documents ds w in
  existsb unrecoverable_listing (trace_of inventory) = true ->
  result_of inventory = Done ∅
  /\ forall files b,
       0 < b ->
       let run := upload_files ds files b true w in
       exists st,
         result_of run = Done st
         /\ skipped_files st = []
         /\ files_to_upload st = files
         /\ read_paths (trace_of run) = files.
Proof.
  intros inventory Hbad.
  assert (Hres : result_of inventory = Done ∅).
  { subst inventory. rewrite get_existing_documents_result.
    unfold inventory_of. by rewrite Hbad. }
  split; [done|]. intros files b Hb run.
  destruct (upload_files_shape ds files b true w)
    as (existing & w1 & t1 & ts & closing & Hrec & _ & _ & _ & _ & Hstats & _).
  fold run in Hstats.
  change (reconcile true ds w) with inventory in Hrec.
  rewrite Hrec in Hres. injection Hres as ->.
  destruct (upload_files_observed ds files b true w Hb)
    as (st & Hst & _ & _ & Hreads & _).
  fold run in Hst, Hreads. exists st. split; [done|].
  rewrite Hreads. destruct (Hstats st Hst) as [-> ->].
  destruct (none_skipped (skips true ∅) files) as [-> ->]; [|done].
  intros p. unfold skips. simpl. apply bool_decide_eq_false.
  rewrite dom_empty_L. apply not_elem_of_empty.
Qed.

End Deduplication.

(** ** Runs of the scripted environment *)

(** Counterexample to C1 as it is stated: with seven files and a batch
    size of -1 the call returns and reports seven files to upload, none
    succeeded and none failed. *)
Lemma upload_files_negative_batch_size_miscounts :
  let run := upload_files Mock.kb Mock.seven (-1) false (Mock.quiet Mock.seven) in
  let st := mkStats 7 0 [] [] Mock.seven in
  result_of run = Done st
  /\ read_paths (trace_of run) = []
  /\ upload_calls (trace_of run) = []
  /\ successful_uploads st + len (failed_uploads st) <> len (files_to_upload st).
Proof.
  intros run st. split; [reflexivity|]. split; [reflexivity|].
  split; [reflexivity|]. vm_compute. discriminate.
Qed.

(** Seven files in batches of five: two upload calls, all succeed. *)
Lemma upload_files_statistics_invariant_witness :
  let run := upload_files Mock.kb Mock.seven 5 false (Mock.quiet Mock.seven) in
  0 < 5
  /\ exists st,
       result_of run = Done st
       /\ read_paths (trace_of run) = files_to_upload st
       /\ successful_uploads st = len (trace_succeeded (trace_of run))
       /\ successful_uploads st + len (failed_uploads st)
          = len (files_to_upload st)
       /\ len (files_to_upload st) + len (skipped_files st) = total_files st
       /\ total_files st = len Mock.seven.
Proof.
  intros run.
  assert (Hb : 0 < 5) by lia.
  destruct (upload_files_statistics_invariant
              Mock.kb Mock.seven 5 false (Mock.quiet Mock.seven) Hb)
    as (existing & st & _ & Hres & Htot & _ & _ & Hreads & Hsucc & _ & Hsum
        & Hall).
  split; [exact Hb|]. exists st.
  split; [exact Hres|]. split; [exact Hreads|]. split; [exact Hsucc|].
  split; [exact Hsum|]. split; [exact Hall|exact Htot].
Defined.

Lemma upload_files_batch_partition_witness :
  let run := upload_files Mock.kb Mock.seven 5 false (Mock.quiet Mock.seven) in
  0 < 5
  /\ unreadable_paths (trace_of run) = []
  /\ len (upload_calls (trace_of run)) = 2
  /\ exists docs,
       last (fst <$> upload_calls (trace_of run)) = Some docs /\ len docs = 2.
Proof.
  intros run.
  destruct (upload_files_batch_partition
              Mock.kb Mock.seven 5 false (Mock.quiet Mock.seven) ltac:(lia))
    as (st & Hst & Hparts).
  fold run in Hst, Hparts.
  assert (Hftu : files_to_upload st = Mock.seven).
  { vm_compute in Hst. by injection Hst as <-. }
  assert (Hne : files_to_upload st <> []) by (by rewrite Hftu).
  assert (Hu : unreadable_paths (trace_of run) = []) by reflexivity.
  destruct (Hparts Hne Hu)
    as (_ & _ & _ & _ & Hcount & _ & docs & Hlast & Hlen).
  rewrite Hftu in Hcount, Hlen.
  split; [lia|]. split; [done|]. split; [exact Hcount|].
  exists docs. split; [done|]. exact Hlen.
Defined.

(** The first of two upload calls raises: its five files are the failed
    ones, the two files of the second batch are counted and logged as
    succeeded. *)
Lemma upload_files_fault_isolation_witness :
  let run := upload_files Mock.kb Mock.seven 5 false
               (Mock.first_upload_fails Mock.seven) in
  0 < 5
  /\ unreadable_paths (trace_of run) = []
  /\ exists st,
       result_of run = Done st
       /\ failed_uploads st = ["a.md"; "b.md"; "c.md"; "d.md"; "e.md"]%string
       /\ successful_uploads st = 2
       /\ logged_succeeded (trace_of run) = ["f.md"; "g.md"]%string.
Proof.
  intros run.
  destruct (upload_files_fault_isolation
              Mock.kb Mock.seven 5 false (Mock.first_upload_fails Mock.seven)
              ltac:(lia))
    as (st & Hst & _ & _ & _ & _ & _ & _ & Hone).
  fold run in Hst, Hone.
  assert (Hftu : files_to_upload st = Mock.seven).
  { vm_compute in Hst. by injection Hst as <-. }
  edestruct (Hone []) as (Hfailed & Hsucc & Hlogged & _);
    [reflexivity | vm_compute; reflexivity | constructor
    | repeat constructor |].
  rewrite Hftu in Hsucc.
  split; [lia|]. split; [reflexivity|].
  exists st. split; [done|]. split; [exact Hfailed|].
  split; [exact Hsucc|exact Hlogged].
Defined.

(** One unreadable file among seven, batches of five. *)
Lemma upload_files_read_failure_isolated_witness :
  let run := upload_files Mock.kb Mock.seven 5 false
               (Mock.one_unreadable Mock.seven) in
  0 < 5
  /\ unreadable_paths (trace_of run) = [Mock.file "b.md"]
  /\ exists st opening ts closing,
       result_of run = Done st
       /\ trace_of run = opening ++ concat ts ++ closing
       /\ Forall (fun e => is_background e = true) opening
       /\ Forall (fun e => is_background e = true) closing
       /\ Forall2 batch_ok
            ((fun j : nat => py_slice (files_to_upload st)
                               (Z.of_nat j * 5) (Z.of_nat j * 5 + 5))
               <$> seq 0 (Z.to_nat ((len (files_to_upload st) + 5 - 1) / 5)))
            ts
       /\ Forall (fun t => length (read_paths t)
                           = (length (prepared t)
                              + length (unreadable_paths t))%nat) ts
       /\ failed_uploads st
          = concat ((fun t => (path_str <$> unreadable_paths t)
                              ++ failed_names (upload_calls t)) <$> ts)
       /\ successful_uploads st
          = len (concat ((fun t => succeeded_names (upload_calls t)) <$> ts)).
Proof.
  intros run. split; [lia|]. split; [reflexivity|].
  apply (upload_files_read_failure_isolated
           Mock.kb Mock.seven 5 false (Mock.one_unreadable Mock.seven)).
  lia.
Defined.

(** Of two files the one whose name is in the inventory is skipped. *)
Lemma upload_files_skips_by_name_witness :
  let files := [Mock.file "a.md"; Mock.file "b.md"] in
  let run := upload_files Mock.kb files 5 true (Mock.already_there files) in
  5 <> 0 /\ 0 < 5
  /\ read_paths (trace_of run) = [Mock.file "b.md"]
  /\ exists st,
       result_of run = Done st
       /\ skipped_files st = ["docs/a.md"]%string
       /\ files_to_upload st = [Mock.file "b.md"].
Proof.
  intros files run.
  destruct (upload_files_skips_by_name
              Mock.kb files 5 true (Mock.already_there files))
    as (existing & Hex & Hstats & Hret & _ & _ & _ & _ & Hreads & _).
  fold run in Hstats, Hret, Hreads.
  destruct (Hret ltac:(lia)) as (st & Hst).
  destruct (Hstats st Hst) as [Hskipped Hremain].
  specialize (Hreads ltac:(lia)).
  vm_compute in Hex. injection Hex as <-.
  split; [lia|]. split; [lia|]. split; [exact Hreads|].
  exists st. split; [done|]. split; [exact Hskipped|exact Hremain].
Defined.

(** Counterexample to C6 as it is stated: the only file is already in the
    inventory, so no file remains; the function returns without a single
    event of the summary block, and the statistics are not all zero. *)
Lemma upload_files_all_skipped_no_summary :
  let files := [Mock.file "a.md"] in
  let run := upload_files Mock.kb files 5 true (Mock.already_there files) in
  result_of run = Done (mkStats 1 0 [] ["docs/a.md"%string] [])
  /\ upload_calls (trace_of run) = []
  /\ List.filter is_summary (trace_of run) = []
  /\ ~ (exists e, e ∈ trace_of run /\ is_summary e = true).
Proof.
  intros files run. split; [reflexivity|]. split; [reflexivity|].
  split; [reflexivity|].
  intros (e & He & Hs).
  assert (Hin : In e (List.filter is_summary (trace_of run))).
  { apply filter_In. split; [by apply list_elem_of_In|done]. }
  exact Hin.
Qed.

Lemma upload_files_nothing_remaining_witness :
  let files := [Mock.file "a.md"] in
  let w := Mock.already_there files in
  let run := upload_files Mock.kb files 5 true w in
  (exists existing,
     result_of (reconcile true Mock.kb w) = Done existing
     /\ List.filter (fun p => negb (skips true existing p)) files = [])
  /\ result_of run = Done (mkStats (len files) 0 [] (path_str <$> files) [])
  /\ world_of run = world_of (reconcile true Mock.kb w)
  /\ trace_of run
     = trace_of (reconcile true Mock.kb w) ++ [EvLog INFO MsgNothingToUpload]
  /\ upload_calls (trace_of run) = []
  /\ read_paths (trace_of run) = []
  /\ List.filter is_summary (trace_of run) = [].
Proof.
  intros files w run.
  split; [eexists; split; vm_compute; reflexivity|].
  eapply (upload_files_nothing_remaining Mock.kb files 5 true w);
    vm_compute; reflexivity.
Defined.

(** Counterexample to C5 as it is stated: the directory is missing, and yet
    the collection is looked up and created remotely before the run
    aborts. *)
Lemma main_missing_directory_calls_remote :
  let run := main Mock.missing_directory (Mock.quiet []) in
  fs_exists (directory Mock.missing_directory) (Mock.quiet []) = false
  /\ result_of run = Done 1
  /\ remote_calls (trace_of run)
     = [EvListDatasets "kb" (Ok []);
        EvCreateDataset "kb" (dataset_description "kb") "naive" "me"
                        (Ok (Mock.created "kb"))]
  /\ remote_calls (trace_of run) <> [].
Proof. intros run. repeat split; done. Qed.

Lemma main_missing_directory_aborts_witness :
  let w := Mock.quiet [] in
  let args := Mock.missing_directory in
  let resolution := get_or_create_dataset (dataset_name args) w in
  let run := main args w in
  fs_exists (directory args) (world_of resolution) = false
  /\ result_of run = Done 1
  /\ remote_calls (trace_of run) = remote_calls (trace_of resolution)
  /\ read_paths (trace_of run) = [].
Proof.
  intros w args resolution run.
  assert (Hdir : fs_exists (directory args) (world_of resolution) = false)
    by (vm_compute; reflexivity).
  destruct (main_missing_directory_aborts args w Hdir)
    as (Hexit & _ & _ & Hcalls & _ & Hreads).
  split; [exact Hdir|]. split; [exact Hexit|]. split; [exact Hcalls|exact Hreads].
Defined.


(** A failing listing: the inventory is empty although the remote holds
    [a.md], and the file is uploaded. *)
Lemma get_existing_documents_degrades_witness :
  let files := [Mock.file "a.md"] in
  let w := Mock.listing_broken files in
  let inventory := get_existing_documents Mock.kb w in
  let run := upload_files Mock.kb files 5 true w in
  existsb unrecoverable_listing (trace_of inventory) = true
  /\ 0 < 5
  /\ result_of inventory = Done ∅
  /\ exists st,
       result_of run = Done st
       /\ skipped_files st = []
       /\ files_to_upload st = files
       /\ read_paths (trace_of run) = files.
Proof.
  intros files w inventory run.
  assert (Hbad : existsb unrecoverable_listing (trace_of inventory) = true)
    by (vm_compute; reflexivity).
  destruct (get_existing_documents_degrades Mock.kb w Hbad)
    as (Hempty & Hupload).
  split; [exact Hbad|]. split; [lia|]. split; [exact Hempty|].
  apply Hupload. lia.
Defined.

(** Lookup and creation both raise: the lookup error is swallowed, the
    creation error propagates, and the run exits with status 1. *)
Lemma get_or_create_dataset_lookup_error_swallowed_witness :
  let w := Mock.resolution_broken in
  rag_list_datasets "kb" w = (Raise (OtherException "lookup"), w)
  /\ get_or_create_dataset "kb" w
     = (Throw (OtherException "create"), w,
        [EvListDatasets "kb" (Raise (OtherException "lookup"));
         EvLog ERROR (MsgLookupFailed (OtherException "lookup"));
         EvCreateDataset "kb" (dataset_description "kb") "naive" "me"
                         (Raise (OtherException "create"));
         EvLog ERROR (MsgCreateFailed (OtherException "create"))])
  /\ result_of (main Mock.missing_directory w) = Done 1.
Proof.
  intros w.
  destruct (get_or_create_dataset_lookup_error_swallowed "kb" w)
    as (Hswallow & _ & _ & Habort).
  assert (Hlookup : rag_list_datasets "kb" w
                    = (Raise (OtherException "lookup"), w))
    by (vm_compute; reflexivity).
  destruct (Hswallow (OtherException "lookup") w Hlookup)
    as (r & w2 & Hcreate & Hrun).
  vm_compute in Hcreate. injection Hcreate as <- <-.
  split; [exact Hlookup|]. split; [exact Hrun|].
  by rewrite (Habort Mock.missing_directory _ _ _ eq_refl Hrun).
Defined.

(** Outside the contract of [upload_files]: a zero batch size makes the
    range of the batch loop raise [ValueError], and with a negative one the
    loop body never runs, so the files that remain are neither counted as
    succeeded nor recorded as failed. *)
Lemma upload_files_nonpositive_batch_size :
  result_of (upload_files Mock.kb Mock.seven 0 false (Mock.quiet Mock.seven))
  = Throw ValueError
  /\ result_of (upload_files Mock.kb Mock.seven (-1) false (Mock.quiet Mock.seven))
     = Done (mkStats 7 0 [] [] Mock.seven).
Proof. split; reflexivity. Qed.

(** ** Supported file names *)

Section FileNames.

Lemma ascii_lower_dot (c : ascii) :
  Ascii.eqb (ascii_lower c) "."%char = Ascii.eqb c "."%char.
Proof. by destruct c as [[] [] [] [] [] [] [] []]. Qed.

Lemma ascii_lower_idem (c : ascii) : ascii_lower (ascii_lower c) = ascii_lower c.
Proof. by destruct c as [[] [] [] [] [] [] [] []]. Qed.

Lemma lower_idem (s : string) : lower (lower s) = lower s.
Proof.
  induction s as [|c s IH]; [done|]. simpl. by rewrite ascii_lower_idem, IH.
Qed.

Lemma lower_length (s : string) : String.length (lower s) = String.length s.
Proof. induction s as [|c s IH]; [done|]. simpl. by rewrite IH. Qed.

Lemma rfind_dot_lower (s : string) (i : nat) :
  rfind_dot (lower s) i = rfind_dot s i.
Proof.
  revert i. induction s as [|c s IH]; intros i; [done|].
  simpl. by rewrite IH, ascii_lower_dot.
Qed.

Lemma substring_lower (n m : nat) (s : string) :
  substring n m (lower s) = lower (substring n m s).
Proof.
  revert n m. induction s as [|c s IH]; intros n m.
  - by destruct n, m.
  - destruct n as [|n]; simpl; [|apply IH].
    destruct m as [|m]; simpl; [done|]. by rewrite IH.
Qed.

(** Lower-casing the name lower-cases the suffix. *)
Lemma suffix_lower (dir dir' : list string) (name : string) :
  suffix (mkPath dir (lower name)) = lower (suffix (mkPath dir' name)).
Proof.
  unfold suffix. simpl. rewrite rfind_dot_lower, lower_length.
  destruct (rfind_dot name 0) as [i|]; [|done].
  destruct (_ && _)%nat; [|done]. apply substring_lower.
Qed.

Lemma rfind_dot_shift (s : string) (i : nat) :
  rfind_dot s i = (fun j => (j + i)%nat) <$> rfind_dot s 0.
Proof.
  revert i. induction s as [|c s IH]; intros i; [done|].
  simpl. rewrite (IH (S i)), (IH 1%nat).
  destruct (rfind_dot s 0) as [j|]; simpl.
  - f_equal; lia.
  - destruct (Ascii.eqb c "."%char); reflexivity.
Qed.

Lemma append_nil_l (s : string) : (EmptyString +:+ s) = s.
Proof. reflexivity. Qed.

Lemma append_cons (c : ascii) (s1 s2 : string) :
  (String c s1 +:+ s2) = String c (s1 +:+ s2).
Proof. reflexivity. Qed.

Lemma rfind_dot_app (s1 s2 : string) (i : nat) :
  rfind_dot (s1 +:+ s2) i
  = match rfind_dot s2 (i + String.length s1) with
    | Some j => Some j
    | None => rfind_dot s1 i
    end.
Proof.
  revert i. induction s1 as [|c s1 IH]; intros i;
    rewrite ?append_nil_l, ?append_cons; simpl.
  - rewrite Nat.add_0_r. by destruct (rfind_dot s2 i).
  - rewrite IH. replace (S i + String.length s1)%nat
      with (i + S (String.length s1))%nat by lia.
    by destruct (rfind_dot s2 _).
Qed.

Lemma rfind_dot_bounds (s : string) (i j : nat) :
  rfind_dot s i = Some j -> (i <= j < i + String.length s)%nat.
Proof.
  revert i. induction s as [|c s IH]; intros i; simpl; [done|].
  destruct (rfind_dot s (S i)) as [k|] eqn:Hk.
  - intros [= <-]. apply IH in Hk. lia.
  - destruct (Ascii.eqb c "."%char); [|done]. intros [= <-]. lia.
Qed.

Lemma append_length (s1 s2 : string) :
  String.length (s1 +:+ s2) = (String.length s1 + String.length s2)%nat.
Proof.
  induction s1 as [|c s1 IH]; rewrite ?append_nil_l, ?append_cons; simpl;
    [done|]. by rewrite IH.
Qed.

Lemma substring_all (s : string) : substring 0 (String.length s) s = s.
Proof. induction s as [|c s IH]; simpl; [done|]. by rewrite IH. Qed.

Lemma substring_append_tail (s1 s2 : string) :
  substring (String.length s1) (String.length s2) (s1 +:+ s2) = s2.
Proof.
  induction s1 as [|c s1 IH]; rewrite ?append_nil_l, ?append_cons; simpl;
    [apply substring_all|done].
Qed.

Lemma substring_split (s : string) (i : nat) :
  (i <= String.length s)%nat ->
  s = substring 0 i s +:+ substring i (String.length s - i) s
  /\ String.length (substring 0 i s) = i.
Proof.
  revert i. induction s as [|c s IH]; intros i Hi; simpl in *.
  - by replace i with 0%nat by lia.
  - destruct i as [|i]; simpl.
    + by rewrite append_nil_l, substring_all.
    + destruct (IH i ltac:(lia)) as [Hs Hl].
      by rewrite append_cons, <- Hs, Hl.
Qed.

Lemma supported_extensions_plain :
  forall e, e ∈ supported_extensions -> plain_extension e = true.
Proof.
  intros e He. apply list_elem_of_In in He.
  revert e He. apply forallb_forall. reflexivity.
Qed.

(** An extension whose lower-case form is supported is a dot followed by a
    non-empty part without dots. *)
Lemma supported_extension_shape (ext : string) :
  lower ext ∈ supported_extensions ->
  exists rest, ext = String "."%char rest /\ rest <> EmptyString
               /\ rfind_dot rest 0 = None.
Proof.
  intros He%supported_extensions_plain.
  destruct ext as [|c rest]; [done|]. simpl in He.
  rewrite ascii_lower_dot, rfind_dot_lower in He.
  apply andb_true_iff in He as [[Hc Hne]%andb_true_iff Hdot].
  apply Ascii.eqb_eq in Hc as ->. exists rest. split; [done|]. split.
  - intros ->. done.
  - by destruct (rfind_dot rest 0).
Qed.

(** X1.  A file is supported exactly when its name is a non-empty stem
    followed by an extension whose lower-case form is one of the supported
    extensions. *)
Theorem is_supported_file_iff (p : Path) :
  is_supported_file p = true
  <-> exists stem ext : string,
        path_name p = stem +:+ ext /\ stem <> EmptyString
        /\ lower ext ∈ supported_extensions.
Proof.
  unfold is_supported_file. rewrite bool_decide_eq_true. split.
  - unfold suffix. intros Hin.
    destruct (rfind_dot (path_name p) 0) as [i|] eqn:Hi;
      [|by apply supported_extensions_plain in Hin].
    destruct ((0 <? i)%nat && (i <? String.length (path_name p) - 1)%nat)
      eqn:Hcond; [|by apply supported_extensions_plain in Hin].
    apply andb_true_iff in Hcond as [H0%Nat.ltb_lt H1%Nat.ltb_lt].
    destruct (substring_split (path_name p) i ltac:(lia)) as [Hsplit Hlen].
    exists (substring 0 i (path_name p)),
           (substring i (String.length (path_name p) - i) (path_name p)).
    split; [done|]. split; [|done].
    intros Hempty. rewrite Hempty in Hlen. simpl in Hlen. lia.
  - intros (stem & ext & Hname & Hstem & Hext).
    destruct (supported_extension_shape ext Hext) as (rest & -> & Hrest & Hdot).
    unfold suffix. rewrite Hname, rfind_dot_app. simpl.
    rewrite (rfind_dot_shift rest), Hdot. simpl.
    assert (0 < String.length stem)%nat by (destruct stem; [done|simpl; lia]).
    assert (0 < String.length rest)%nat by (destruct rest; [done|simpl; lia]).
    rewrite append_length. simpl.
    destruct (Nat.ltb_spec 0 (String.length stem)) as [_|?]; [|lia].
    destruct (Nat.ltb_spec (String.length stem)
                (String.length stem + S (String.length rest) - 1)) as [_|?];
      [|lia].
    simpl.
    replace (String.length stem + S (String.length rest) - String.length stem)%nat
      with (String.length (String "."%char rest)) by (simpl; lia).
    by rewrite substring_append_tail.
Qed.

(** X2.  Whether a file is supported depends neither on its directory nor
    on the case of the letters of its name. *)
Theorem is_supported_file_case_insensitive (dir dir' : list string)
    (name : string) :
  is_supported_file (mkPath dir name)
  = is_supported_file (mkPath dir' (lower name)).
Proof.
  unfold is_supported_file.
  by rewrite (suffix_lower dir' dir name), lower_idem.
Qed.

End FileNames.

(** ** The directory scan *)

Section Scanner.
Context {World : Type} {env : Environment World}.

Lemma filter_sublist {A} (f : A -> bool) (l : list A) :
  sublist (List.filter f l) l.
Proof.
  induction l as [|x l IH]; [constructor|]. simpl.
  destruct (f x); by constructor.
Qed.

(** X3.  The scan changes nothing and calls nothing remote; it raises
    [FileNotFoundError] exactly when the path does not exist and
    [NotADirectoryError] exactly when it exists without being a directory;
    otherwise it returns, in traversal order, exactly the regular files of
    the tree that [is_supported_file] accepts, and logs no error. *)
Theorem get_files_from_directory_scans (directory : string) (w : World) :
  let run := get_files_from_directory directory w in
  world_of run = w
  /\ remote_calls (trace_of run) = []
  /\ read_paths (trace_of run) = []
  /\ (result_of run = Throw FileNotFoundError <-> fs_exists directory w = false)
  /\ (result_of run = Throw NotADirectoryError
      <-> fs_exists directory w = true /\ fs_is_dir directory w = false)
  /\ (fs_exists directory w = true -> fs_is_dir directory w = true ->
      exists files,
        run = (Done files, w, [])
        /\ sublist files (fs_rglob directory w)
        /\ forall p,
             p ∈ files
             <-> p ∈ fs_rglob directory w /\ fs_is_file p w = true
                 /\ is_supported_file p = true).
Proof.
  intros run. subst run. unfold get_files_from_directory. run_monad.
  unfold world_of, result_of, trace_of.
  destruct (fs_exists directory w) eqn:He; simpl;
    [destruct (fs_is_dir directory w) eqn:Hd; simpl|];
    (split; [done|]); (split; [done|]); (split; [done|]);
    (split; [split; intros; done|]); (split; [split; [done|by intros [??]]|]);
    try done.
  intros _ _. eexists. split; [done|]. split; [apply filter_sublist|].
  intros p. rewrite list_elem_of_In, filter_In, andb_true_iff.
  rewrite <- list_elem_of_In. tauto.
Qed.

End Scanner.

(** ** Collection resolution and parsing requests *)

Section Collection.
Context {World : Type} {env : Environment World}.

(** X6.  A dataset that the lookup finds is returned as it is, the first of
    the list, and nothing is created; when the lookup returns an empty list
    the dataset is created with chunk method naive and permission me and the
    outcome of the creation is the outcome of the function; a creation call
    is issued exactly when the lookup did not return a dataset. *)
Theorem get_or_create_dataset_found_or_created (name : string) (w : World) :
  let lookup := rag_list_datasets name w in
  let run := get_or_create_dataset name w in
  (forall d rest,
      lookup.1 = Ok (d :: rest) ->
      run = (Done d, lookup.2, [EvListDatasets name (Ok (d :: rest))]))
  /\ (lookup.1 = Ok [] ->
      let creation :=
        rag_create_dataset name (dataset_description name) "naive" "me"
                           lookup.2 in
      run = (match creation.1 with Ok d => Done d | Raise e => Throw e end,
             creation.2,
             [EvListDatasets name (Ok []);
              EvCreateDataset name (dataset_description name) "naive" "me"
                              creation.1]
             ++ match creation.1 with
                | Ok _ => []
                | Raise e => [EvLog ERROR (MsgCreateFailed e)]
                end))
  /\ ((exists r, EvCreateDataset name (dataset_description name)
                                 "naive" "me" r ∈ trace_of run)
      <-> ~ exists d rest, lookup.1 = Ok (d :: rest))
  /\ (length (remote_calls (trace_of run)) <= 2)%nat.
Proof.
  intros lookup run. subst lookup run.
  unfold get_or_create_dataset, list_datasets, create_dataset, call, trace_of.
  run_monad.
  destruct (rag_list_datasets name w) as [[[|d ds]|e] w1]; simpl.
  - destruct (rag_create_dataset _ _ _ _ w1) as [[d'|e'] w2] eqn:Hc; simpl;
      (split; [done|]); (split; [done|]); (split; [|lia]);
      (split; [by intros _ (? & ? & ?)|]); intros _; eexists;
      apply elem_of_cons; right; apply elem_of_cons; by left.
  - split; [by intros ?? [= <- <-]|]. split; [done|]. split; [|lia].
    split.
    + intros (r & Hin). revert Hin. by not_in_trace.
    + intros Hno. destruct Hno. by eauto.
  - destruct (rag_create_dataset _ _ _ _ w1) as [[d'|e'] w2] eqn:Hc; simpl;
      (split; [done|]); (split; [done|]); (split; [|lia]);
      (split; [by intros _ (? & ? & ?)|]); intros _; eexists;
      apply elem_of_cons; right; apply elem_of_cons; right;
      apply elem_of_cons; by left.
Qed.

Lemma doc_ids_spec (docs : list RemoteDoc) (ids : list string) :
  doc_ids docs = Ok ids <-> doc_id <$> docs = Some <$> ids.
Proof.
  revert ids. induction docs as [|d docs IH]; intros ids; csimpl.
  - split; [by intros [= <-]|]. by destruct ids.
  - destruct (doc_id d) as [i|]; [|split; [done|by destruct ids]].
    destruct (doc_ids docs) as [ids'|e] eqn:Hids.
    + split.
      * intros [= <-]. csimpl. f_equal. by apply IH.
      * destruct ids as [|i' ids]; [done|]. csimpl. intros [= -> Hrest].
        apply IH in Hrest. by injection Hrest as ->.
    + split; [done|]. destruct ids as [|i' ids]; [done|]. csimpl.
      intros [= _ Hrest]. by apply IH in Hrest.
Qed.

(** X7.  [start_parsing] never raises: it lists the documents once,
    without paging, and issues at most one parse request, which carries the
    id of every listed document in order; no request is issued when the
    listing raises, is empty, or holds a document without id; it reads no
    file and uploads nothing. *)
Theorem start_parsing_single_request ds (w : World) :
  let listing := ds_list_documents ds None w in
  let run := start_parsing ds w in
  result_of run = Done tt
  /\ read_paths (trace_of run) = []
  /\ upload_calls (trace_of run) = []
  /\ remote_calls (trace_of run)
     = EvListDocuments ds None listing.1
       :: match listing.1 with
          | Ok (d :: docs) =>
              match doc_ids (d :: docs) with
              | Ok ids =>
                  [EvAsyncParse ds ids
                     (ds_async_parse_documents ds ids listing.2).1]
              | Raise _ => []
              end
          | _ => []
          end
  /\ (forall docs ids,
        listing.1 = Ok docs -> doc_ids docs = Ok ids ->
        doc_id <$> docs = Some <$> ids).
Proof.
  intros listing run. subst listing run.
  assert (Hids : forall docs ids,
             (ds_list_documents ds None w).1 = Ok docs ->
             doc_ids docs = Ok ids -> doc_id <$> docs = Some <$> ids)
    by (intros docs ids _; apply doc_ids_spec).
  revert Hids.
  unfold start_parsing, list_documents, async_parse_documents, call,
    result_of, trace_of. run_monad.
  destruct (ds_list_documents ds None w) as [[[|d docs]|e] w1]; simpl;
    try done.
  change (match doc_id d with
          | Some i => match doc_ids docs with
                      | Ok ids => Ok (i :: ids)
                      | Raise e => Raise e
                      end
          | None => Raise AttributeError
          end) with (doc_ids (d :: docs)).
  destruct (doc_ids (d :: docs)) as [ids|e'] eqn:Hdocs; simpl; [|done].
  by destruct (ds_async_parse_documents ds ids w1) as [[[]|e''] w2].
Qed.

End Collection.

(** ** Document keys *)

Section Keys.
Context {World : Type} {env : Environment World}.

Lemma add_documents_raises (docs : list RemoteDoc)
    (acc : gmap string RemoteDoc) :
  (exists d, d ∈ docs /\ doc_id d = None) ->
  add_documents docs acc = Raise AttributeError.
Proof.
  revert acc. induction docs as [|doc docs IH]; intros acc (d & Hd & Hid).
  - by apply elem_of_nil in Hd.
  - simpl. unfold doc_key.
    destruct (doc_id doc) as [i|] eqn:Hdoc; [|done].
    apply IH. exists d. split; [|done].
    apply elem_of_cons in Hd as [->|Hd]; [congruence|done].
Qed.

Lemma add_documents_lookup (docs : list RemoteDoc) :
  forall acc : gmap string RemoteDoc,
    Forall (fun d => doc_id d <> None) docs ->
    exists m,
      add_documents docs acc = Ok m
      /\ forall k,
           m !! k = match last (List.filter (key_is k) docs) with
                    | Some d => Some d
                    | None => acc !! k
                    end.
Proof.
  induction docs as [|doc docs IH]; intros acc Hids.
  - by exists acc.
  - apply Forall_cons in Hids as [Hid Hids]. cbn [add_documents].
    destruct (doc_key doc) as [kd|e] eqn:Hkey;
      [|unfold doc_key in Hkey; by destruct (doc_id doc)].
    destruct (IH (<[kd := doc]> acc) Hids) as (m & -> & Hm).
    exists m. split; [done|]. intros k. rewrite Hm.
    cbn [List.filter]. unfold key_is at 2. rewrite Hkey.
    destruct (String.eqb_spec kd k) as [->|Hne].
    + rewrite last_cons.
      destruct (last (List.filter (key_is k) docs)); [done|].
      by rewrite lookup_insert_eq.
    + destruct (last (List.filter (key_is k) docs)); [done|].
      by rewrite lookup_insert_ne.
Qed.

(** X4.  Keying a list of documents succeeds exactly when every document
    has an id; the resulting mapping then sends each key to the last
    document of the list with that key, and leaves the other keys of the
    mapping it started from as they were. *)
Theorem add_documents_last_wins (docs : list RemoteDoc)
    (acc : gmap string RemoteDoc) :
  ((exists m, add_documents docs acc = Ok m)
   <-> Forall (fun d => doc_id d <> None) docs)
  /\ forall m,
       add_documents docs acc = Ok m ->
       forall k,
         m !! k = match last (List.filter (key_is k) docs) with
                  | Some d => Some d
                  | None => acc !! k
                  end.
Proof.
  split.
  - split.
    + intros (m & Hm). apply Forall_forall. intros d Hd Hid.
      rewrite add_documents_raises in Hm by eauto. done.
    + intros Hids.
      destruct (add_documents_lookup docs acc Hids) as (m & Hm & _). eauto.
  - intros m Hm k.
    assert (Hids : Forall (fun d => doc_id d <> None) docs).
    { apply Forall_forall. intros d Hd Hid.
      rewrite add_documents_raises in Hm by eauto. done. }
    destruct (add_documents_lookup docs acc Hids) as (m' & Hm' & Hk).
    rewrite Hm in Hm'. injection Hm' as <-. apply Hk.
Qed.

(** X5.  A single listed document without an id, whether or not it has a
    name, makes reconciliation return the empty mapping. *)
Theorem get_existing_documents_missing_id ds (w : World) :
  let run := get_existing_documents ds w in
  (exists d, d ∈ listed_docs (trace_of run) /\ doc_id d = None) ->
  result_of run = Done ∅.
Proof.
  intros run Hbad. subst run. rewrite get_existing_documents_result.
  unfold inventory_of. rewrite (add_documents_raises _ _ Hbad).
  by destruct (existsb _ _).
Qed.

End Keys.

(** ** Events of the batch loop *)

Section Events.
Context {World : Type} {env : Environment World}.

Lemma prepare_batch_events (batch_files : list Path) :
  forall docs failed (w : World),
    Forall (fun e => is_batch_event e = true)
           (trace_of (prepare_batch batch_files docs failed w)).
Proof.
  induction batch_files as [|file_path rest IH]; intros docs failed w.
  - constructor.
  - simpl. unfold open_read, call, trace_of. run_monad.
    destruct (fs_read_bytes file_path w) as [[content|e] w1]; simpl.
    + specialize (IH (docs ++ [mkDocument (path_name file_path) content])
                     failed w1).
      unfold trace_of in IH.
      destruct (prepare_batch rest _ failed w1) as [[r w2] t]. simpl in *.
      by constructor.
    + specialize (IH docs (failed ++ [path_str file_path]) w1).
      unfold trace_of in IH.
      destruct (prepare_batch rest docs _ w1) as [[r w2] t]. simpl in *.
      by repeat constructor.
Qed.

Lemma upload_batch_events ds (files : list Path) (b i : Z)
    (acc : Z * list string) (w : World) :
  Forall (fun e => is_batch_event e = true)
         (trace_of (upload_batch ds files b i acc w)).
Proof.
  destruct acc as [succ failed]. unfold upload_batch.
  pose proof (prepare_batch_events (py_slice files i (i + b)) [] failed w) as Hp.
  unfold trace_of in *. unfold bind at 1.
  destruct (prepare_batch _ [] failed w) as [[[[docs failed']|e|] w1] tp];
    simpl in *; try done.
  destruct docs as [|doc docs]; [run_monad; by rewrite app_nil_r|].
  unfold upload_documents, call. run_monad.
  destruct (ds_upload_documents ds (doc :: docs) w1) as [[[]|e] w2]; simpl;
    apply Forall_app; (split; [done|]).
  - constructor; [done|]. constructor; [done|].
    apply Forall_app. split; [|by repeat constructor].
    apply Forall_fmap, Forall_forall. by intros d _.
  - repeat (constructor; [done|]). rewrite app_nil_r.
    apply Forall_fmap, Forall_forall. by intros d _.
Qed.

Lemma upload_batches_events ds (files : list Path) (b : Z) (indices : list Z) :
  forall acc (w : World),
    Forall (fun e => is_batch_event e = true)
           (trace_of (upload_batches ds files b indices acc w)).
Proof.
  induction indices as [|i rest IH]; intros acc w; [constructor|].
  simpl. pose proof (upload_batch_events ds files b i acc w) as Hb.
  unfold trace_of in *. unfold bind.
  destruct (upload_batch ds files b i acc w) as [[[acc'|e|] w1] t1];
    simpl in *; try done.
  specialize (IH acc' w1).
  destruct (upload_batches ds files b rest acc' w1) as [[r w2] t2]. simpl in *.
  by apply Forall_app.
Qed.

End Events.

(** ** The phases of an upload *)

Section Closing.
Context {World : Type} {env : Environment World}.

(** [upload_files] in terms of its three phases. *)
Lemma upload_files_unfold ds (files : list Path) (b : Z) (skip : bool)
    (w : World) :
  exists existing w1 t1,
    reconcile skip ds w = (Done existing, w1, t1)
    /\ Forall (fun e => is_inventory_event e = true) t1
    /\ let skipped := path_str <$> List.filter (skips skip existing) files in
       let remaining :=
         List.filter (fun p => negb (skips skip existing p)) files in
       match remaining with
       | [] =>
           upload_files ds files b skip w
           = (Done (mkStats (len files) 0 [] skipped []), w1,
              t1 ++ [EvLog INFO MsgNothingToUpload])
       | _ =>
           match py_range 0 (len remaining) b with
           | Raise e => upload_files ds files b skip w = (Throw e, w1, t1)
           | Ok indices =>
               let batches :=
                 upload_batches ds remaining b indices (0, []) w1 in
               exists succ failed,
                 result_of batches = Done (succ, failed)
                 /\ upload_files ds files b skip w
                    = (Done (mkStats (len files) succ failed skipped remaining),
                       world_of batches,
                       t1 ++ trace_of batches
                          ++ summary_events
                               (mkStats (len files) succ failed skipped
                                        remaining))
           end
       end.
Proof.
  destruct (reconcile_run skip ds w) as (existing & w1 & t1 & Hrec & Hinv & _).
  exists existing, w1, t1. split; [done|]. split; [done|].
  intros skipped remaining.
  assert (Hfilter : filter_files skip existing files = (skipped, remaining))
    by apply filter_files_spec.
  clearbody skipped remaining.
  assert (Hstart : upload_files ds files b skip w
    = bind (reconcile skip ds)
        (fun existing_docs =>
           let '(skipped_files, files_to_upload) :=
             filter_files skip existing_docs files in
           match files_to_upload with
           | [] =>
               emit [EvLog INFO MsgNothingToUpload];;
               ret (mkStats (len files) 0 [] skipped_files files_to_upload)
           | _ =>
               let* indices :=
                 of_result (py_range 0 (len files_to_upload) b) in
               let* (successful_uploads, failed_uploads) :=
                 upload_batches ds files_to_upload b indices (0, []) in
               let st := mkStats (len files) successful_uploads failed_uploads
                                 skipped_files files_to_upload in
               emit (summary_events st);;
               ret st
           end) w) by done.
  assert (Hgo : forall k : gmap string RemoteDoc -> M World UploadStats,
             bind (reconcile skip ds) k w
             = ((k existing w1).1.1, (k existing w1).1.2, t1 ++ (k existing w1).2))
    by (intros k; by apply bind_done).
  rewrite Hstart, Hgo, Hfilter. clear Hstart Hgo.
  destruct remaining as [|p rest].
  - by run_monad.
  - set (remaining := p :: rest) in *.
    destruct (py_range 0 (len remaining) b) as [indices|e] eqn:Hrange.
    + destruct (upload_batches_run ds remaining b indices 0 [] w1)
        as (w2 & ts & Hloop & _).
      eexists _, _. unfold result_of, world_of, trace_of. rewrite Hloop.
      split; [done|].
      unfold bind, of_result, ret, emit. rewrite Hloop.
      simpl. by rewrite app_nil_r.
    + unfold bind, of_result, throw. simpl. by rewrite app_nil_r.
Qed.

Lemma batch_events_no_summary (t : Trace) :
  Forall (fun e => is_batch_event e = true) t ->
  List.filter is_summary t = [] /\ printed_failed t = []
  /\ logged_skipped t = [] /\ parse_calls t = [] /\ listing_calls t = [].
Proof.
  intros Hb. split; [|repeat split].
  - induction Hb as [|e t He _ IH]; [done|]. simpl. rewrite IH.
    destruct e as [| | | | | |lvl m|m]; try done; simpl in *;
      [by destruct lvl, m|by destruct m].
  - apply flat_map_is_nil. eapply Forall_impl; [exact Hb|].
    intros [| | | | | |lvl m|m] He; try done. simpl in *. by destruct m.
  - apply flat_map_is_nil. eapply Forall_impl; [exact Hb|].
    intros [| | | | | |lvl m|m] He; try done. simpl in *. by destruct lvl, m.
  - apply flat_map_is_nil. eapply Forall_impl; [exact Hb|]. by intros [].
  - apply flat_map_is_nil. eapply Forall_impl; [exact Hb|]. by intros [].
Qed.

Lemma inventory_events_quiet (t : Trace) :
  Forall (fun e => is_inventory_event e = true) t ->
  printed_failed t = [] /\ logged_skipped t = [] /\ parse_calls t = [].
Proof.
  intros Hb. repeat split; apply flat_map_is_nil;
    (eapply Forall_impl; [exact Hb|]);
    intros [| | | | | |lvl m|m] He; try done;
    simpl in *; by destruct lvl, m.
Qed.

Lemma summary_events_observed (st : UploadStats) :
  List.filter is_summary (summary_events st)
  = [EvLog INFO (MsgSummary (total_files st) (len (skipped_files st))
                            (len (files_to_upload st)) (successful_uploads st)
                            (len (failed_uploads st)));
     EvPrint (MsgUploadDone (len (skipped_files st)) (successful_uploads st))]
  /\ printed_failed (summary_events st) = failed_uploads st
  /\ logged_skipped (summary_events st) = skipped_files st
  /\ parse_calls (summary_events st) = []
  /\ listing_calls (summary_events st) = [].
Proof.
  unfold summary_events, printed_failed, logged_skipped, parse_calls,
    listing_calls.
  rewrite !List.filter_app, !flat_map_app. cbn [List.filter flat_map is_summary app].
  assert (Hfailed : forall l : list string,
    let evs := concat ((fun f => [EvLog ERROR (MsgFailedEntry f);
                                  EvPrint (MsgFailedEntry f)]) <$> l) in
    List.filter is_summary evs = []
    /\ flat_map (fun e => match e with
                          | EvPrint (MsgFailedEntry f) => [f]
                          | _ => []
                          end) evs = l
    /\ flat_map (fun e => match e with
                          | EvLog INFO (MsgSkippedEntry f) => [f]
                          | _ => []
                          end) evs = []
    /\ flat_map (fun e => match e with
                          | EvAsyncParse _ ids r => [(ids, r)]
                          | _ => []
                          end) evs = []
    /\ flat_map (fun e => match e with
                          | EvListDocuments _ paging r => [(paging, r)]
                          | _ => []
                          end) evs = []).
  { induction l as [|f l (IH1 & IH2 & IH3 & IH4 & IH5)]; [done|].
    csimpl. by rewrite IH1, IH2, IH3, IH4, IH5. }
  assert (Hskipped : forall l : list string,
    let evs := (fun f => EvLog INFO (MsgSkippedEntry f)) <$> l in
    List.filter is_summary evs = []
    /\ flat_map (fun e => match e with
                          | EvPrint (MsgFailedEntry f) => [f]
                          | _ => []
                          end) evs = []
    /\ flat_map (fun e => match e with
                          | EvLog INFO (MsgSkippedEntry f) => [f]
                          | _ => []
                          end) evs = l
    /\ flat_map (fun e => match e with
                          | EvAsyncParse _ ids r => [(ids, r)]
                          | _ => []
                          end) evs = []
    /\ flat_map (fun e => match e with
                          | EvListDocuments _ paging r => [(paging, r)]
                          | _ => []
                          end) evs = []).
  { induction l as [|f l (IH1 & IH2 & IH3 & IH4 & IH5)]; [done|].
    csimpl. by rewrite IH1, IH2, IH3, IH4, IH5. }
  destruct (failed_uploads st) as [|f failed];
    destruct (skipped_files st) as [|s skipped];
    rewrite ?List.filter_app, ?flat_map_app;
    cbn [List.filter flat_map is_summary app];
    try destruct (Hfailed (f :: failed)) as (-> & -> & -> & -> & ->);
    try destruct (Hskipped (s :: skipped)) as (-> & -> & -> & -> & ->);
    rewrite ?app_nil_r; repeat split.
Qed.

End Closing.

(** ** The summary and the batch size *)

Section Summary.
Context {World : Type} {env : Environment World}.

Lemma py_range_nonzero (n b : Z) :
  b <> 0 -> exists indices, py_range 0 n b = Ok indices.
Proof.
  intros Hb. unfold py_range. destruct (Z.eqb_spec b 0); [done|by eauto].
Qed.

Lemma py_range_negative (n b : Z) : b < 0 -> 0 <= n -> py_range 0 n b = Ok [].
Proof.
  intros Hb Hn. unfold py_range, range_len.
  destruct (Z.eqb_spec b 0); [lia|].
  destruct (Z.ltb_spec 0 b); [lia|].
  destruct (Z.ltb_spec n 0); [lia|]. done.
Qed.

(** X9.  For a non-zero batch size the call returns, and when files
    remained after filtering the summary block is written exactly once, as
    the last events of the call: its counters are the statistics of the
    call, the failed files it prints are exactly the recorded failures, in
    order, and the skipped files it logs are exactly the skipped ones. *)
Theorem upload_files_summary_once ds (files : list Path) (b : Z)
    (skip : bool) (w : World) :
  b <> 0 ->
  let run := upload_files ds files b skip w in
  let t := trace_of run in
  exists st,
    result_of run = Done st
    /\ (files_to_upload st <> [] ->
        List.filter is_summary t
        = [EvLog INFO (MsgSummary (total_files st) (len (skipped_files st))
                                  (len (files_to_upload st))
                                  (successful_uploads st)
                                  (len (failed_uploads st)));
           EvPrint (MsgUploadDone (len (skipped_files st))
                                  (successful_uploads st))]
        /\ printed_failed t = failed_uploads st
        /\ logged_skipped t = skipped_files st
        /\ exists before, t = before ++ summary_events st).
Proof.
  intros Hb run t.
  destruct (upload_files_unfold ds files b skip w)
    as (existing & w1 & t1 & Hrec & Hinv & Hrun).
  cbv zeta in Hrun. fold run in Hrun.
  destruct (List.filter (fun p => negb (skips skip existing p)) files)
    as [|p rest] eqn:Hrem.
  - eexists. subst t. rewrite Hrun. split; [done|]. by intros [].
  - rewrite <- Hrem in *.
    destruct (py_range_nonzero (len (List.filter
                (fun p => negb (skips skip existing p)) files)) b Hb)
      as (indices & Hrange).
    rewrite Hrange in Hrun. destruct Hrun as (succ & failed & Hres & Hrun).
    eexists. subst t. rewrite Hrun. split; [done|]. intros _.
    unfold trace_of. cbn [fst snd].
    pose proof (upload_batches_events ds
                  (List.filter (fun p => negb (skips skip existing p)) files)
                  b indices (0, []) w1) as Hbatch.
    apply batch_events_no_summary in Hbatch as (Hb1 & Hb2 & Hb3 & _).
    unfold trace_of in Hb1, Hb2, Hb3.
    destruct (inventory_events_quiet _ Hinv) as (Hi2 & Hi3 & _).
    pose proof (inventory_events_no_summary _ Hinv) as Hi1.
    match goal with
    | |- context [summary_events ?s] =>
        destruct (summary_events_observed s) as (Hs1 & Hs2 & Hs3 & _)
    end.
    unfold printed_failed, logged_skipped in *.
    rewrite !List.filter_app, !flat_map_app.
    rewrite Hi1, Hi2, Hi3, Hb1, Hb2, Hb3, Hs1, Hs2, Hs3.
    split; [done|]. split; [done|]. split; [done|].
    eexists. by rewrite app_assoc.
Qed.

(** X8.  A batch size that is not positive never opens a file and never
    issues an upload call.  A zero batch size raises [ValueError] right
    after the inventory phase when files remain and returns normally when
    none does; a negative batch size returns with no success and no failure
    counted although the remaining files are reported as attempted. *)
Theorem upload_files_batch_size_not_positive ds (files : list Path) (b : Z)
    (skip : bool) (w : World) :
  b <= 0 ->
  let inventory := reconcile skip ds w in
  let run := upload_files ds files b skip w in
  read_paths (trace_of run) = []
  /\ upload_calls (trace_of run) = []
  /\ exists existing,
       result_of inventory = Done existing
       /\ let remaining :=
            List.filter (fun p => negb (skips skip existing p)) files in
          (b = 0 -> remaining <> [] ->
           run = (Throw ValueError, world_of inventory, trace_of inventory))
          /\ (remaining = [] -> exists st, result_of run = Done st)
          /\ (b < 0 ->
              exists st,
                result_of run = Done st
                /\ successful_uploads st = 0
                /\ failed_uploads st = []
                /\ files_to_upload st = remaining
                /\ world_of run = world_of inventory).
Proof.
  intros Hb inventory run.
  destruct (upload_files_unfold ds files b skip w)
    as (existing & w1 & t1 & Hrec & Hinv & Hrun).
  cbv zeta in Hrun. fold run in Hrun. fold inventory in Hrec.
  pose proof (inventory_events_background _ Hinv) as Hbg.
  apply background_unobserved in Hbg as (Hu & Hr & _).
  rewrite Hrec. unfold result_of, world_of, trace_of. cbn [fst snd].
  destruct (List.filter (fun p => negb (skips skip existing p)) files)
    as [|p rest] eqn:Hrem.
  - rewrite Hrun. cbn [fst snd]. unfold read_paths, upload_calls in *.
    rewrite !flat_map_app, Hu, Hr. split; [done|]. split; [done|].
    exists existing. split; [done|]. split; [done|]. split; [by eauto|].
    intros _. by eexists.
  - rewrite <- Hrem in *.
    destruct (Z.eq_dec b 0) as [->|Hnz].
    + change (py_range 0 _ 0) with (@Raise (list Z) ValueError) in Hrun.
      rewrite Hrun. cbn [fst snd]. split; [done|]. split; [done|].
      exists existing. split; [done|]. split; [done|].
      split; [by rewrite Hrem|lia].
    + rewrite py_range_negative in Hrun by (unfold len; lia).
      destruct Hrun as (succ & failed & Hres & Hrun).
      simpl in Hres. unfold ret, result_of in Hres. simpl in Hres.
      injection Hres as <- <-.
      rewrite Hrun. simpl. unfold read_paths, upload_calls in *.
      rewrite !flat_map_app, Hu, Hr.
      match goal with
      | |- context [summary_events ?s] =>
          pose proof (summary_events_background s) as Hsum
      end.
      apply background_unobserved in Hsum as (Hu' & Hr' & _).
      unfold read_paths, upload_calls in *. rewrite Hu', Hr'.
      split; [done|]. split; [done|].
      exists existing. split; [done|]. split; [lia|].
      split; [by rewrite Hrem|]. intros _. by eexists.
Qed.

End Summary.

(** ** Deduplication against a single page *)

Section SinglePage.
Context {World : Type} {env : Environment World}.

Lemma filter_nonempty_existsb {A} (f : A -> bool) (l : list A) :
  last (List.filter f l) = None <-> existsb f l = false.
Proof.
  induction l as [|x l IH]; [done|]. simpl.
  destruct (f x); simpl; [|done].
  rewrite last_cons. by destruct (last (List.filter f l)).
Qed.

Lemma pages_loop_short_page ds (fuel : nat) (page : Z)
    (acc m : gmap string RemoteDoc) (w w1 : World) (docs : list RemoteDoc) :
  ds_list_documents ds (Some (page, page_size)) w = (Ok docs, w1) ->
  len docs < page_size ->
  add_documents docs acc = Ok m ->
  pages_loop (S fuel) ds page acc w
  = (Done m, w1, [EvListDocuments ds (Some (page, page_size)) (Ok docs)]).
Proof.
  intros Hlist Hshort Hadd.
  cbn [pages_loop]. unfold list_documents, call. run_monad.
  rewrite Hlist. simpl. destruct docs as [|d docs'].
  - simpl in Hadd. by injection Hadd as <-.
  - set (page_docs := d :: docs') in *.
    change (match doc_key d with
            | Ok doc_name => add_documents docs' (<[doc_name:=d]> acc)
            | Raise e => Raise e
            end) with (add_documents page_docs acc).
    rewrite Hadd. simpl.
    destruct (Z.ltb_spec (len page_docs) page_size) as [_|?]; [done|lia].
Qed.

(** X10. When the first page of the listing comes back with fewer than 50
    documents, all of them with an id, reconciliation makes this one call
    and no other; its mapping has exactly the keys of the listed documents;
    and an upload with [skip_existing] skips exactly the files whose base
    name is the key of a listed document. *)
Theorem upload_files_dedup_single_page ds (files : list Path) (b : Z)
    (w w1 : World) (docs : list RemoteDoc) :
  ds_list_documents ds (Some (1, page_size)) w = (Ok docs, w1) ->
  len docs < page_size ->
  Forall (fun d => doc_id d <> None) docs ->
  let listed p := existsb (key_is (path_name p)) docs in
  (exists m,
     get_existing_documents ds w
     = (Done m, w1, [EvListDocuments ds (Some (1, page_size)) (Ok docs)])
     /\ forall k, k ∈ dom m <-> existsb (key_is k) docs = true)
  /\ forall st,
       result_of (upload_files ds files b true w) = Done st ->
       skipped_files st = path_str <$> List.filter listed files
       /\ files_to_upload st = List.filter (fun p => negb (listed p)) files.
Proof.
  intros Hlist Hshort Hids listed.
  destruct (add_documents_lookup docs ∅ Hids) as (m & Hadd & Hm).
  assert (Hdom : forall k, k ∈ dom m <-> existsb (key_is k) docs = true).
  { intros k. rewrite elem_of_dom, Hm, lookup_empty.
    pose proof (filter_nonempty_existsb (key_is k) docs) as Hne.
    destruct (last (List.filter (key_is k) docs)) as [d|].
    - split; [|by eauto]. intros _.
      destruct (existsb (key_is k) docs); [done|]. destruct Hne as [_ Hne]. by specialize (Hne eq_refl).
    - rewrite (proj1 Hne eq_refl). split; [intros [? [=]]|done]. }
  assert (Hrun : get_existing_documents ds w
                 = (Done m, w1,
                    [EvListDocuments ds (Some (1, page_size)) (Ok docs)])).
  { unfold get_existing_documents.
    change (pages_loop 1000) with (pages_loop (S 999)).
    apply try_except_done. by apply pages_loop_short_page. }
  split; [by exists m|]. intros st Hst.
  destruct (upload_files_shape ds files b true w)
    as (existing & w' & t1 & ts & closing & Hrec & _ & _ & _ & _ & Hstats & _).
  change (reconcile true ds w) with (get_existing_documents ds w) in Hrec.
  rewrite Hrun in Hrec. injection Hrec as <- <- <-.
  destruct (Hstats st Hst) as [-> ->].
  assert (Hext : forall p, skips true m p = listed p).
  { intros p. unfold skips, listed. simpl.
    destruct (existsb (key_is (path_name p)) docs) eqn:He.
    - apply bool_decide_eq_true. by apply Hdom.
    - apply bool_decide_eq_false. rewrite Hdom, He. done. }
  split; [f_equal|]; apply List.filter_ext; intros p; by rewrite Hext.
Qed.

End SinglePage.

(** ** The steps of a run *)

Section Orchestration.
Context {World : Type} {env : Environment World}.

Lemma start_parsing_returns ds (w : World) :
  result_of (start_parsing ds w) = Done tt.
Proof.
  unfold start_parsing, list_documents, async_parse_documents, call, result_of.
  run_monad.
  destruct (ds_list_documents ds None w) as [[[|d docs]|e] w1]; simpl;
    try done.
  destruct (match doc_id d with
            | Some i => match doc_ids docs with
                        | Ok ids => Ok (i :: ids)
                        | Raise e => Raise e
                        end
            | None => Raise AttributeError
            end) as [ids|e']; simpl; [|done].
  by destruct (ds_async_parse_documents ds ids w1) as [[[]|e''] w2].
Qed.

Lemma start_parsing_quiet ds (w : World) :
  upload_calls (trace_of (start_parsing ds w)) = []
  /\ read_paths (trace_of (start_parsing ds w)) = [].
Proof.
  unfold start_parsing, list_documents, async_parse_documents, call, trace_of.
  run_monad.
  destruct (ds_list_documents ds None w) as [[[|d docs]|e] w1]; simpl;
    try done.
  destruct (match doc_id d with
            | Some i => match doc_ids docs with
                        | Ok ids => Ok (i :: ids)
                        | Raise e => Raise e
                        end
            | None => Raise AttributeError
            end) as [ids|e']; simpl; [|done].
  by destruct (ds_async_parse_documents ds ids w1) as [[[]|e''] w2].
Qed.

Lemma upload_files_outcome ds (files : list Path) (b : Z) (skip : bool)
    (w : World) :
  (exists st, result_of (upload_files ds files b skip w) = Done st)
  \/ (b = 0 /\ result_of (upload_files ds files b skip w) = Throw ValueError).
Proof.
  destruct (upload_files_unfold ds files b skip w)
    as (existing & w1 & t1 & _ & _ & Hrun).
  cbv zeta in Hrun.
  destruct (List.filter _ files) as [|p rest]; [left; rewrite Hrun; by eauto|].
  destruct (Z.eq_dec b 0) as [->|Hb].
  - right. change (py_range 0 _ 0) with (@Raise (list Z) ValueError) in Hrun.
    by rewrite Hrun.
  - destruct (py_range_nonzero (len (p :: rest)) b Hb) as (indices & Hrange).
    rewrite Hrange in Hrun. destruct Hrun as (s & f & _ & ->). left. by eauto.
Qed.

Lemma upload_files_no_parse_calls ds (files : list Path) (b : Z) (skip : bool)
    (w : World) :
  parse_calls (trace_of (upload_files ds files b skip w)) = [].
Proof.
  destruct (upload_files_unfold ds files b skip w)
    as (existing & w1 & t1 & _ & Hinv & Hrun).
  cbv zeta in Hrun.
  destruct (inventory_events_quiet _ Hinv) as (_ & _ & Hi).
  destruct (List.filter _ files) as [|p rest] eqn:Hrem.
  - rewrite Hrun. unfold trace_of, parse_calls in *. simpl.
    by rewrite flat_map_app, Hi.
  - destruct (py_range 0 (len (p :: rest)) b) as [indices|e].
    + destruct Hrun as (s & f & _ & ->). unfold trace_of at 1. cbn [snd].
      pose proof (upload_batches_events ds (p :: rest) b indices (0, []) w1)
        as Hbatch.
      apply batch_events_no_summary in Hbatch as (_ & _ & _ & Hb & _).
      match goal with
      | |- context [summary_events ?s] =>
          destruct (summary_events_observed s) as (_ & _ & _ & Hs & _)
      end.
      unfold parse_calls in *. by rewrite !flat_map_app, Hi, Hb, Hs.
    + by rewrite Hrun.
Qed.

Lemma resolution_no_parse_calls (name : string) (w : World) :
  parse_calls (trace_of (get_or_create_dataset name w)) = []
  /\ listing_calls (trace_of (get_or_create_dataset name w)) = []
  /\ upload_calls (trace_of (get_or_create_dataset name w)) = []
  /\ read_paths (trace_of (get_or_create_dataset name w)) = [].
Proof.
  unfold get_or_create_dataset, list_datasets, create_dataset, call, trace_of.
  run_monad.
  destruct (rag_list_datasets name w) as [[[|d ds]|e] w1]; simpl;
    try destruct (rag_create_dataset _ _ _ _ w1) as [[d'|e'] w2]; done.
Qed.

Lemma get_files_from_directory_cases (directory : string) (w : World) :
  exists r t,
    get_files_from_directory directory w = (r, w, t) /\ r <> OutOfFuel.
Proof.
  unfold get_files_from_directory. run_monad.
  destruct (fs_exists directory w); simpl;
    [destruct (fs_is_dir directory w); simpl|]; by eauto.
Qed.

(** The runs that [main] strings together. *)
Lemma main_unfold (args : Args) (w : World) :
  let resolution := get_or_create_dataset (dataset_name args) w in
  let scan := get_files_from_directory (directory args) (world_of resolution) in
  match result_of resolution with
  | Throw e =>
      main args w
      = (Done 1, world_of resolution,
         trace_of resolution
         ++ [EvLog ERROR (MsgRunFailed e); EvPrint (MsgRunFailed e)])
  | OutOfFuel => False
  | Done ds =>
      match result_of scan with
      | Throw e =>
          main args w
          = (Done 1, world_of resolution,
             trace_of resolution ++ trace_of scan
             ++ [EvLog ERROR (MsgRunFailed e); EvPrint (MsgRunFailed e)])
      | OutOfFuel => False
      | Done [] =>
          main args w
          = (Done 0, world_of resolution,
             trace_of resolution
             ++ [EvLog WARNING MsgNoFilesFound; EvPrint MsgNoFilesFound])
      | Done files =>
          let upload :=
            upload_files ds files (batch_size args) (skip_existing args)
                         (world_of resolution) in
          let parse := start_parsing ds (world_of upload) in
          match result_of upload with
          | Throw e =>
              main args w
              = (Done 1, world_of upload,
                 trace_of resolution ++ trace_of upload
                 ++ [EvLog ERROR (MsgRunFailed e); EvPrint (MsgRunFailed e)])
          | OutOfFuel => False
          | Done _ =>
              main args w
              = (Done 0,
                 if no_parse args then world_of upload else world_of parse,
                 trace_of resolution ++ trace_of upload
                 ++ (if no_parse args then [EvPrint MsgParseSkipped]
                     else trace_of parse)
                 ++ [EvLog SUCCESS MsgFinished; EvPrint MsgFinished])
          end
      end
  end.
Proof.
  intros resolution scan. subst scan.
  destruct (get_or_create_dataset_cases (dataset_name args) w)
    as [(d & w1 & t1 & H1)|(e & w0 & w1 & t0 & Hc & H1)].
  2: { subst resolution. rewrite H1. unfold result_of, world_of, trace_of.
       cbn [fst snd]. by apply main_dataset_failure. }
  subst resolution. rewrite H1.
  destruct (get_files_from_directory_cases (directory args) w1)
    as (r2 & t2 & H2 & Hfuel).
  unfold result_of, world_of, trace_of. cbn [fst snd]. rewrite H2.
  cbn [fst snd].
  assert (Hbody : main args w
    = try_except (fun w => bind (fun _ => (Done d, w1, t1)) (fun dataset => bind (fun _ => (r2, w1, t2)) (fun file_paths =>
      match file_paths with
      | [] =>
          emit [EvLog WARNING MsgNoFilesFound; EvPrint MsgNoFilesFound];;
          ret 0
      | _ :: _ =>
          upload_files dataset file_paths (batch_size args)
            (skip_existing args);;
          (if negb (no_parse args)
           then start_parsing dataset
           else emit [EvPrint MsgParseSkipped]);;
          emit [EvLog SUCCESS MsgFinished; EvPrint MsgFinished];; ret 0
      end)) w)
      (fun e => emit [EvLog ERROR (MsgRunFailed e); EvPrint (MsgRunFailed e)];; ret 1) w).
  { unfold main, try_except. unfold bind at 1. rewrite H1.
    unfold bind at 1. rewrite H2. reflexivity. }
  rewrite Hbody. clear Hbody.
  assert (Ht2 : forall fs, r2 = Done fs -> t2 = []).
  { intros fs ->. revert H2. unfold get_files_from_directory. run_monad.
    destruct (fs_exists (directory args) w1); simpl;
      [destruct (fs_is_dir (directory args) w1); simpl|]; congruence. }
  destruct r2 as [[|p files]|e|]; [| | |done].
  - rewrite (Ht2 _ eq_refl). unfold try_except, bind, emit, ret. simpl.
    by rewrite ?app_nil_r.
  - rewrite (Ht2 _ eq_refl). clear Ht2 H2.
    pose proof (upload_files_outcome d (p :: files) (batch_size args)
                  (skip_existing args) w1) as Hup.
    pose proof (start_parsing_returns d) as Hparse.
    unfold result_of in Hup, Hparse.
    unfold try_except, bind, emit, ret. cbv beta iota.
    destruct (upload_files d (p :: files) (batch_size args)
                (skip_existing args) w1)
      as [[[st|e|] w2] t2']; cbn [fst snd] in *.
    + destruct (no_parse args); cbn [negb].
      * simpl. by rewrite <- ?app_assoc.
      * specialize (Hparse w2).
        destruct (start_parsing d w2) as [[r w3] t3]. cbn [fst snd] in *.
        subst r. simpl. by rewrite <- ?app_assoc.
    + simpl. by rewrite <- ?app_assoc.
    + by destruct Hup as [(? & ?)|(_ & ?)].
  - unfold try_except, emit, bind, ret. simpl. by rewrite <- ?app_assoc.
Qed.


End Orchestration.

(** ** The whole run *)

Section Run.
Context {World : Type} {env : Environment World}.

(** X11. [main] never lets an exception escape: it ends with exit status 0
    or 1, and status 1 comes with the error report as the last two events.
    With a batch size other than zero the status is 0 exactly when the
    collection was resolved and the directory scanned: nothing that happens
    while uploading or parsing changes it. *)
Theorem main_exit_status (args : Args) (w : World) :
  let resolution := get_or_create_dataset (dataset_name args) w in
  let scan := get_files_from_directory (directory args) (world_of resolution) in
  let run := main args w in
  (result_of run = Done 0 \/ result_of run = Done 1)
  /\ (result_of run = Done 1 ->
      exists e before,
        trace_of run
        = before ++ [EvLog ERROR (MsgRunFailed e); EvPrint (MsgRunFailed e)])
  /\ (batch_size args <> 0 ->
      (result_of run = Done 0
       <-> (exists ds, result_of resolution = Done ds)
           /\ exists files, result_of scan = Done files)).
Proof.
  intros resolution scan run. subst run.
  pose proof (main_unfold args w) as Hmain. cbv zeta in Hmain.
  fold resolution in Hmain. fold scan in Hmain.
  destruct (result_of resolution) as [ds|e|]; [| |done].
  2: { rewrite Hmain. unfold result_of, trace_of. cbn [fst snd].
       split; [by right|]. split; [by eauto|]. intros _.
       split; [done|]. by intros [[? [=]] _]. }
  destruct (result_of scan) as [[|p files]|e|]; [| | |done].
  - rewrite Hmain. unfold result_of, trace_of. cbn [fst snd].
    split; [by left|]. split; [done|]. intros _. split; [by eauto|done].
  - pose proof (upload_files_outcome ds (p :: files) (batch_size args)
                  (skip_existing args) (world_of resolution)) as Hup.
    destruct (result_of (upload_files ds (p :: files) (batch_size args)
                           (skip_existing args) (world_of resolution)))
      as [st|e|]; [| |done].
    + rewrite Hmain. unfold result_of, trace_of. cbn [fst snd].
      split; [by left|]. split; [done|]. intros _. split; [by eauto|done].
    + rewrite Hmain. unfold result_of, trace_of. cbn [fst snd].
      split; [by right|]. split.
      * intros _. exists e. eexists. by rewrite app_assoc.
      * intros Hb. by destruct Hup as [[? [=]]|[? _]].
  - rewrite Hmain. unfold result_of, trace_of. cbn [fst snd].
    split; [by right|]. split.
    + intros _. exists e. eexists. by rewrite app_assoc.
    + intros _. split; [done|]. by intros [_ [? [=]]].
Qed.

(** X12. When the collection is resolved and the directory holds no
    supported regular file, the run warns that nothing was found and ends
    with exit status 0: it lists no documents, uploads nothing, requests no
    parsing and opens no file, whatever the flags. *)
Theorem main_no_supported_files (args : Args) (w w1 : World) ds t1 :
  get_or_create_dataset (dataset_name args) w = (Done ds, w1, t1) ->
  fs_exists (directory args) w1 = true ->
  fs_is_dir (directory args) w1 = true ->
  (forall p, p ∈ fs_rglob (directory args) w1 ->
             fs_is_file p w1 = true -> is_supported_file p = false) ->
  let run := main args w in
  run = (Done 0, w1,
         t1 ++ [EvLog WARNING MsgNoFilesFound; EvPrint MsgNoFilesFound])
  /\ remote_calls (trace_of run) = remote_calls t1
  /\ listing_calls (trace_of run) = []
  /\ upload_calls (trace_of run) = []
  /\ parse_calls (trace_of run) = []
  /\ read_paths (trace_of run) = [].
Proof.
  intros Hres Hexists Hdir Hnone run. subst run.
  pose proof (main_unfold args w) as Hmain. cbv zeta in Hmain.
  rewrite Hres in Hmain. unfold result_of at 1, world_of in Hmain.
  cbn [fst snd] in Hmain.
  assert (Hscan : get_files_from_directory (directory args) w1
                  = (Done [], w1, [])).
  { unfold get_files_from_directory. run_monad. rewrite Hexists, Hdir. simpl.
    assert (List.filter (fun file_path =>
                           fs_is_file file_path w1
                           && is_supported_file file_path)
                        (fs_rglob (directory args) w1) = []) as ->; [|done].
    pose proof Hnone as Hall. revert Hall.
    generalize (fs_rglob (directory args) w1). intros l.
    induction l as [|p l IH]; intros Hall; [done|]. simpl.
    destruct (fs_is_file p w1) eqn:Hfile; simpl.
    - rewrite (Hall p); [|by left|done].
      apply IH. intros q Hq. apply Hall. by right.
    - apply IH. intros q Hq. apply Hall. by right. }
  rewrite Hscan in Hmain. unfold result_of, trace_of in Hmain.
  cbn [fst snd] in Hmain. rewrite Hmain. split; [done|].
  pose proof (resolution_no_parse_calls (dataset_name args) w)
    as (Hp & Hl & Hu & Hr).
  rewrite Hres in Hp, Hl, Hu, Hr. unfold trace_of in *. cbn [fst snd] in *.
  unfold listing_calls, upload_calls, parse_calls, read_paths in *.
  rewrite remote_calls_app, !flat_map_app, Hp, Hl, Hu, Hr. simpl.
  by rewrite app_nil_r.
Qed.

(** X13. When files were found and the batch size is not zero, the run
    ends with exit status 0 and is the resolution, then the upload, then --
    unless [no_parse] is set -- the parsing request made in the world the
    upload left behind, then the closing message.  With [no_parse] no
    parsing request is made; in either case the files read and the upload
    calls are those of the upload step. *)
Theorem main_upload_then_parse (args : Args) (w w1 : World) ds t1
    (files : list Path) :
  get_or_create_dataset (dataset_name args) w = (Done ds, w1, t1) ->
  result_of (get_files_from_directory (directory args) w1) = Done files ->
  files <> [] ->
  batch_size args <> 0 ->
  let upload :=
    upload_files ds files (batch_size args) (skip_existing args) w1 in
  let parse := start_parsing ds (world_of upload) in
  let run := main args w in
  result_of run = Done 0
  /\ world_of run = (if no_parse args then world_of upload else world_of parse)
  /\ trace_of run
     = t1 ++ trace_of upload
       ++ (if no_parse args then [EvPrint MsgParseSkipped] else trace_of parse)
       ++ [EvLog SUCCESS MsgFinished; EvPrint MsgFinished]
  /\ parse_calls (trace_of run)
     = (if no_parse args then [] else parse_calls (trace_of parse))
  /\ upload_calls (trace_of run) = upload_calls (trace_of upload)
  /\ read_paths (trace_of run) = read_paths (trace_of upload).
Proof.
  intros Hres Hscan Hfiles Hb upload parse run. subst run.
  pose proof (main_unfold args w) as Hmain. cbv zeta in Hmain.
  rewrite Hres in Hmain.
  change (result_of (Done ds, w1, t1)) with (Done (A:=DataSet) ds) in Hmain.
  change (world_of (Done ds, w1, t1)) with w1 in Hmain.
  change (trace_of (Done ds, w1, t1)) with t1 in Hmain.
  cbv beta iota in Hmain. rewrite Hscan in Hmain.
  destruct files as [|p files]; [done|].
  fold upload in Hmain. fold parse in Hmain.
  pose proof (upload_files_outcome ds (p :: files) (batch_size args)
                (skip_existing args) w1) as Hup.
  fold upload in Hup.
  destruct (result_of upload) as [st|e|] eqn:Hst; [| |done].
  2: { by destruct Hup as [[? [=]]|[? _]]. }
  rewrite Hmain.
  change (result_of (Done 0, ?x, ?y)) with (Done (A:=Z) 0).
  change (trace_of (Done 0, ?x, ?y)) with y.
  split; [done|]. split; [done|]. split; [done|].
  pose proof (resolution_no_parse_calls (dataset_name args) w)
    as (Hp & _ & Hu & Hr).
  rewrite Hres in Hp, Hu, Hr.
  change (trace_of (Done ds, w1, t1)) with t1 in Hp, Hu, Hr.
  pose proof (upload_files_no_parse_calls ds (p :: files) (batch_size args)
                (skip_existing args) w1) as Hpu.
  fold upload in Hpu.
  pose proof (start_parsing_quiet ds (world_of upload)) as [Hqu Hqr].
  fold parse in Hqu, Hqr.
  unfold parse_calls, upload_calls, read_paths in *.
  rewrite !flat_map_app, Hp, Hu, Hr, Hpu.
  destruct (no_parse args); simpl; rewrite ?Hqu, ?Hqr, ?app_nil_r; done.
Qed.

End Run.

(** ** The further properties on the scripted environment *)

(** An upper-case extension is accepted. *)
Lemma is_supported_file_iff_witness :
  is_supported_file (Mock.file "Report.PDF") = true.
Proof.
  apply is_supported_file_iff. exists "Report"%string, ".PDF"%string.
  split; [reflexivity|]. split; [discriminate|].
  apply (bool_decide_unpack _). vm_compute. exact I.
Defined.

Lemma is_supported_file_case_insensitive_witness :
  is_supported_file (Mock.file "NOTES.MD")
  = is_supported_file (mkPath [] "notes.md").
Proof.
  exact (is_supported_file_case_insensitive ["docs"%string] [] "NOTES.MD").
Defined.

(** Of a report and a binary, the scan returns files of the tree only. *)
Lemma get_files_from_directory_scans_witness :
  let w := Mock.quiet [Mock.file "a.md"; Mock.file "b.exe"] in
  fs_exists "docs" w = true
  /\ fs_is_dir "docs" w = true
  /\ exists files,
       get_files_from_directory "docs" w = (Done files, w, [])
       /\ sublist files (fs_rglob "docs" w).
Proof.
  intros w.
  assert (He : fs_exists "docs" w = true) by (vm_compute; reflexivity).
  assert (Hd : fs_is_dir "docs" w = true) by (vm_compute; reflexivity).
  destruct (get_files_from_directory_scans "docs" w)
    as (_ & _ & _ & _ & _ & Hscan).
  destruct (Hscan He Hd) as (files & Hrun & Hsub & _).
  split; [exact He|]. split; [exact Hd|]. exists files. split; assumption.
Defined.

(** Two documents with the same name: the second is kept. *)
Lemma add_documents_last_wins_witness :
  let first := mkRemoteDoc (Some "1"%string) (Some "a.md"%string) None in
  let second := mkRemoteDoc (Some "2"%string) (Some "a.md"%string) None in
  Forall (fun d => doc_id d <> None) [first; second]
  /\ exists m,
       add_documents [first; second] ∅ = Ok m
       /\ m !! "a.md"%string = Some second.
Proof.
  intros first second.
  assert (Hids : Forall (fun d => doc_id d <> None) [first; second])
    by (repeat constructor; discriminate).
  destruct (add_documents_last_wins [first; second] ∅) as [Hiff Hlast].
  destruct (proj2 Hiff Hids) as (m & Hm).
  split; [exact Hids|]. exists m. split; [exact Hm|].
  exact (Hlast m Hm "a.md"%string).
Defined.

(** A listed document with a name and no id empties the inventory. *)
Lemma get_existing_documents_missing_id_witness :
  let w := Mock.id_missing [] in
  (exists d, d ∈ listed_docs (trace_of (get_existing_documents Mock.kb w))
             /\ doc_id d = None)
  /\ result_of (get_existing_documents Mock.kb w) = Done ∅.
Proof.
  intros w.
  assert (Hbad : exists d,
             d ∈ listed_docs (trace_of (get_existing_documents Mock.kb w))
             /\ doc_id d = None).
  { exists (mkRemoteDoc None (Some "a.md"%string) None).
    split; [|reflexivity].
    assert (listed_docs (trace_of (get_existing_documents Mock.kb w))
            = [mkRemoteDoc None (Some "a.md"%string) None]) as ->
      by (vm_compute; reflexivity).
    apply elem_of_cons. by left. }
  split; [exact Hbad|].
  exact (get_existing_documents_missing_id Mock.kb w Hbad).
Defined.

(** With no dataset of that name, the dataset is created. *)
Lemma get_or_create_dataset_found_or_created_witness :
  let w := Mock.quiet [] in
  (rag_list_datasets "kb" w).1 = Ok []
  /\ result_of (get_or_create_dataset "kb" w) = Done (Mock.created "kb").
Proof.
  intros w.
  assert (Hnone : (rag_list_datasets "kb" w).1 = Ok [])
    by (vm_compute; reflexivity).
  destruct (get_or_create_dataset_found_or_created "kb" w) as (_ & Hcreate & _).
  split; [exact Hnone|].
  exact (f_equal result_of (Hcreate Hnone)).
Defined.

(** One remote document: one listing and one request for its id. *)
Lemma start_parsing_single_request_witness :
  let w := Mock.already_there [] in
  result_of (start_parsing Mock.kb w) = Done tt
  /\ remote_calls (trace_of (start_parsing Mock.kb w))
     = [EvListDocuments Mock.kb None
          (Ok [mkRemoteDoc (Some "1"%string) (Some "a.md"%string) None]);
        EvAsyncParse Mock.kb ["1"%string] (Ok tt)].
Proof.
  intros w.
  destruct (start_parsing_single_request Mock.kb w) as (Hres & _ & _ & Hcalls & _).
  split; [exact Hres|exact Hcalls].
Defined.

(** Seven files and a batch size of zero: [ValueError], nothing read. *)
Lemma upload_files_batch_size_not_positive_witness :
  let w := Mock.quiet Mock.seven in
  let run := upload_files Mock.kb Mock.seven 0 false w in
  0 <= 0
  /\ read_paths (trace_of run) = []
  /\ upload_calls (trace_of run) = []
  /\ result_of run = Throw ValueError.
Proof.
  intros w run.
  assert (Hb : 0 <= 0) by lia.
  destruct (upload_files_batch_size_not_positive Mock.kb Mock.seven 0 false w Hb)
    as (Hreads & Hcalls & existing & Hinv & Hzero & _).
  vm_compute in Hinv. injection Hinv as <-.
  split; [exact Hb|]. split; [exact Hreads|]. split; [exact Hcalls|].
  assert (Hrem : List.filter (fun p => negb (skips false ∅ p)) Mock.seven <> [])
    by (vm_compute; discriminate).
  exact (f_equal result_of (Hzero eq_refl Hrem)).
Defined.

(** Seven files in batches of three: the call returns. *)
Lemma upload_files_summary_once_witness :
  let w := Mock.quiet Mock.seven in
  3 <> 0
  /\ exists st, result_of (upload_files Mock.kb Mock.seven 3 false w) = Done st.
Proof.
  intros w.
  assert (Hb : 3 <> 0) by lia.
  destruct (upload_files_summary_once Mock.kb Mock.seven 3 false w Hb)
    as (st & Hres & _).
  split; [exact Hb|]. by exists st.
Defined.

(** A remote [a.md] listed on one short page: [a.md] is known. *)
Lemma upload_files_dedup_single_page_witness :
  let w := Mock.already_there Mock.seven in
  let docs := [mkRemoteDoc (Some "1"%string) (Some "a.md"%string) None] in
  ds_list_documents Mock.kb (Some (1, page_size)) w = (Ok docs, w)
  /\ len docs < page_size
  /\ Forall (fun d => doc_id d <> None) docs
  /\ exists m,
       get_existing_documents Mock.kb w
       = (Done m, w, [EvListDocuments Mock.kb (Some (1, page_size)) (Ok docs)])
       /\ "a.md"%string ∈ dom m.
Proof.
  intros w docs.
  assert (Hlist : ds_list_documents Mock.kb (Some (1, page_size)) w
                  = (Ok docs, w)) by reflexivity.
  assert (Hshort : len docs < page_size) by (vm_compute; reflexivity).
  assert (Hids : Forall (fun d => doc_id d <> None) docs)
    by (repeat constructor; discriminate).
  destruct (upload_files_dedup_single_page Mock.kb Mock.seven 3 w w docs
              Hlist Hshort Hids) as ((m & Hrun & Hdom) & _).
  split; [exact Hlist|]. split; [exact Hshort|]. split; [exact Hids|].
  exists m. split; [exact Hrun|]. apply Hdom. reflexivity.
Defined.

(** Seven files, batches of five: exit status 0. *)
Lemma main_exit_status_witness :
  let w := Mock.quiet Mock.seven in
  batch_size Mock.upload_docs <> 0
  /\ result_of (main Mock.upload_docs w) = Done 0.
Proof.
  intros w.
  assert (Hb : batch_size Mock.upload_docs <> 0) by (simpl; lia).
  destruct (main_exit_status Mock.upload_docs w) as (_ & _ & Hstatus).
  split; [exact Hb|]. apply (Hstatus Hb).
  split; eexists; vm_compute; reflexivity.
Defined.

(** A directory holding a binary only: a warning and exit status 0. *)
Lemma main_no_supported_files_witness :
  let w := Mock.quiet [Mock.file "b.exe"] in
  let run := main Mock.upload_docs w in
  fs_exists "docs" w = true
  /\ fs_is_dir "docs" w = true
  /\ result_of run = Done 0
  /\ upload_calls (trace_of run) = []
  /\ parse_calls (trace_of run) = [].
Proof.
  intros w run.
  assert (Hres : get_or_create_dataset (dataset_name Mock.upload_docs) w
                 = (Done (Mock.created "kb"), w,
                    trace_of (get_or_create_dataset "kb" w)))
    by (vm_compute; reflexivity).
  assert (He : fs_exists (directory Mock.upload_docs) w = true)
    by (vm_compute; reflexivity).
  assert (Hd : fs_is_dir (directory Mock.upload_docs) w = true)
    by (vm_compute; reflexivity).
  assert (Hnone : forall p, p ∈ fs_rglob (directory Mock.upload_docs) w ->
                            fs_is_file p w = true ->
                            is_supported_file p = false).
  { intros p Hp _. change (p ∈ [Mock.file "b.exe"]) in Hp.
    apply elem_of_cons in Hp as [->|Hp]; [reflexivity|].
    by apply elem_of_nil in Hp. }
  destruct (main_no_supported_files Mock.upload_docs w w _ _ Hres He Hd Hnone)
    as (Hrun & _ & _ & Hu & Hp & _).
  split; [exact He|]. split; [exact Hd|].
  split; [exact (f_equal result_of Hrun)|]. split; [exact Hu|exact Hp].
Defined.

(** Seven files, batches of five, parsing requested: exit status 0 and the
    upload calls of the run are those of the upload step. *)
Lemma main_upload_then_parse_witness :
  let w := Mock.quiet Mock.seven in
  let run := main Mock.upload_docs w in
  Mock.seven <> []
  /\ batch_size Mock.upload_docs <> 0
  /\ result_of run = Done 0
  /\ upload_calls (trace_of run)
     = upload_calls
         (trace_of (upload_files (Mock.created "kb") Mock.seven 5 false w)).
Proof.
  intros w run.
  assert (Hres : get_or_create_dataset (dataset_name Mock.upload_docs) w
                 = (Done (Mock.created "kb"), w,
                    trace_of (get_or_create_dataset "kb" w)))
    by (vm_compute; reflexivity).
  assert (Hscan : result_of (get_files_from_directory
                               (directory Mock.upload_docs) w)
                  = Done Mock.seven) by (vm_compute; reflexivity).
  assert (Hfiles : Mock.seven <> []) by discriminate.
  assert (Hb : batch_size Mock.upload_docs <> 0) by (simpl; lia).
  destruct (main_upload_then_parse Mock.upload_docs w w _ _ Mock.seven
              Hres Hscan Hfiles Hb) as (Hexit & _ & _ & _ & Hu & _).
  split; [exact Hfiles|]. split; [exact Hb|]. split; [exact Hexit|exact Hu].
Defined.
